(** * django-pita: point-in-time architecture over a row store

    A shallow embedding of [src/pita/models.py], [src/pita/utils.py] and the
    request boundary of [src/pita/api.py].

    - A table of a [PointInTimeModel] subclass is a finite map from primary
      key ([id], alias [pk]) to the remaining columns of the row.
    - A model instance in memory is a pair of an optional primary key
      ([None] before the first raw save) and its columns.
    - A queryset is the sub-table of rows it selects.
    - A timestamp is a number of microseconds on one fixed time line, a
      calendar date is a day number; [timezone.now()] is passed to every
      operation that reads the clock.  The server runs with time zone
      support and its zone is UTC: the values [timezone.now()], the store
      and [make_aware] give are [PyDatetime t], whose wall clock is the time
      line itself.  A datetime that carries another UTC offset is
      [PyDatetimeTz t o]: the instant [t], read [o] microseconds later on
      its own wall clock.  A naive datetime is [PyNaive w].
    - Raw [Model.save] overwrites the row at the instance's key or inserts
      under an unused key.  Raw [Model.delete] first collects the rows of
      the referencing models that hold the deleted key, whatever manager
      hides them, and runs the [on_delete] handler of their foreign key; it
      removes the key if no handler raises.  Every operation the source
      wraps in [transaction.atomic] leaves the database as it was when it
      raises: an operation that raises gives no database.
    - The table is referenced through [FrozenForeignKey] fields; other
      relations to it are not part of the embedding.  Integrity checks of
      the backing store (NOT NULL, the deferred uniqueness constraint,
      foreign-key constraints) are the store's business and are not part of
      the embedding either. *)

From stdpp Require Import base option numbers list strings gmap fin_maps.

Local Open Scope Z_scope.

(** ** Python values and exceptions *)

Inductive pyval :=
  | PyNone
  | PyInt (n : Z)
  | PyStr (s : string)
  | PyDatetime (t : Z)
  | PyDate (d : Z)
  | PyDatetimeTz (t : Z) (utcoffset : Z)
  | PyNaive (w : Z).

Global Instance pyval_eq_dec : EqDecision pyval.
Proof. solve_decision. Defined.

Inductive error :=
  | AssertionError
  | ValueError
  | TypeError
  | AttributeError
  | ProtectedError
  | RestrictedError
  | Exception (msg : string).

Inductive result (A : Type) :=
  | Ok (a : A)
  | Err (e : error).
Arguments Ok {A} a.
Arguments Err {A} e.

Global Instance result_ret : MRet result := λ A a, Ok a.
Global Instance result_bind : MBind result := λ A B f r,
  match r with
  | Ok a => f a
  | Err e => Err e
  end.

(** [assert c] *)
Definition assert (c : bool) : result unit :=
  if c then Ok tt else Err AssertionError.

(** ** Dates and times *)

(** Microseconds in a calendar day. *)
Definition day : Z := 86400000000.
(** [datetime.time.min], 00:00:00. *)
Definition time_min : Z := 0.
(** [datetime.time.max], 23:59:59.999999. *)
Definition time_max : Z := 86399999999.
(** [datetime.datetime.combine(d, tod)] *)
Definition combine (d tod : Z) : Z := d * day + tod.
(** [value.date()] and [value.time()] of a datetime whose wall clock reads
    [t]. *)
Definition date_of (t : Z) : Z := t `div` day.
Definition time_of (t : Z) : Z := t `mod` day.


(** [timezone.is_aware(value)] *)
Definition is_aware (value : pyval) : bool :=
  match value with
  | PyDatetime _ | PyDatetimeTz _ _ => true
  | _ => false
  end.

(** [timezone.make_aware(value)]: a naive datetime is read in the server's
    zone; an aware one is refused. *)
Definition make_aware (value : pyval) : result pyval :=
  match value with
  | PyNaive w => Ok (PyDatetime w)
  | PyDatetime _ | PyDatetimeTz _ _ => Err ValueError
  | _ => Err AttributeError
  end.

(** ** Rows, instances and tables *)

Record Row := mkRow {
  row_id : option nat;
  created_at : option Z;
  replaced_at : option Z;
  modified_by : option nat;
  start_at : option Z;
  end_at : option Z;
  payload : gmap string pyval
}.

Record Instance := mkInstance {
  pk : option nat;
  cols : Row
}.

Global Instance Row_eq_dec : EqDecision Row.
Proof. solve_decision. Defined.
Global Instance Instance_eq_dec : EqDecision Instance.
Proof. solve_decision. Defined.

Abbreviation Table := (gmap nat Row).

Definition set_row_id (x : option nat) (r : Row) : Row :=
  mkRow x (created_at r) (replaced_at r) (modified_by r) (start_at r) (end_at r) (payload r).
Definition set_created_at (x : option Z) (r : Row) : Row :=
  mkRow (row_id r) x (replaced_at r) (modified_by r) (start_at r) (end_at r) (payload r).
Definition set_replaced_at (x : option Z) (r : Row) : Row :=
  mkRow (row_id r) (created_at r) x (modified_by r) (start_at r) (end_at r) (payload r).
Definition set_modified_by (x : option nat) (r : Row) : Row :=
  mkRow (row_id r) (created_at r) (replaced_at r) x (start_at r) (end_at r) (payload r).
Definition set_start_at (x : option Z) (r : Row) : Row :=
  mkRow (row_id r) (created_at r) (replaced_at r) (modified_by r) x (end_at r) (payload r).
Definition set_end_at (x : option Z) (r : Row) : Row :=
  mkRow (row_id r) (created_at r) (replaced_at r) (modified_by r) (start_at r) x (payload r).
Definition set_payload (x : gmap string pyval) (r : Row) : Row :=
  mkRow (row_id r) (created_at r) (replaced_at r) (modified_by r) (start_at r) (end_at r) x.

Definition set_pk (x : option nat) (v : Instance) : Instance := mkInstance x (cols v).
Definition on_cols (f : Row → Row) (v : Instance) : Instance := mkInstance (pk v) (f (cols v)).

(** ** Column lookups of the ORM

    A comparison with a NULL column selects nothing; [col=None] is
    [col IS NULL]. *)

Definition col_lte (c : option Z) (t : Z) : bool :=
  match c with Some x => bool_decide (x ≤ t) | None => false end.
Definition col_gte (c : option Z) (t : Z) : bool :=
  match c with Some x => bool_decide (t ≤ x) | None => false end.
Definition col_gt (c : option Z) (t : Z) : bool :=
  match c with Some x => bool_decide (t < x) | None => false end.
Definition col_isnull {A} (c : option A) : bool :=
  match c with Some _ => false | None => true end.

(** [qs.filter(...)] and [qs.exclude(...)] *)
Definition qs_filter (P : nat → Row → bool) (qs : Table) : Table :=
  filter (λ kr : nat * Row, P kr.1 kr.2) qs.
Definition qs_exclude (P : nat → Row → bool) (qs : Table) : Table :=
  qs_filter (λ k r, negb (P k r)) qs.

(** ** PointInTimeQuerySet *)

Module PointInTimeQuerySet.

Definition active (active_at : pyval) (now : Z) (self : Table) : result Table :=
  active_at ← (match active_at with
               | PyNone => Ok now
               | PyDatetime t => Ok t
               | PyDate d => Ok (combine d time_max)
               | PyDatetimeTz t _ => Ok t
               | PyNaive w => Ok w
               | _ => Err ValueError
               end);
  Ok (qs_filter (λ _ r, (col_gt (end_at r) active_at || col_isnull (end_at r))
                        && col_lte (start_at r) active_at) self).

Definition current (self : Table) : Table :=
  qs_filter (λ _ r, col_isnull (replaced_at r)) self.

Definition version (version_at : pyval) (self : Table) : result Table :=
  version_at ← (match version_at with
                | PyDatetime t => Ok t
                | PyDate d => Ok (combine d time_max)
                | PyDatetimeTz t _ => Ok t
                | PyNaive w => Ok w
                | _ => Err ValueError
                end);
  Ok (qs_filter (λ _ r, (col_gt (replaced_at r) version_at || col_isnull (replaced_at r))
                        && col_lte (created_at r) version_at) self).

End PointInTimeQuerySet.

(** ** PointInTimeBaseManager, the [records] handle *)

Module PointInTimeBaseManager.

Definition get_queryset (tbl : Table) : Table := tbl.

Definition active (active_at : pyval) (now : Z) (tbl : Table) : result Table :=
  qs ← PointInTimeQuerySet.active active_at now (get_queryset tbl);
  Ok (PointInTimeQuerySet.current qs).

Definition current (tbl : Table) : Table :=
  PointInTimeQuerySet.current (get_queryset tbl).

Definition version (version_at : pyval) (tbl : Table) : result Table :=
  PointInTimeQuerySet.version version_at (get_queryset tbl).

End PointInTimeBaseManager.

(** ** utils.py *)

(** The midnight test reads [value.time()], the wall clock of the value. *)
Definition date_or_datetime (value : pyval) : result pyval :=
  match value with
  | PyDatetime t =>
      if bool_decide (time_of t = time_min) then Ok (PyDate (date_of t)) else Ok value
  | PyDatetimeTz t o =>
      if bool_decide (time_of (t + o) = time_min) then Ok (PyDate (date_of (t + o)))
      else Ok value
  | PyNaive w =>
      if bool_decide (time_of w = time_min) then Ok (PyDate (date_of w)) else Ok value
  | PyNone | PyDate _ => Ok value
  | _ => Err TypeError
  end.

(** [fromisoformat] stands for [datetime.datetime.fromisoformat] on text:
    it gives [(w, None)] for a text without UTC offset, read [w] on the wall
    clock, and [(t, Some o)] for a text with UTC offset [o] that denotes the
    instant [t]. *)
Definition datetime_from_web (fromisoformat : string → option (Z * option Z)) (date : pyval)
    : result pyval :=
  match date with
  | PyDatetime _ | PyDatetimeTz _ _ | PyNaive _ => make_aware date
  | PyDate d => make_aware (PyNaive (combine d time_min))
  | PyStr s =>
      match fromisoformat s with
      | Some (w, None) => make_aware (PyNaive w)
      | Some (t, Some o) => Ok (PyDatetimeTz t o)
      | None => Ok PyNone
      end
  | _ => Ok PyNone
  end.

(** ** Model metadata *)

Record Field := mkField {
  name : string;
  primary_key : bool;
  one_to_one : bool
}.

Global Instance Field_eq_dec : EqDecision Field.
Proof. solve_decision. Defined.

(** A subclass declares its own concrete fields; the abstract base brings
    the surrogate key and the point-in-time columns. *)
Record Model := mkModel {
  own_fields : list Field;
  private_fields : list Field
}.

Definition pita_fields : list Field :=
  [ mkField "id" true false;
    mkField "row_id" false false;
    mkField "created_at" false false;
    mkField "replaced_at" false false;
    mkField "modified_by" false false;
    mkField "start_at" false false;
    mkField "end_at" false false ].

Definition concrete_fields (m : Model) : list Field := pita_fields ++ own_fields m.

(** Forward fields of [_meta.get_fields()]; reverse relations are never
    [OneToOneField] instances. *)
Definition get_fields (m : Model) : list Field := concrete_fields m ++ private_fields m.

Definition get_one_to_one_fields (model : Model) : list string :=
  name <$> filter (λ f, one_to_one f = true) (get_fields model).

(** ** Attribute access by name *)

Inductive slot := SId | SRowId | SCreatedAt | SReplacedAt | SModifiedBy | SStartAt | SEndAt | SPayload.

Definition slot_of (n : string) : slot :=
  if String.eqb n "id" then SId
  else if String.eqb n "row_id" then SRowId
  else if String.eqb n "created_at" then SCreatedAt
  else if String.eqb n "replaced_at" then SReplacedAt
  else if String.eqb n "modified_by" then SModifiedBy
  else if String.eqb n "start_at" then SStartAt
  else if String.eqb n "end_at" then SEndAt
  else SPayload.

Definition slot_name (s : slot) : string :=
  match s with
  | SId => "id"
  | SRowId => "row_id"
  | SCreatedAt => "created_at"
  | SReplacedAt => "replaced_at"
  | SModifiedBy => "modified_by"
  | SStartAt => "start_at"
  | SEndAt => "end_at"
  | SPayload => EmptyString
  end.

Definition of_key (o : option nat) : pyval :=
  match o with Some k => PyInt (Z.of_nat k) | None => PyNone end.
Definition of_time (o : option Z) : pyval :=
  match o with Some t => PyDatetime t | None => PyNone end.

(** [getattr(instance, n)] *)
Definition getattr (n : string) (v : Instance) : pyval :=
  match slot_of n with
  | SId => of_key (pk v)
  | SRowId => of_key (row_id (cols v))
  | SCreatedAt => of_time (created_at (cols v))
  | SReplacedAt => of_time (replaced_at (cols v))
  | SModifiedBy => of_key (modified_by (cols v))
  | SStartAt => of_time (start_at (cols v))
  | SEndAt => of_time (end_at (cols v))
  | SPayload => default PyNone (payload (cols v) !! n)
  end.

(** [setattr(dst, n, getattr(src, n))] *)
Definition copy_attr (n : string) (src dst : Instance) : Instance :=
  match slot_of n with
  | SId => set_pk (pk src) dst
  | SRowId => on_cols (set_row_id (row_id (cols src))) dst
  | SCreatedAt => on_cols (set_created_at (created_at (cols src))) dst
  | SReplacedAt => on_cols (set_replaced_at (replaced_at (cols src))) dst
  | SModifiedBy => on_cols (set_modified_by (modified_by (cols src))) dst
  | SStartAt => on_cols (set_start_at (start_at (cols src))) dst
  | SEndAt => on_cols (set_end_at (end_at (cols src))) dst
  | SPayload =>
      on_cols (set_payload (<[n := default PyNone (payload (cols src) !! n)]> (payload (cols dst)))) dst
  end.

(** [setattr(instance, n, None)] *)
Definition null_attr (n : string) (v : Instance) : Instance :=
  match slot_of n with
  | SId => set_pk None v
  | SRowId => on_cols (set_row_id None) v
  | SCreatedAt => on_cols (set_created_at None) v
  | SReplacedAt => on_cols (set_replaced_at None) v
  | SModifiedBy => on_cols (set_modified_by None) v
  | SStartAt => on_cols (set_start_at None) v
  | SEndAt => on_cols (set_end_at None) v
  | SPayload => on_cols (set_payload (<[n := PyNone]> (payload (cols v)))) v
  end.

(** ** Referencing models with a FrozenForeignKey to this model *)

(** The [on_delete] argument of a foreign key; [SET_DEFAULT] is [SET] of
    the field's default. *)
Inductive handler :=
  | CASCADE
  | PROTECT
  | RESTRICT
  | SET_NULL
  | SET (value : pyval)
  | DO_NOTHING.

Inductive Referrer :=
  | PitaReferrer (fk : string) (on_delete : handler) (rows : Table)
  | PlainReferrer (fk : string) (on_delete : handler) (rows : gmap nat (gmap string pyval)).

Record Database := mkDatabase {
  table : Table;
  referrers : list Referrer
}.

Definition on_delete (ref : Referrer) : handler :=
  match ref with
  | PitaReferrer _ h _ => h
  | PlainReferrer _ h _ => h
  end.

Definition points_to (fk : string) (k : nat) (p : gmap string pyval) : bool :=
  bool_decide (p !! fk = Some (PyInt (Z.of_nat k))).

(** The reverse manager of a referencing model is built on its default
    manager: for a point-in-time referrer that is [objects], the current
    rows only. *)
Definition related_pita (fk : string) (k : nat) (r : Row) : bool :=
  col_isnull (replaced_at r) && points_to fk k (payload r).

Definition has_related (k : nat) (ref : Referrer) : bool :=
  match ref with
  | PitaReferrer fk _ rows => bool_decide (qs_filter (λ _ r, related_pita fk k r) rows ≠ ∅)
  | PlainReferrer fk _ rows => bool_decide (filter (λ kp, points_to fk k kp.2 = true) rows ≠ ∅)
  end.

(** [setattr(related, fk, target)] followed by the raw save of [related],
    for every related row. *)
Definition repoint (k target : nat) (ref : Referrer) : Referrer :=
  match ref with
  | PitaReferrer fk h rows =>
      PitaReferrer fk h
        ((λ r, if related_pita fk k r
               then set_payload (<[fk := PyInt (Z.of_nat target)]> (payload r)) r
               else r) <$> rows)
  | PlainReferrer fk h rows =>
      PlainReferrer fk h
        ((λ p, if points_to fk k p then <[fk := PyInt (Z.of_nat target)]> p else p) <$> rows)
  end.

(** *** The deletion collector

    The collector looks for referencing rows through the base manager of
    the referencing model, which returns every row, replaced or not. *)
Definition holds_key (k : nat) (ref : Referrer) : bool :=
  match ref with
  | PitaReferrer fk _ rows =>
      bool_decide (qs_filter (λ _ r, points_to fk k (payload r)) rows ≠ ∅)
  | PlainReferrer fk _ rows =>
      bool_decide (filter (λ kp, points_to fk k kp.2 = true) rows ≠ ∅)
  end.

(** The handlers that do not raise: [CASCADE] deletes the referencing rows,
    [SET_NULL] and [SET] overwrite their foreign key, [DO_NOTHING] leaves
    them.  A handler is called only if there are referencing rows. *)
Definition on_delete_rows (k : nat) (ref : Referrer) : Referrer :=
  if holds_key k ref then
    match ref with
    | PitaReferrer fk h rows =>
        match h with
        | CASCADE => PitaReferrer fk h (qs_exclude (λ _ r, points_to fk k (payload r)) rows)
        | SET_NULL =>
            PitaReferrer fk h
              ((λ r, if points_to fk k (payload r)
                     then set_payload (<[fk := PyNone]> (payload r)) r else r) <$> rows)
        | SET value =>
            PitaReferrer fk h
              ((λ r, if points_to fk k (payload r)
                     then set_payload (<[fk := value]> (payload r)) r else r) <$> rows)
        | _ => ref
        end
    | PlainReferrer fk h rows =>
        match h with
        | CASCADE => PlainReferrer fk h (filter (λ kp, points_to fk k kp.2 = false) rows)
        | SET_NULL =>
            PlainReferrer fk h ((λ p, if points_to fk k p then <[fk := PyNone]> p else p) <$> rows)
        | SET value =>
            PlainReferrer fk h ((λ p, if points_to fk k p then <[fk := value]> p else p) <$> rows)
        | _ => ref
        end
    end
  else ref.

Definition protects (k : nat) (ref : Referrer) : bool :=
  match on_delete ref with PROTECT => holds_key k ref | _ => false end.
Definition restricts (k : nat) (ref : Referrer) : bool :=
  match on_delete ref with RESTRICT => holds_key k ref | _ => false end.

(** [Collector.collect] for the row under [k]: protected rows are reported
    first, restricted rows next. *)
Definition collect (k : nat) (refs : list Referrer) : result (list Referrer) :=
  if existsb (protects k) refs then Err ProtectedError
  else if existsb (restricts k) refs then Err RestrictedError
  else Ok (on_delete_rows k <$> refs).

(** ** django.db.models.Model: the raw primitives *)

Module Model_.

(** An identifier the store has not handed out for this table. *)
Definition new_pk (tbl : Table) : nat := S (max_list ((map_to_list tbl).*1)).

Definition save (self : Instance) (tbl : Table) : Table * Instance :=
  match pk self with
  | Some k => (<[k := cols self]> tbl, self)
  | None => let k := new_pk tbl in (<[k := cols self]> tbl, set_pk (Some k) self)
  end.

(** Deleting an instance without a key is refused; afterwards the
    instance in memory has no key. *)
Definition delete (self : Instance) (db : Database) : result (Database * Instance) :=
  match pk self with
  | Some k =>
      refs ← collect k (referrers db);
      Ok (mkDatabase (base.delete k (table db)) refs, set_pk None self)
  | None => Err ValueError
  end.

End Model_.

(** [for record in qs: record._delete()] *)
Definition delete_each (qs : Table) (db : Database) : result Database :=
  foldr (λ kr acc, db ← acc;
                   '(db, _) ← Model_.delete (mkInstance (Some kr.1) kr.2) db;
                   Ok db)
    (Ok db) (map_to_list qs).

(** [qs.order_by("-created_at", "-pk").first()]; a NULL [created_at]
    sorts below every timestamp. *)
Definition version_lt (a b : nat * Row) : bool :=
  match created_at a.2, created_at b.2 with
  | Some x, Some y => bool_decide (x < y) || (bool_decide (x = y) && bool_decide (a.1 < b.1)%nat)
  | None, Some _ => true
  | Some _, None => false
  | None, None => bool_decide (a.1 < b.1)%nat
  end.

Definition latest_first (qs : Table) : option (nat * Row) :=
  foldr (λ kr best,
           match best with
           | Some b => if version_lt b kr then Some kr else Some b
           | None => Some kr
           end) None (map_to_list qs).

(** The value of a [DateTimeField] lookup such as [created_at__lte=value]:
    the ORM compares a datetime as the instant it denotes, turns a date
    into the datetime at 00:00 of that day in the server's zone, and rejects
    [None] and values that are not times. *)
Definition get_prep_value (value : pyval) : result Z :=
  match value with
  | PyDatetime t => Ok t
  | PyDate d => Ok (combine d time_min)
  | PyDatetimeTz t _ => Ok t
  | PyNaive w => Ok w
  | _ => Err ValueError
  end.

(** ** PointInTimeDefaultManager, the [objects] handle *)

Module PointInTimeDefaultManager.

Definition get_queryset (tbl : Table) : Table := PointInTimeQuerySet.current tbl.

Definition current (tbl : Table) : Table := get_queryset tbl.

Definition active (active_at : pyval) (now : Z) (tbl : Table) : result Table :=
  PointInTimeQuerySet.active active_at now (get_queryset tbl).

Definition copy (pk_ : option nat) (exclude : list string) (tbl : Table)
    : option (Table * Instance) :=
  match pk_ ≫= (λ k, current tbl !! k) with
  | None => None
  | Some r =>
      let instance := mkInstance None r in
      let instance := foldl (λ i field_name, null_attr field_name i) instance exclude in
      Some (Model_.save instance tbl)
  end.

End PointInTimeDefaultManager.

(** Outcome of [clean]: it passes, raises [ValidationError], or fails to
    compare [end_at] with a missing [start_at]. *)
Inductive validation :=
  | Valid
  | ValidationError (msg : string)
  | Uncomparable.

(** ** PointInTimeModel *)

Module PointInTimeModel.

Definition _save := Model_.save.
Definition _delete := Model_.delete.

Definition copy (exclude : list string) (self : Instance) (tbl : Table)
    : option (Table * Instance) :=
  PointInTimeDefaultManager.copy (pk self) exclude tbl.

(** An unsaved [self] cannot reach its reverse managers, and a related
    row cannot be saved while it points at an unsaved [target]. *)
Definition move_frozen_relationships (self target : Instance) (refs : list Referrer)
    : result (list Referrer) :=
  match refs with
  | [] => Ok []
  | _ =>
      match pk self with
      | None => Err ValueError
      | Some k =>
          match pk target with
          | Some t => Ok (repoint k t <$> refs)
          | None => if existsb (has_related k) refs then Err ValueError else Ok refs
          end
      end
  end.

Definition save (m : Model) (now : Z) (user : option nat) (self : Instance) (db : Database)
    : result (Database * Instance) :=
  let current_time := now in
  '(db, self) ←
    (match pk self with
     | Some self_pk =>
         _ ← assert (col_isnull (replaced_at (cols self)));
         match copy (get_one_to_one_fields m) self (table db) with
         | None => Err AssertionError
         | Some (tbl, original) =>
             let original := on_cols (set_replaced_at (Some current_time)) original in
             let original := on_cols (set_row_id (Some self_pk)) original in
             let '(tbl, original) := _save original tbl in
             refs ← move_frozen_relationships self original (referrers db);
             Ok (mkDatabase tbl refs, self)
         end
     | None =>
         Ok (db, on_cols (set_replaced_at None) (on_cols (set_row_id None) self))
     end);
  let self := on_cols (set_created_at (Some current_time)) self in
  let self := on_cols (set_replaced_at None) self in
  let self := on_cols (set_modified_by
                (match user with Some u => Some u | None => modified_by (cols self) end)) self in
  let self := on_cols (set_start_at
                (match start_at (cols self) with Some s => Some s | None => Some current_time end)) self in
  let '(tbl, self) := _save self (table db) in
  match row_id (cols self) with
  | None =>
      let self := on_cols (set_row_id (pk self)) self in
      let '(tbl, self) := _save self tbl in
      Ok (mkDatabase tbl (referrers db), self)
  | Some _ => Ok (mkDatabase tbl (referrers db), self)
  end.

Definition delete (now : Z) (self : Instance) (db : Database) : Database * Instance :=
  let current_time := now in
  let self := on_cols (set_replaced_at (Some current_time)) self in
  let '(tbl, self) := _save self (table db) in
  (mkDatabase tbl (referrers db), self).

Definition purge (self : Instance) (db : Database) : result (Database * Instance) :=
  let others :=
    qs_exclude (λ k _, bool_decide (Some k = pk self))
      (qs_filter (λ _ r, bool_decide (row_id r = row_id (cols self))) (table db)) in
  db ← delete_each others db;
  _delete self db.

(** One pass of the loop over [chain(opts.concrete_fields, opts.private_fields)]. *)
Definition revert_field (fields : option (list string)) (exclude : list string)
    (previous : Instance) (self : Instance) (f : Field) : Instance :=
  if (match fields with
      | Some fs => negb (bool_decide (name f ∈ fs))
      | None => false
      end) then self
  else if bool_decide (name f ∈ exclude) then self
  else if primary_key f then self
  else copy_attr (name f) previous self.

Definition revert_fields (m : Model) (fields : option (list string)) (exclude : list string)
    (previous : Instance) (self : Instance) : Instance :=
  foldl (revert_field fields exclude previous) self (concrete_fields m ++ private_fields m).

Definition _rollback_to (m : Model) (previous : Instance)
    (fields exclude : option (list string)) (self : Instance) (db : Database)
    : result (Database * Instance) :=
  if bool_decide (pk self = pk previous)
  then Err (Exception "Cannot rollback to the same version of a row")
  else if negb (col_isnull (replaced_at (cols self)))
  then Err (Exception "Can only rollback a most recent version of a row")
  else
    _ ← (match created_at (cols self), created_at (cols previous) with
         | Some c, Some pc => assert (bool_decide (pc < c))
         | _, _ => Err TypeError
         end);
    let exclude := default [] exclude ++ get_one_to_one_fields m in
    let self := revert_fields m fields exclude previous self in
    let self := on_cols (set_replaced_at None) self in
    let self := on_cols (set_created_at (created_at (cols previous))) self in
    _ ← assert (bool_decide (created_at (cols self) = created_at (cols previous)));
    refs ← move_frozen_relationships previous self (referrers db);
    created ← (match created_at (cols self) with Some c => Ok c | None => Err ValueError end);
    let doomed :=
      qs_exclude (λ k _, bool_decide (Some k = pk self))
        (qs_filter (λ _ r, col_gte (created_at r) created
                           && bool_decide (row_id r = row_id (cols self))) (table db)) in
    db ← delete_each doomed (mkDatabase (table db) refs);
    let '(tbl, self) := _save self (table db) in
    Ok (mkDatabase tbl (referrers db), self).

Definition rollback_to_at (m : Model) (time : pyval)
    (fields exclude : option (list string)) (self : Instance) (db : Database)
    : result (Database * Instance) :=
  created ← (match created_at (cols self) with Some c => Ok c | None => Err ValueError end);
  _ ← assert (bool_decide
         (size (qs_filter (λ _ r, bool_decide (row_id r = row_id (cols self))
                                  && col_gte (created_at r) created) (table db)) = 1%nat));
  time ← get_prep_value time;
  let target :=
    latest_first
      (qs_filter (λ _ r, bool_decide (row_id r = row_id (cols self))
                         && col_lte (created_at r) time) (table db)) in
  match target with
  | None => purge self db
  | Some (k, r) =>
      if bool_decide (Some k = pk self) then Ok (db, self)
      else _rollback_to m (mkInstance (Some k) r) fields exclude self db
  end.

Definition rollback_latest (m : Model)
    (fields exclude : option (list string)) (self : Instance) (db : Database)
    : result (Database * Instance) :=
  let previous :=
    latest_first
      (qs_exclude (λ k _, bool_decide (Some k = pk self))
         (qs_filter (λ _ r, bool_decide (row_id r = row_id (cols self))) (table db))) in
  match previous with
  | None => _delete self db
  | Some (k, r) => _rollback_to m (mkInstance (Some k) r) fields exclude self db
  end.

Definition clean (self : Instance) : validation :=
  match end_at (cols self) with
  | None => Valid
  | Some e =>
      match start_at (cols self) with
      | None => Uncomparable
      | Some s =>
          if bool_decide (e ≤ s) then ValidationError "end_at must be > start_at" else Valid
      end
  end.

End PointInTimeModel.

(** ** api.py: PointInTimeModelViewSet *)

Module PointInTimeModelViewSet.

(** Request parameters arrive as text or are absent ([PyNone]).  The
    [records] manager has no method [past] and [active] has no parameter
    [time]: both calls raise as soon as they are reached. *)
Definition get_queryset (fromisoformat : string → option (Z * option Z))
    (filter_queryset : Table → Table) (method : string)
    (GET_active_at GET_version_at : pyval) (tbl : Table) : result Table :=
  let qs := PointInTimeDefaultManager.get_queryset tbl in
  qs ← (if String.eqb method "GET" then
          active_at ← datetime_from_web fromisoformat GET_active_at ≫= date_or_datetime;
          version_at ← datetime_from_web fromisoformat GET_version_at ≫= date_or_datetime;
          qs ← (match version_at with
                | PyNone => Ok qs
                | _ => Err AttributeError
                end);
          match active_at with
          | PyNone => Ok qs
          | _ => Err TypeError
          end
        else Ok qs);
  Ok (filter_queryset qs).

Definition rollback (fromisoformat : string → option (Z * option Z)) (m : Model)
    (data_time : pyval) (fields exclude : option (list string))
    (instance : Instance) (db : Database) : result (Database * Instance) :=
  time ← datetime_from_web fromisoformat data_time ≫= date_or_datetime;
  match time with
  | PyNone => PointInTimeModel.rollback_latest m fields exclude instance db
  | _ => PointInTimeModel.rollback_to_at m time fields exclude instance db
  end.

End PointInTimeModelViewSet.

(** ** Notions of the specification *)

(** The last instant of calendar day [d]. *)
Definition last_instant_of_day (d : Z) : Z := (d + 1) * day - 1.

(** A time input is a timestamp or a pure date. *)
Inductive time_input :=
  | AtDatetime (t : Z)
  | AtDate (d : Z).

Definition to_py (i : time_input) : pyval :=
  match i with
  | AtDatetime t => PyDatetime t
  | AtDate d => PyDate d
  end.

Definition normalized (i : time_input) : Z :=
  match i with
  | AtDatetime t => t
  | AtDate d => last_instant_of_day d
  end.

(** Validity window and transaction-time window covering an instant. *)
Definition valid_at (t : Z) (r : Row) : Prop :=
  (∃ s, start_at r = Some s ∧ s ≤ t) ∧ (end_at r = None ∨ ∃ e, end_at r = Some e ∧ t < e).

Definition recorded_at (t : Z) (r : Row) : Prop :=
  (∃ c, created_at r = Some c ∧ c ≤ t) ∧ (replaced_at r = None ∨ ∃ x, replaced_at r = Some x ∧ t < x).

(** A field is reverted when it is not the primary key, not one-to-one, not
    excluded, and named by the inclusion list if there is one. *)
Definition reverted (fields exclude : option (list string)) (f : Field) : bool :=
  negb (primary_key f) && negb (one_to_one f)
  && negb (bool_decide (name f ∈ default [] exclude))
  && match fields with
     | None => true
     | Some fs => bool_decide (name f ∈ fs)
     end.

(** The key a frozen field holds. *)
Definition key_of (x : pyval) : option nat :=
  match x with
  | PyInt z => if bool_decide (0 ≤ z) then Some (Z.to_nat z) else None
  | _ => None
  end.

(** A frozen reference edge is a row [j] of a referencing model; its target
    is the key its frozen field holds. *)
Definition edge_target (ref : Referrer) (j : nat) : option nat :=
  match ref with
  | PitaReferrer fk _ rows => rows !! j ≫= λ r, payload r !! fk ≫= key_of
  | PlainReferrer fk _ rows => rows !! j ≫= λ pl, pl !! fk ≫= key_of
  end.

(** The edge is held by a row the referencing model's default manager
    returns. *)
Definition edge_live (ref : Referrer) (j : nat) : Prop :=
  match ref with
  | PitaReferrer fk _ rows => ∃ r, rows !! j = Some r ∧ replaced_at r = None
  | PlainReferrer fk _ rows => is_Some (rows !! j)
  end.

Definition ref_keys (ref : Referrer) : gset nat :=
  match ref with
  | PitaReferrer fk _ rows => dom rows
  | PlainReferrer fk _ rows => dom rows
  end.

(** No row of a referencing model holds the key [k]. *)
Definition unreferenced (k : nat) (refs : list Referrer) : Prop :=
  ∀ i ref j, refs !! i = Some ref → edge_target ref j ≠ Some k.

(** The versions a core revert of [v] to a target created at [tc]
    destroys: the versions of the group of [v] created at or after [tc],
    the row of [v] apart. *)
Definition destroyed (v : Instance) (tc : Z) (tbl : Table) (k : nat) : Prop :=
  Some k ≠ pk v ∧
  ∃ r x, tbl !! k = Some r ∧ row_id r = row_id (cols v) ∧ created_at r = Some x ∧ tc ≤ x.

(** Every referencing row that holds the key of a destroyed version is
    moved before the delete: it holds the key [q] of the target and the
    reverse manager returns it. *)
Definition edges_movable (v : Instance) (q : nat) (tc : Z) (db : Database) : Prop :=
  ∀ i ref j k, referrers db !! i = Some ref → edge_target ref j = Some k →
    destroyed v tc (table db) k → k = q ∧ edge_live ref j.

(** The table without the rows of [qs]. *)
Definition without_rows (qs : Table) (tbl : Table) : Table :=
  foldr (λ kr t, base.delete kr.1 t) tbl (map_to_list qs).



(** [version(t)] never returns two versions of one row group. *)
Definition one_version_per_group (tbl : Table) : Prop :=
  ∀ (t : Z) (qs : Table) (k1 k2 : nat) (r1 r2 : Row),
    PointInTimeQuerySet.version (PyDatetime t) tbl = Ok qs →
    qs !! k1 = Some r1 → qs !! k2 = Some r2 →
    row_id r1 = row_id r2 → k1 = k2.

(** The stored row as [copy] writes it back: the excluded attributes set
    to [None]. *)
Definition nulled (names : list string) (r : Row) : Instance :=
  foldl (λ i field_name, null_attr field_name i) (mkInstance None r) names.

(** The historical row an update leaves behind for the row stored at [p]. *)
Definition clone_of (m : Model) (now : Z) (p : nat) (r : Row) : Row :=
  set_row_id (Some p) (set_replaced_at (Some now) (cols (nulled (get_one_to_one_fields m) r))).

(** The instance as an update writes it under its own key [p]. *)
Definition updated (now : Z) (user : option nat) (p : nat) (v : Instance) : Instance :=
  mkInstance (Some p)
    (mkRow (match row_id (cols v) with Some g => Some g | None => Some p end)
       (Some now) None
       (match user with Some u => Some u | None => modified_by (cols v) end)
       (match start_at (cols v) with Some s => Some s | None => Some now end)
       (end_at (cols v)) (payload (cols v))).

(** The instance as a create writes it under the new key [k]. *)
Definition created (now : Z) (user : option nat) (k : nat) (v : Instance) : Instance :=
  mkInstance (Some k)
    (mkRow (Some k) (Some now) None
       (match user with Some u => Some u | None => modified_by (cols v) end)
       (match start_at (cols v) with Some s => Some s | None => Some now end)
       (end_at (cols v)) (payload (cols v))).

(** Every [row_id] names a stored row. *)
Definition row_ids_stored (tbl : Table) : Prop :=
  ∀ j r g, tbl !! j = Some r → row_id r = Some g → is_Some (tbl !! g).

(** The instance as the core revert writes it: the selected fields of the
    target, current again, at the target's place in transaction time. *)
Definition reverted_instance (m : Model) (fields exclude : option (list string))
    (previous self : Instance) : Instance :=
  on_cols (set_created_at (created_at (cols previous)))
    (on_cols (set_replaced_at None)
       (PointInTimeModel.revert_fields m fields
          (default [] exclude ++ get_one_to_one_fields m) previous self)).

(** ** Sample data *)

Module Sample.

(** A model with a text column and a one-to-one link. *)
Definition model : Model :=
  mkModel [mkField "c1" false false; mkField "partner" false true] [].

Definition no_parse : string → option (Z * option Z) := λ _, None.

(** A parser that knows two texts for the start of day 1: one without UTC
    offset, one written five hours behind UTC. *)
Definition hour : Z := 3600000000.
Definition fromisoformat (s : string) : option (Z * option Z) :=
  if String.eqb s "1970-01-02T00:00:00" then Some (combine 1 time_min, None)
  else if String.eqb s "1970-01-02T00:00:00-05:00"
       then Some (combine 1 time_min + 5 * hour, Some (- (5 * hour)))
  else None.

(** A group with one historical version written on day 0 and its current
    version written five microseconds into day 1. *)
Definition old_row : Row :=
  mkRow (Some 1%nat) (Some 10) (Some (day + 5)) None (Some 10) None
    {[ "c1" := PyStr "first"; "partner" := PyNone ]}.
Definition new_row : Row :=
  mkRow (Some 1%nat) (Some (day + 5)) None None (Some 10) None
    {[ "c1" := PyStr "second"; "partner" := PyInt 7 ]}.
Definition two_versions : Database :=
  mkDatabase {[ 1%nat := new_row; 2%nat := old_row ]} [].
Definition current_instance : Instance := mkInstance (Some 1%nat) new_row.

(** The same group with one ordinary row and one current point-in-time row
    whose frozen field was set after the last edit, and so holds key 1. *)
Definition referenced : Database :=
  mkDatabase {[ 1%nat := new_row; 2%nat := old_row ]}
    [ PlainReferrer "frozen" PROTECT {[ 1%nat := {[ "frozen" := PyInt 1 ]} ]};
      PitaReferrer "frozen" PROTECT
        {[ 1%nat := mkRow (Some 1%nat) (Some (day + 9)) None None (Some 10) None
                      {[ "frozen" := PyInt 1 ]} ]} ].

(** The same group with an edge formed before the last edit, which that
    edit moved to the historical version under key 2. *)
Definition referenced_before : Database :=
  mkDatabase {[ 1%nat := new_row; 2%nat := old_row ]}
    [ PlainReferrer "frozen" PROTECT {[ 1%nat := {[ "frozen" := PyInt 2 ]} ]} ].

(** The same group held by a point-in-time referrer: its current row holds
    the historical version under key 2, and so does a replaced row of its
    own history, which the reverse manager does not return. *)
Definition referenced_by_history : Database :=
  mkDatabase {[ 1%nat := new_row; 2%nat := old_row ]}
    [ PitaReferrer "frozen" PROTECT
        {[ 1%nat := mkRow (Some 1%nat) (Some (day + 9)) None None (Some 10) None
                      {[ "frozen" := PyInt 2 ]};
           2%nat := mkRow (Some 1%nat) (Some 20) (Some (day + 9)) None (Some 10) None
                      {[ "frozen" := PyInt 2 ]} ]} ].

(** A group that has never been edited. *)
Definition first_row : Row :=
  mkRow (Some 1%nat) (Some 10) None None (Some 10) None {[ "c1" := PyStr "first" ]}.
Definition one_version : Database := mkDatabase {[ 1%nat := first_row ]} [].
Definition first_instance : Instance := mkInstance (Some 1%nat) first_row.


(** The current version edited in memory, not yet saved. *)
Definition edited_instance : Instance :=
  mkInstance (Some 1%nat)
    (set_payload {[ "c1" := PyStr "third"; "partner" := PyInt 7 ]} new_row).

End Sample.

(** * Properties *)

Lemma lookup_qs_filter (P : nat → Row → bool) (qs : Table) (k : nat) (r : Row) :
  qs_filter P qs !! k = Some r ↔ qs !! k = Some r ∧ P k r = true.
Proof.
  unfold qs_filter. rewrite map_lookup_filter_Some. simpl.
  by rewrite Is_true_true.
Qed.

Lemma col_lte_spec (c : option Z) (t : Z) :
  col_lte c t = true ↔ ∃ x, c = Some x ∧ x ≤ t.
Proof.
  destruct c as [x|]; simpl.
  - rewrite bool_decide_eq_true. split.
    + intros H. by exists x.
    + intros (y & [= <-] & H). done.
  - split; [done | by intros (y & ? & _)].
Qed.

Lemma col_gte_spec (c : option Z) (t : Z) :
  col_gte c t = true ↔ ∃ x, c = Some x ∧ t ≤ x.
Proof.
  destruct c as [x|]; simpl.
  - rewrite bool_decide_eq_true. split.
    + intros H. by exists x.
    + intros (y & [= <-] & H). done.
  - split; [done | by intros (y & ? & _)].
Qed.

Lemma col_isnull_spec {A} (c : option A) : col_isnull c = true ↔ c = None.
Proof. by destruct c. Qed.

Lemma col_open_or_gt_spec (c : option Z) (t : Z) :
  col_gt c t || col_isnull c = true ↔ c = None ∨ ∃ x, c = Some x ∧ t < x.
Proof.
  destruct c as [x|]; simpl.
  - rewrite orb_false_r, bool_decide_eq_true. split.
    + intros H. right. by exists x.
    + intros [? | (y & [= <-] & H)]; done.
  - split; [by left | done].
Qed.

Lemma valid_window_spec (t : Z) (r : Row) :
  (col_gt (end_at r) t || col_isnull (end_at r)) && col_lte (start_at r) t = true
  ↔ valid_at t r.
Proof.
  rewrite andb_true_iff, col_open_or_gt_spec, col_lte_spec. unfold valid_at. tauto.
Qed.

Lemma recorded_window_spec (t : Z) (r : Row) :
  (col_gt (replaced_at r) t || col_isnull (replaced_at r)) && col_lte (created_at r) t = true
  ↔ recorded_at t r.
Proof.
  rewrite andb_true_iff, col_open_or_gt_spec, col_lte_spec. unfold recorded_at. tauto.
Qed.

Lemma combine_time_max (d : Z) : combine d time_max = last_instant_of_day d.
Proof. unfold combine, last_instant_of_day, time_max, day. lia. Qed.

Lemma last_instant_of_day_date (d : Z) :
  date_of (last_instant_of_day d) = d ∧ date_of (last_instant_of_day d + 1) = d + 1.
Proof.
  unfold date_of, last_instant_of_day, day. split.
  - symmetry. apply (Z.div_unique _ _ d 86399999999); lia.
  - symmetry. apply (Z.div_unique _ _ (d + 1) 0); lia.
Qed.

Lemma lookup_current (tbl : Table) (k : nat) (r : Row) :
  PointInTimeQuerySet.current tbl !! k = Some r ↔ tbl !! k = Some r ∧ replaced_at r = None.
Proof.
  unfold PointInTimeQuerySet.current. by rewrite lookup_qs_filter, col_isnull_spec.
Qed.

(** ** The query engine *)

(** C6: for every datetime [t], [records.active(t)] returns exactly the
    versions with [replaced_at] null, [start_at <= t] and [end_at] null or
    strictly after [t]; a version starting exactly at [t] is returned, a
    version ending exactly at [t] is not. *)
Theorem active_selects_current_rows_valid_at (t now : Z) (tbl : Table) :
  ∃ qs, PointInTimeBaseManager.active (PyDatetime t) now tbl = Ok qs ∧
    (∀ k r, qs !! k = Some r ↔
       tbl !! k = Some r ∧ replaced_at r = None ∧
       (∃ s, start_at r = Some s ∧ s ≤ t) ∧
       (end_at r = None ∨ ∃ e, end_at r = Some e ∧ t < e)) ∧
    (∀ k r, tbl !! k = Some r → replaced_at r = None → start_at r = Some t →
       (end_at r = None ∨ ∃ e, end_at r = Some e ∧ t < e) → qs !! k = Some r) ∧
    (∀ k r, end_at r = Some t → qs !! k ≠ Some r).
Proof.
  eexists. split; [reflexivity |].
  assert (Hiff : ∀ k r,
    PointInTimeQuerySet.current
      (qs_filter (λ _ r, (col_gt (end_at r) t || col_isnull (end_at r))
                         && col_lte (start_at r) t)
         (PointInTimeBaseManager.get_queryset tbl)) !! k = Some r ↔
    tbl !! k = Some r ∧ replaced_at r = None ∧
    (∃ s, start_at r = Some s ∧ s ≤ t) ∧
    (end_at r = None ∨ ∃ e, end_at r = Some e ∧ t < e)).
  { intros k r. rewrite lookup_current, lookup_qs_filter, valid_window_spec.
    unfold valid_at, PointInTimeBaseManager.get_queryset. tauto. }
  split; [exact Hiff |]. split.
  - intros k r Hk Hrep Hstart Hend. apply Hiff. repeat split; try done.
    exists t. split; [done | lia].
  - intros k r Hend Hin. apply Hiff in Hin as (_ & _ & _ & [Hnone | (e & He & Hlt)]).
    + congruence.
    + rewrite Hend in He. injection He as <-. lia.
Qed.

(** The default manager [objects] selects the same rows. *)
Lemma objects_active_eq_records_active (a : pyval) (now : Z) (tbl : Table) :
  match PointInTimeDefaultManager.active a now tbl, PointInTimeBaseManager.active a now tbl with
  | Ok qs1, Ok qs2 => qs1 = qs2
  | Err e1, Err e2 => e1 = e2
  | _, _ => False
  end.
Proof.
  unfold PointInTimeDefaultManager.active, PointInTimeBaseManager.active,
    PointInTimeQuerySet.active, PointInTimeDefaultManager.get_queryset,
    PointInTimeBaseManager.get_queryset.
  destruct a; simpl; try done; apply map_eq; intros k; apply option_eq; intros r;
    rewrite lookup_current, !lookup_qs_filter, lookup_current; tauto.
Qed.

(** C7: for every time input, [version] returns exactly the versions whose
    transaction-time window covers the normalized instant: the input itself
    for a datetime, the last instant of its calendar day for a pure date;
    [active] normalizes a pure date the same way. *)
Theorem version_selects_rows_recorded_at_normalized_time
    (i : time_input) (now : Z) (tbl : Table) :
  (∃ qs, PointInTimeQuerySet.version (to_py i) tbl = Ok qs ∧
     ∀ k r, qs !! k = Some r ↔
       tbl !! k = Some r ∧
       (∃ c, created_at r = Some c ∧ c ≤ normalized i) ∧
       (replaced_at r = None ∨ ∃ x, replaced_at r = Some x ∧ normalized i < x)) ∧
  (∃ qs, PointInTimeQuerySet.active (to_py i) now tbl = Ok qs ∧
     ∀ k r, qs !! k = Some r ↔
       tbl !! k = Some r ∧
       (∃ s, start_at r = Some s ∧ s ≤ normalized i) ∧
       (end_at r = None ∨ ∃ e, end_at r = Some e ∧ normalized i < e)) ∧
  (∀ d, normalized (AtDate d) = d * day + (day - 1) ∧
        date_of (normalized (AtDate d)) = d ∧
        date_of (normalized (AtDate d) + 1) = d + 1).
Proof.
  split; [| split].
  - destruct i as [t | d]; simpl; (eexists; split; [reflexivity |]); intros k r.
    + rewrite lookup_qs_filter, recorded_window_spec. unfold recorded_at. tauto.
    + rewrite lookup_qs_filter, combine_time_max, recorded_window_spec.
      unfold recorded_at. tauto.
  - destruct i as [t | d]; simpl; (eexists; split; [reflexivity |]); intros k r.
    + rewrite lookup_qs_filter, valid_window_spec. unfold valid_at. tauto.
    + rewrite lookup_qs_filter, combine_time_max, valid_window_spec.
      unfold valid_at. tauto.
  - intros d. pose proof (last_instant_of_day_date d) as [H1 H2]. simpl.
    split; [unfold last_instant_of_day; lia | done].
Qed.

(** A datetime with a UTC offset, and a naive one, are compared as the
    instant they denote. *)
Lemma queries_compare_instants (t o now : Z) (tbl : Table) :
  PointInTimeQuerySet.active (PyDatetimeTz t o) now tbl
    = PointInTimeQuerySet.active (PyDatetime t) now tbl ∧
  PointInTimeQuerySet.active (PyNaive t) now tbl
    = PointInTimeQuerySet.active (PyDatetime t) now tbl ∧
  PointInTimeQuerySet.version (PyDatetimeTz t o) tbl
    = PointInTimeQuerySet.version (PyDatetime t) tbl ∧
  PointInTimeQuerySet.version (PyNaive t) tbl
    = PointInTimeQuerySet.version (PyDatetime t) tbl.
Proof. done. Qed.

(** ** The request boundary *)

Lemma midnight_parts (d : Z) :
  time_of (combine d time_min) = time_min ∧ date_of (combine d time_min) = d.
Proof.
  unfold time_of, date_of, combine, time_min, day. rewrite Z.add_0_r. split.
  - by apply Z.mod_mul.
  - by apply Z.div_mul.
Qed.

Lemma combine_date_time (t : Z) : combine (date_of t) (time_of t) = t.
Proof.
  unfold combine, date_of, time_of. rewrite Z.mul_comm. symmetry. by apply Z.div_mod.
Qed.

Lemma rollback_to_at_prep (m : Model) (time time' : pyval)
    (fields exclude : option (list string)) (v : Instance) (db : Database) :
  get_prep_value time = get_prep_value time' →
  PointInTimeModel.rollback_to_at m time fields exclude v db
    = PointInTimeModel.rollback_to_at m time' fields exclude v db.
Proof. intros H. unfold PointInTimeModel.rollback_to_at. by rewrite H. Qed.

(** What the request boundary makes of a text: nothing if it does not
    parse, an aware datetime in the server's zone if it carries no UTC
    offset, the datetime with its offset otherwise. *)
Lemma datetime_from_web_text (parse : string → option (Z * option Z)) (s : string) :
  datetime_from_web parse (PyStr s) =
    match parse s with
    | Some (w, None) => Ok (PyDatetime w)
    | Some (t, Some o) => Ok (PyDatetimeTz t o)
    | None => Ok PyNone
    end.
Proof. simpl. by destruct (parse s) as [[x [o |]] |]. Qed.




(** Nor is it always compared as the supplied instant.  The start of day 1
    written five hours behind UTC is an instant at which the current
    version, written five microseconds into day 1, exists: a rollback to
    that instant changes nothing.  The rollback action reads the text as
    the date of day 1 and reverts to the version of day 0. *)
Lemma midnight_rollback_time_with_offset_is_moved :
  PointInTimeModel.rollback_to_at Sample.model
      (PyDatetimeTz (combine 1 time_min + 5 * Sample.hour) (- (5 * Sample.hour)))
      None None Sample.current_instance Sample.two_versions
    = Ok (Sample.two_versions, Sample.current_instance) ∧
  PointInTimeModelViewSet.rollback Sample.fromisoformat Sample.model
      (PyStr "1970-01-02T00:00:00-05:00") None None Sample.current_instance Sample.two_versions
    = PointInTimeModel.rollback_to_at Sample.model
        (PyDatetime (combine 1 time_min)) None None Sample.current_instance Sample.two_versions ∧
  PointInTimeModelViewSet.rollback Sample.fromisoformat Sample.model
      (PyStr "1970-01-02T00:00:00-05:00") None None Sample.current_instance Sample.two_versions
    ≠ Ok (Sample.two_versions, Sample.current_instance).
Proof.
  split; [| split].
  - vm_compute. reflexivity.
  - vm_compute. reflexivity.
  - intros H.
    apply (f_equal (λ r, match r with
                         | Ok (db, _) => size (table db)
                         | Err _ => 0%nat
                         end)) in H.
    vm_compute in H. discriminate H.
Qed.



(** ** Attribute access *)

Lemma slot_of_system (n : string) :
  slot_of n ≠ SPayload → n = slot_name (slot_of n).
Proof.
  unfold slot_of.
  destruct (String.eqb_spec n "id") as [-> | _]; [done |].
  destruct (String.eqb_spec n "row_id") as [-> | _]; [done |].
  destruct (String.eqb_spec n "created_at") as [-> | _]; [done |].
  destruct (String.eqb_spec n "replaced_at") as [-> | _]; [done |].
  destruct (String.eqb_spec n "modified_by") as [-> | _]; [done |].
  destruct (String.eqb_spec n "start_at") as [-> | _]; [done |].
  destruct (String.eqb_spec n "end_at") as [-> | _]; done.
Qed.

Lemma slot_of_system_inj (n n' : string) :
  slot_of n = slot_of n' → slot_of n ≠ SPayload → n = n'.
Proof.
  intros Heq Hsys.
  rewrite (slot_of_system n Hsys), (slot_of_system n'); congruence.
Qed.

Lemma getattr_copy_attr_eq (n : string) (src dst : Instance) :
  getattr n (copy_attr n src dst) = getattr n src.
Proof.
  unfold getattr, copy_attr. destruct (slot_of n); simpl; try done.
  by rewrite lookup_insert_eq.
Qed.

Lemma getattr_copy_attr_ne (n n' : string) (src dst : Instance) :
  n ≠ n' → getattr n (copy_attr n' src dst) = getattr n dst.
Proof.
  intros Hne. unfold getattr, copy_attr.
  destruct (slot_of n) eqn:Hn, (slot_of n') eqn:Hn'; simpl; try done;
    try (exfalso; apply Hne, slot_of_system_inj; congruence).
  by rewrite lookup_insert_ne.
Qed.

Lemma getattr_null_attr_eq (n : string) (v : Instance) :
  getattr n (null_attr n v) = PyNone.
Proof.
  unfold getattr, null_attr. destruct (slot_of n); simpl; try done.
  by rewrite lookup_insert_eq.
Qed.

Lemma getattr_null_attr_ne (n n' : string) (v : Instance) :
  n ≠ n' → getattr n (null_attr n' v) = getattr n v.
Proof.
  intros Hne. unfold getattr, null_attr.
  destruct (slot_of n) eqn:Hn, (slot_of n') eqn:Hn'; simpl; try done;
    try (exfalso; apply Hne, slot_of_system_inj; congruence).
  by rewrite lookup_insert_ne.
Qed.

(** ** The field-by-field revert *)

Lemma NoDup_fmap_eq {A B} (f : A → B) (l : list A) (x y : A) :
  NoDup (f <$> l) → x ∈ l → y ∈ l → f x = f y → x = y.
Proof.
  induction l as [| a l IH]; intros Hnd Hx Hy Heq.
  - by apply elem_of_nil in Hx.
  - simpl in Hnd. apply NoDup_cons in Hnd as [Ha Hnd].
    apply elem_of_cons in Hx as [-> | Hx]; apply elem_of_cons in Hy as [-> | Hy].
    + done.
    + exfalso. apply Ha. rewrite Heq. by apply list_elem_of_fmap_2.
    + exfalso. apply Ha. rewrite <- Heq. by apply list_elem_of_fmap_2.
    + by apply IH.
Qed.

Lemma elem_of_get_one_to_one_fields (m : Model) (f : Field) :
  NoDup (name <$> get_fields m) → f ∈ get_fields m →
  name f ∈ get_one_to_one_fields m ↔ one_to_one f = true.
Proof.
  intros Hnd Hf. unfold get_one_to_one_fields.
  rewrite list_elem_of_fmap. split.
  - intros (g & Hname & Hg). apply list_elem_of_filter in Hg as [Hone Hg].
    assert (f = g) as ->; [| done].
    by apply (NoDup_fmap_eq name (get_fields m)).
  - intros Hone. exists f. split; [done |]. by apply list_elem_of_filter.
Qed.

Lemma revert_field_other (fields : option (list string)) (exclude : list string)
    (previous self : Instance) (f : Field) (n : string) :
  n ≠ name f → getattr n (PointInTimeModel.revert_field fields exclude previous self f) = getattr n self.
Proof.
  intros Hne. unfold PointInTimeModel.revert_field.
  repeat case_match; try done; by apply getattr_copy_attr_ne.
Qed.

Lemma revert_field_same (fields : option (list string)) (exclude : list string)
    (previous self : Instance) (f : Field) :
  getattr (name f) (PointInTimeModel.revert_field fields exclude previous self f) =
    if (match fields with Some fs => bool_decide (name f ∈ fs) | None => true end)
       && negb (bool_decide (name f ∈ exclude)) && negb (primary_key f)
    then getattr (name f) previous
    else getattr (name f) self.
Proof.
  unfold PointInTimeModel.revert_field.
  destruct fields as [fs |]; simpl;
    repeat (case_bool_decide; simpl; try done);
    destruct (primary_key f); simpl; try done; apply getattr_copy_attr_eq.
Qed.

Lemma foldl_revert_field_other (fields : option (list string)) (exclude : list string)
    (previous : Instance) (l : list Field) (self : Instance) (n : string) :
  n ∉ name <$> l →
  getattr n (foldl (PointInTimeModel.revert_field fields exclude previous) self l) = getattr n self.
Proof.
  revert self. induction l as [| g l IH]; intros self Hn; [done |].
  simpl in *. apply not_elem_of_cons in Hn as [Hg Hl].
  rewrite IH by done. by apply revert_field_other.
Qed.

Lemma foldl_revert_field_same (fields : option (list string)) (exclude : list string)
    (previous : Instance) (l : list Field) (self : Instance) (f : Field) :
  NoDup (name <$> l) → f ∈ l →
  getattr (name f) (foldl (PointInTimeModel.revert_field fields exclude previous) self l) =
    if (match fields with Some fs => bool_decide (name f ∈ fs) | None => true end)
       && negb (bool_decide (name f ∈ exclude)) && negb (primary_key f)
    then getattr (name f) previous
    else getattr (name f) self.
Proof.
  revert self. induction l as [| g l IH]; intros self Hnd Hf.
  - by apply elem_of_nil in Hf.
  - simpl in *. apply NoDup_cons in Hnd as [Hg Hnd].
    apply elem_of_cons in Hf as [-> | Hf].
    + rewrite foldl_revert_field_other by done. apply revert_field_same.
    + rewrite IH by done.
      assert (name f ≠ name g) as Hne.
      { intros Heq. apply Hg. rewrite <- Heq. by apply list_elem_of_fmap_2. }
      rewrite revert_field_other by done. done.
Qed.

Lemma of_key_inj (a b : option nat) : of_key a = of_key b → a = b.
Proof.
  destruct a, b; simpl; intros H; try done.
  injection H as H. f_equal. lia.
Qed.

Lemma getattr_revert_fields (m : Model) (fields exclude : option (list string))
    (previous self : Instance) (f : Field) :
  NoDup (name <$> get_fields m) →
  f ∈ get_fields m →
  getattr (name f)
    (PointInTimeModel.revert_fields m fields
       (default [] exclude ++ get_one_to_one_fields m) previous self) =
    (if reverted fields exclude f then getattr (name f) previous else getattr (name f) self).
Proof.
  intros Hnd Hf. unfold PointInTimeModel.revert_fields.
  change (concrete_fields m ++ private_fields m) with (get_fields m).
  rewrite (foldl_revert_field_same _ _ _ _ _ f) by auto.
  pose proof (elem_of_get_one_to_one_fields m f Hnd Hf) as Hone.
  assert (bool_decide (name f ∈ default [] exclude ++ get_one_to_one_fields m)
          = bool_decide (name f ∈ default [] exclude) || one_to_one f) as ->.
  { apply eq_true_iff_eq. rewrite orb_true_iff, !bool_decide_eq_true, elem_of_app.
    by rewrite Hone. }
  unfold reverted.
  destruct fields as [fs |], (primary_key f), (one_to_one f);
    repeat (case_bool_decide; simpl; try done).
Qed.

Lemma elem_of_pita_fields (m : Model) (f : Field) : f ∈ pita_fields → f ∈ get_fields m.
Proof.
  intros Hf. unfold get_fields, concrete_fields. apply elem_of_app. left.
  apply elem_of_app. by left.
Qed.

Lemma pk_revert_fields (m : Model) (fields exclude : option (list string))
    (previous self : Instance) :
  NoDup (name <$> get_fields m) →
  pk (PointInTimeModel.revert_fields m fields
        (default [] exclude ++ get_one_to_one_fields m) previous self) = pk self.
Proof.
  intros Hnd. apply of_key_inj.
  apply (getattr_revert_fields m fields exclude previous self (mkField "id" true false) Hnd).
  apply elem_of_pita_fields, elem_of_cons. by left.
Qed.

(** ** The raw primitives *)

Lemma new_pk_fresh (tbl : Table) : tbl !! Model_.new_pk tbl = None.
Proof.
  destruct (tbl !! Model_.new_pk tbl) as [r |] eqn:Hk; [| done].
  exfalso. apply elem_of_map_to_list in Hk.
  apply (list_elem_of_fmap_2 fst) in Hk. simpl in Hk.
  apply max_list_elem_of_le in Hk. unfold Model_.new_pk in Hk. lia.
Qed.

Lemma foldr_delete_lookup (tbl : Table) (l : list (nat * Row)) (k : nat) :
  foldr (λ kr t, base.delete kr.1 t) tbl l !! k =
    if bool_decide (k ∈ l.*1) then None else tbl !! k.
Proof.
  induction l as [| [j r] l IH].
  - by rewrite bool_decide_eq_false_2 by apply not_elem_of_nil.
  - cbn [foldr fmap list_fmap fst]. destruct (decide (j = k)) as [-> | Hne].
    + rewrite lookup_delete_eq. rewrite bool_decide_eq_true_2; [done |].
      apply elem_of_cons. by left.
    + rewrite lookup_delete_ne by done. rewrite IH.
      apply (f_equal (λ b : bool, if b then None else tbl !! k)).
      apply bool_decide_ext. rewrite elem_of_cons. split; [by right |].
      intros [-> | H]; done.
Qed.

Lemma lookup_without_rows (qs tbl : Table) (k : nat) :
  without_rows qs tbl !! k = match qs !! k with Some _ => None | None => tbl !! k end.
Proof.
  unfold without_rows. rewrite foldr_delete_lookup.
  destruct (qs !! k) as [r |] eqn:Hk.
  - rewrite bool_decide_eq_true_2; [done |].
    apply list_elem_of_fmap. exists (k, r). split; [done |]. by apply elem_of_map_to_list.
  - rewrite bool_decide_eq_false_2; [done |].
    intros ([j r] & -> & Hin)%list_elem_of_fmap. apply elem_of_map_to_list in Hin.
    simpl in Hk. congruence.
Qed.

Lemma latest_first_None (qs : Table) : latest_first qs = None ↔ qs = ∅.
Proof.
  unfold latest_first. rewrite <- (map_to_list_empty_iff qs).
  destruct (map_to_list qs) as [| kr l]; simpl; [done |].
  split; [| done]. by repeat case_match.
Qed.

Lemma latest_first_Some (qs : Table) (k : nat) (r : Row) :
  latest_first qs = Some (k, r) → qs !! k = Some r.
Proof.
  unfold latest_first. intros H. apply elem_of_map_to_list.
  revert k r H. induction (map_to_list qs) as [| kr l IH]; intros k r H; simpl in *; [done |].
  destruct (foldr _ None l) as [b |] eqn:Hb.
  - destruct (version_lt b kr); injection H as <-.
    + apply elem_of_cons. by left.
    + apply elem_of_cons. right. destruct b. by apply IH.
  - injection H as <-. apply elem_of_cons. by left.
Qed.

Lemma move_frozen_relationships_saved (self target : Instance) (refs : list Referrer) (k t : nat) :
  pk self = Some k → pk target = Some t →
  PointInTimeModel.move_frozen_relationships self target refs = Ok (repoint k t <$> refs).
Proof.
  intros Hk Ht. unfold PointInTimeModel.move_frozen_relationships.
  rewrite Hk, Ht. by destruct refs.
Qed.

(** ** Referencing rows *)

Lemma key_of_of_nat (k : nat) : key_of (PyInt (Z.of_nat k)) = Some k.
Proof.
  unfold key_of. rewrite bool_decide_eq_true_2 by lia. by rewrite Nat2Z.id.
Qed.

Lemma key_of_Some (x : pyval) (k : nat) : key_of x = Some k → x = PyInt (Z.of_nat k).
Proof.
  destruct x as [| z | | | | |]; simpl; try done.
  case_bool_decide; [| done]. intros [= <-]. by rewrite Z2Nat.id.
Qed.

Lemma ref_keys_repoint (s t : nat) (ref : Referrer) :
  ref_keys (repoint s t ref) = ref_keys ref.
Proof. destruct ref; simpl; apply dom_fmap_L. Qed.

Lemma edge_live_repoint (s t : nat) (ref : Referrer) (j : nat) :
  edge_live ref j → edge_live (repoint s t ref) j.
Proof.
  destruct ref as [fk h rows | fk h rows]; simpl.
  - intros (r & Hr & Hcur). rewrite lookup_fmap, Hr. simpl.
    eexists. split; [done |]. by case_match.
  - intros [pl Hpl]. rewrite lookup_fmap, Hpl. by eexists.
Qed.

Lemma edge_target_repoint_live (s t : nat) (ref : Referrer) (j : nat) :
  edge_live ref j → edge_target ref j = Some s → edge_target (repoint s t ref) j = Some t.
Proof.
  destruct ref as [fk h rows | fk h rows]; simpl.
  - intros (r & Hr & Hcur). rewrite lookup_fmap, Hr. simpl.
    destruct (payload r !! fk) as [x |] eqn:Hx; simpl; [| done].
    intros Hk%key_of_Some. subst x.
    unfold related_pita, points_to. rewrite Hcur, Hx. simpl.
    rewrite bool_decide_eq_true_2 by done. simpl.
    rewrite lookup_insert_eq. simpl. apply key_of_of_nat.
  - intros [pl Hpl]. rewrite lookup_fmap, Hpl. simpl.
    destruct (pl !! fk) as [x |] eqn:Hx; simpl; [| done].
    intros Hk%key_of_Some. subst x.
    unfold points_to. rewrite Hx. rewrite bool_decide_eq_true_2 by done.
    rewrite lookup_insert_eq. simpl. apply key_of_of_nat.
Qed.


Lemma edge_target_repoint_ne (s t : nat) (ref : Referrer) (j : nat) :
  edge_target ref j ≠ Some s → edge_target (repoint s t ref) j = edge_target ref j.
Proof.
  destruct ref as [fk h rows | fk h rows]; simpl; rewrite lookup_fmap.
  - destruct (rows !! j) as [r |]; simpl; [| done]. intros Hne.
    destruct (related_pita fk s r) eqn:Hrel; [| done]. exfalso. apply Hne.
    unfold related_pita, points_to in Hrel. apply andb_true_iff in Hrel as [_ Hpt].
    apply bool_decide_eq_true in Hpt. rewrite Hpt. simpl. apply key_of_of_nat.
  - destruct (rows !! j) as [pl |]; simpl; [| done]. intros Hne.
    destruct (points_to fk s pl) eqn:Hpt; [| done]. exfalso. apply Hne.
    unfold points_to in Hpt. apply bool_decide_eq_true in Hpt. rewrite Hpt. simpl.
    apply key_of_of_nat.
Qed.

Lemma edge_target_repoint_not_live (s t : nat) (ref : Referrer) (j : nat) :
  ¬ edge_live ref j → edge_target (repoint s t ref) j = edge_target ref j.
Proof.
  destruct ref as [fk h rows | fk h rows]; simpl; rewrite lookup_fmap.
  - destruct (rows !! j) as [r |] eqn:Hr; simpl; [| done]. intros Hnl.
    destruct (related_pita fk s r) eqn:Hrel; [| done]. exfalso. apply Hnl.
    unfold related_pita in Hrel. apply andb_true_iff in Hrel as [Hcur _].
    apply col_isnull_spec in Hcur. by exists r.
  - destruct (rows !! j) as [pl |] eqn:Hpl; simpl; [| done]. intros Hnl.
    exfalso. apply Hnl. by exists pl.
Qed.

Lemma edge_target_repoint_cases (s t : nat) (ref : Referrer) (j : nat) :
  edge_target (repoint s t ref) j = edge_target ref j
  ∨ edge_target (repoint s t ref) j = Some t.
Proof.
  destruct ref as [fk h rows | fk h rows]; simpl; rewrite lookup_fmap.
  - destruct (rows !! j) as [r |]; simpl; [| by left].
    destruct (related_pita fk s r); [| by left].
    right. simpl. rewrite lookup_insert_eq. simpl. apply key_of_of_nat.
  - destruct (rows !! j) as [pl |]; simpl; [| by left].
    destruct (points_to fk s pl); [| by left].
    right. rewrite lookup_insert_eq. simpl. apply key_of_of_nat.
Qed.

(** Once the edges on [s] that the reverse manager returns are moved to
    [t], no row holds a key whose only holders were those. *)
Lemma unreferenced_repoint (s t k : nat) (refs : list Referrer) :
  k ≠ t →
  (∀ i ref j, refs !! i = Some ref → edge_target ref j = Some k → k = s ∧ edge_live ref j) →
  unreferenced k (repoint s t <$> refs).
Proof.
  intros Hkt Hmov i ref' j Hi Hedge.
  rewrite list_lookup_fmap in Hi.
  destruct (refs !! i) as [ref |] eqn:Hr; [| done]. injection Hi as <-.
  destruct (edge_target_repoint_cases s t ref j) as [Hsame | Hmoved].
  - rewrite Hsame in Hedge. destruct (Hmov i ref j Hr Hedge) as [-> Hlive].
    rewrite (edge_target_repoint_live s t ref j Hlive Hedge) in Hsame. congruence.
  - congruence.
Qed.

(** ** The deletion collector *)

Lemma holds_key_edge (k : nat) (ref : Referrer) :
  holds_key k ref = true → ∃ j, edge_target ref j = Some k.
Proof.
  destruct ref as [fk h rows | fk h rows]; simpl; intros H%bool_decide_eq_true.
  - apply map_choose in H as (j & r & Hj). apply lookup_qs_filter in Hj as [Hj Hpt].
    exists j. rewrite Hj. simpl. apply bool_decide_eq_true in Hpt. rewrite Hpt. simpl.
    apply key_of_of_nat.
  - apply map_choose in H as (j & pl & Hj). apply map_lookup_filter_Some in Hj as [Hj Hpt].
    simpl in Hpt. exists j. rewrite Hj. simpl. apply bool_decide_eq_true in Hpt.
    rewrite Hpt. simpl. apply key_of_of_nat.
Qed.

Lemma unreferenced_holds_key (k : nat) (refs : list Referrer) :
  unreferenced k refs → Forall (λ ref, holds_key k ref = false) refs.
Proof.
  intros H. apply Forall_forall. intros ref [i Hi]%list_elem_of_lookup.
  destruct (holds_key k ref) eqn:Hh; [| done].
  apply holds_key_edge in Hh as [j Hj]. by destruct (H i ref j Hi).
Qed.

(** No handler runs for a key that no referencing row holds. *)
Lemma collect_unreferenced (k : nat) (refs : list Referrer) :
  unreferenced k refs → collect k refs = Ok refs.
Proof.
  intros H%unreferenced_holds_key. unfold collect.
  assert (existsb (protects k) refs = false) as ->.
  { induction H as [| ref refs Href _ IH]; [done |]. simpl. rewrite IH.
    unfold protects. rewrite Href. by destruct (on_delete ref). }
  assert (existsb (restricts k) refs = false) as ->.
  { induction H as [| ref refs Href _ IH]; [done |]. simpl. rewrite IH.
    unfold restricts. rewrite Href. by destruct (on_delete ref). }
  f_equal. induction H as [| ref refs Href _ IH]; [done |].
  rewrite fmap_cons, IH. unfold on_delete_rows. by rewrite Href.
Qed.

Lemma delete_unreferenced (self : Instance) (db : Database) (k : nat) :
  pk self = Some k → unreferenced k (referrers db) →
  Model_.delete self db =
    Ok (mkDatabase (base.delete k (table db)) (referrers db), set_pk None self).
Proof.
  intros Hk Hun. unfold Model_.delete. rewrite Hk.
  by rewrite (collect_unreferenced k (referrers db) Hun).
Qed.

Lemma delete_each_unreferenced (qs : Table) (db : Database) :
  (∀ k, is_Some (qs !! k) → unreferenced k (referrers db)) →
  delete_each qs db = Ok (mkDatabase (without_rows qs (table db)) (referrers db)).
Proof.
  intros H. unfold delete_each, without_rows.
  assert (Hl : Forall (λ kr : nat * Row, unreferenced kr.1 (referrers db)) (map_to_list qs)).
  { apply Forall_forall. intros [k r] Hin%elem_of_map_to_list. apply H. eauto. }
  induction Hl as [| kr l Hkr _ IH]; [by destruct db |].
  cbn [foldr]. rewrite IH. cbn [mbind result_bind].
  rewrite (delete_unreferenced _ _ kr.1) by done. done.
Qed.

(** Whatever the handlers do to the referencing rows, a loop of raw
    deletes that returns has removed exactly the rows of [qs]. *)
Lemma delete_each_table (qs : Table) (db db' : Database) :
  delete_each qs db = Ok db' → table db' = without_rows qs (table db).
Proof.
  unfold delete_each, without_rows. revert db'.
  induction (map_to_list qs) as [| kr l IH]; intros db'; cbn [foldr].
  - by intros [= <-].
  - destruct (foldr _ (Ok db) l) as [db1 |]; cbn [mbind result_bind]; [| done].
    unfold Model_.delete. cbn [pk].
    destruct (collect kr.1 (referrers db1)) as [refs |]; cbn [mbind result_bind]; [| done].
    intros [= <-]. cbn [table]. f_equal. by apply IH.
Qed.

Lemma delete_table (self : Instance) (db db' : Database) (self' : Instance) (k : nat) :
  pk self = Some k → Model_.delete self db = Ok (db', self') →
  table db' = base.delete k (table db) ∧ self' = set_pk None self.
Proof.
  intros Hk. unfold Model_.delete. rewrite Hk.
  destruct (collect k (referrers db)) as [refs |]; cbn [mbind result_bind]; [| done].
  by intros [= <- <-].
Qed.

(** ** Update by copy-on-write *)

Lemma pk_foldl_null_attr (names : list string) (i : Instance) :
  pk i = None → pk (foldl (λ i field_name, null_attr field_name i) i names) = None.
Proof.
  revert i. induction names as [| n names IH]; intros i Hi; simpl; [done |].
  apply IH. unfold null_attr. by destruct (slot_of n).
Qed.

Lemma pk_nulled (names : list string) (r : Row) : pk (nulled names r) = None.
Proof. by apply pk_foldl_null_attr. Qed.

Lemma getattr_foldl_null_attr (names : list string) (i : Instance) (n : string) :
  getattr n (foldl (λ i field_name, null_attr field_name i) i names) =
    if bool_decide (n ∈ names) then PyNone else getattr n i.
Proof.
  revert i. induction names as [| a names IH]; intros i.
  - by rewrite bool_decide_eq_false_2 by apply not_elem_of_nil.
  - cbn [foldl]. rewrite IH. destruct (decide (n = a)) as [-> | Hne].
    + rewrite getattr_null_attr_eq. rewrite (bool_decide_eq_true_2 (a ∈ a :: names)).
      * by case_bool_decide.
      * apply elem_of_cons. by left.
    + rewrite getattr_null_attr_ne by done.
      apply (f_equal (λ b : bool, if b then PyNone else getattr n i)).
      apply bool_decide_ext. rewrite elem_of_cons. split; [by right |].
      intros [-> | H]; done.
Qed.

Lemma copy_current (exclude : list string) (v : Instance) (tbl : Table) (p : nat) (r0 : Row) :
  pk v = Some p → tbl !! p = Some r0 → replaced_at r0 = None →
  PointInTimeModel.copy exclude v tbl =
    Some (<[Model_.new_pk tbl := cols (nulled exclude r0)]> tbl,
          mkInstance (Some (Model_.new_pk tbl)) (cols (nulled exclude r0))).
Proof.
  intros Hpk Hp Hcur.
  unfold PointInTimeModel.copy, PointInTimeDefaultManager.copy. rewrite Hpk. simpl.
  unfold PointInTimeDefaultManager.current, PointInTimeDefaultManager.get_queryset.
  rewrite (proj2 (lookup_current tbl p r0)) by done.
  fold (nulled exclude r0). unfold Model_.save. by rewrite pk_nulled.
Qed.

Lemma save_update (m : Model) (now : Z) (user : option nat) (v : Instance) (db : Database)
    (p : nat) (r0 : Row) :
  pk v = Some p → replaced_at (cols v) = None →
  table db !! p = Some r0 → replaced_at r0 = None →
  PointInTimeModel.save m now user v db =
    Ok (mkDatabase
          (<[p := cols (updated now user p v)]>
             (<[Model_.new_pk (table db) := clone_of m now p r0]> (table db)))
          (repoint p (Model_.new_pk (table db)) <$> referrers db),
        updated now user p v).
Proof.
  intros Hpk Hrep Hp Hcur. unfold PointInTimeModel.save.
  rewrite Hpk, Hrep. simpl.
  rewrite (copy_current _ v (table db) p r0) by done.
  unfold PointInTimeModel._save, Model_.save. simpl.
  rewrite (move_frozen_relationships_saved _ _ _ p (Model_.new_pk (table db))) by done.
  simpl. rewrite Hpk. simpl. rewrite insert_insert_eq.
  unfold updated, clone_of. destruct v as [pkv [rid cr rp mb st en pl]]. simpl in *. subst.
  destruct rid as [g |]; simpl.
  - done.
  - by rewrite insert_insert_eq.
Qed.

Lemma getattr_clone_of (m : Model) (now : Z) (p k : nat) (r0 : Row) (n : string) :
  n ∉ ["id"; "row_id"; "replaced_at"] →
  getattr n (mkInstance (Some k) (clone_of m now p r0)) =
    if bool_decide (n ∈ get_one_to_one_fields m) then PyNone
    else getattr n (mkInstance (Some p) r0).
Proof.
  intros Hn.
  assert (n ≠ "id" ∧ n ≠ "row_id" ∧ n ≠ "replaced_at") as (Hid & Hrow & Hrp).
  { rewrite !not_elem_of_cons in Hn. tauto. }
  transitivity (getattr n (nulled (get_one_to_one_fields m) r0)).
  - unfold getattr, clone_of.
    destruct (slot_of n) eqn:Hs; simpl; try done;
      (assert (n = slot_name (slot_of n)) as Hsys by (apply slot_of_system; congruence));
      rewrite Hs in Hsys; simpl in Hsys; congruence.
  - unfold nulled. rewrite getattr_foldl_null_attr. case_bool_decide; [done |].
    unfold getattr. destruct (slot_of n) eqn:Hs; simpl; try done.
    assert (n = slot_name (slot_of n)) as Hsys by (apply slot_of_system; congruence).
    rewrite Hs in Hsys. simpl in Hsys. congruence.
Qed.

(** C1: an update through [save] of the current version stored under [p]
    keeps the key [p], leaves it current with [created_at] the update time,
    and adds exactly one row: a clone of the stored, pre-update row with
    [replaced_at] the update time, [row_id] equal to [p] and every
    one-to-one field of the model null.  The clone's other attributes are
    the stored ones; [id], [row_id] and [replaced_at] are the three the
    update assigns itself. *)
Theorem save_update_clones_the_stored_version
    (m : Model) (now : Z) (user : option nat) (v : Instance) (db : Database)
    (p : nat) (r0 : Row) :
  pk v = Some p → replaced_at (cols v) = None →
  table db !! p = Some r0 → replaced_at r0 = None →
  ∃ db' v' k clone,
    PointInTimeModel.save m now user v db = Ok (db', v') ∧
    pk v' = Some p ∧
    replaced_at (cols v') = None ∧
    created_at (cols v') = Some now ∧
    payload (cols v') = payload (cols v) ∧
    table db' !! p = Some (cols v') ∧
    table db !! k = None ∧
    table db' !! k = Some clone ∧
    dom (table db') = {[k]} ∪ dom (table db) ∧
    (∀ j, j ≠ p → j ≠ k → table db' !! j = table db !! j) ∧
    replaced_at clone = Some now ∧
    row_id clone = Some p ∧
    (∀ n, n ∈ get_one_to_one_fields m → n ∉ ["id"; "row_id"; "replaced_at"] →
       getattr n (mkInstance (Some k) clone) = PyNone) ∧
    (∀ n, n ∉ get_one_to_one_fields m → n ∉ ["id"; "row_id"; "replaced_at"] →
       getattr n (mkInstance (Some k) clone) = getattr n (mkInstance (Some p) r0)) ∧
    (∀ f, f ∈ get_fields m → one_to_one f = true →
       name f ∉ ["id"; "row_id"; "replaced_at"] →
       getattr (name f) (mkInstance (Some k) clone) = PyNone) ∧
    (∀ f, NoDup (name <$> get_fields m) → f ∈ get_fields m → one_to_one f = false →
       name f ∉ ["id"; "row_id"; "replaced_at"] →
       getattr (name f) (mkInstance (Some k) clone)
         = getattr (name f) (mkInstance (Some p) r0)).
Proof.
  intros Hpk Hrep Hp Hcur.
  pose proof (new_pk_fresh (table db)) as Hfresh.
  set (k := Model_.new_pk (table db)) in *.
  assert (Hkp : k ≠ p) by (intros ->; congruence).
  exists (mkDatabase
            (<[p := cols (updated now user p v)]> (<[k := clone_of m now p r0]> (table db)))
            (repoint p k <$> referrers db)),
    (updated now user p v), k, (clone_of m now p r0).
  pose proof (getattr_clone_of m now p k r0) as Hattr.
  split; [by apply (save_update m now user v db p r0) |].
  simpl. repeat split; try done.
  - by rewrite lookup_insert_eq.
  - rewrite lookup_insert_ne by done. by rewrite lookup_insert_eq.
  - rewrite dom_insert_lookup_L; [apply dom_insert_L |].
    rewrite lookup_insert_ne by done. eauto.
  - intros j Hjp Hjk. by rewrite !lookup_insert_ne.
  - intros n Hone Hn. rewrite Hattr by done. by rewrite bool_decide_eq_true_2.
  - intros n Hone Hn. rewrite Hattr by done. by rewrite bool_decide_eq_false_2.
  - intros f Hf Hone Hn. rewrite Hattr by done. rewrite bool_decide_eq_true_2; [done |].
    unfold get_one_to_one_fields. apply list_elem_of_fmap. exists f. split; [done |].
    by apply list_elem_of_filter.
  - intros f Hnd Hf Hone Hn. rewrite Hattr by done. rewrite bool_decide_eq_false_2; [done |].
    rewrite (elem_of_get_one_to_one_fields m f Hnd Hf). by rewrite Hone.
Qed.

Lemma save_update_clones_the_stored_version_witness :
  ∃ db' v',
    PointInTimeModel.save Sample.model (2 * day) None Sample.edited_instance Sample.two_versions
      = Ok (db', v') ∧
    pk v' = Some 1%nat ∧ created_at (cols v') = Some (2 * day) ∧
    size (table db') = 3%nat ∧
    getattr "partner" (mkInstance (Some 1%nat) Sample.new_row) = PyInt 7 ∧
    getattr "partner" ∘ mkInstance (Some 3%nat) <$> table db' !! 3%nat = Some PyNone.
Proof.
  destruct (save_update_clones_the_stored_version Sample.model (2 * day) None
              Sample.edited_instance Sample.two_versions 1%nat Sample.new_row
              eq_refl eq_refl eq_refl eq_refl)
    as (db' & v' & k & clone & Hsave & Hpk & _ & Hcreated & _).
  exists db', v'. split; [done |]. split; [done |]. split; [done |].
  vm_compute in Hsave. injection Hsave as <- <-. repeat split; vm_compute; reflexivity.
Defined.

(** ** Mutating a replaced version *)

Lemma save_of_replaced_instance_fails (m : Model) (now : Z) (user : option nat)
    (v : Instance) (db : Database) (p : nat) (t : Z) :
  pk v = Some p → replaced_at (cols v) = Some t →
  PointInTimeModel.save m now user v db = Err AssertionError.
Proof.
  intros Hpk Hrep. unfold PointInTimeModel.save. by rewrite Hpk, Hrep.
Qed.

Lemma save_of_replaced_row_fails (m : Model) (now : Z) (user : option nat)
    (v : Instance) (db : Database) (p : nat) (r0 : Row) (t : Z) :
  pk v = Some p → table db !! p = Some r0 → replaced_at r0 = Some t →
  PointInTimeModel.save m now user v db = Err AssertionError.
Proof.
  intros Hpk Hp Hrep. unfold PointInTimeModel.save. rewrite Hpk.
  destruct (replaced_at (cols v)); simpl; [done |].
  unfold PointInTimeModel.copy, PointInTimeDefaultManager.copy. rewrite Hpk. simpl.
  destruct (PointInTimeDefaultManager.current (table db) !! p) as [r |] eqn:Hcur; [| done].
  apply lookup_current in Hcur as [Hr Hnone]. congruence.
Qed.

Lemma rollback_to_of_replaced_instance_fails (m : Model) (previous : Instance)
    (fields exclude : option (list string)) (v : Instance) (db : Database) (t : Z) :
  replaced_at (cols v) = Some t →
  ∃ msg, PointInTimeModel._rollback_to m previous fields exclude v db = Err (Exception msg).
Proof.
  intros Hrep. unfold PointInTimeModel._rollback_to. rewrite Hrep. simpl.
  case_bool_decide; eauto.
Qed.

(** C8: soft-deleting a version that is already replaced does not fail:
    [delete] has no guard, and overwrites the stored [replaced_at] of the
    historical version of day 0 with the time of the call. *)
Theorem delete_of_replaced_version_overwrites_replaced_at :
  Sample.two_versions.(table) !! 2%nat = Some Sample.old_row ∧
  replaced_at Sample.old_row = Some (day + 5) ∧
  table (PointInTimeModel.delete (3 * day) (mkInstance (Some 2%nat) Sample.old_row)
           Sample.two_versions).1 !! 2%nat
    = Some (set_replaced_at (Some (3 * day)) Sample.old_row).
Proof. repeat split; vm_compute; reflexivity. Qed.

(** ** Rollback without a target *)

Lemma lookup_qs_exclude (P : nat → Row → bool) (qs : Table) (k : nat) (r : Row) :
  qs_exclude P qs !! k = Some r ↔ qs !! k = Some r ∧ P k r = false.
Proof. unfold qs_exclude. by rewrite lookup_qs_filter, negb_true_iff. Qed.

Lemma lookup_without_group (v : Instance) (tbl : Table) (p k : nat) :
  pk v = Some p →
  base.delete p
    (without_rows
       (qs_exclude (λ k _, bool_decide (Some k = pk v))
          (qs_filter (λ _ r, bool_decide (row_id r = row_id (cols v))) tbl)) tbl) !! k =
    if bool_decide (k = p) then None
    else match tbl !! k with
         | Some r => if bool_decide (row_id r = row_id (cols v)) then None else Some r
         | None => None
         end.
Proof.
  intros Hpk. case_bool_decide as Hk.
  - subst. by rewrite lookup_delete_eq.
  - rewrite lookup_delete_ne by done. rewrite lookup_without_rows.
    destruct (tbl !! k) as [r |] eqn:Hr.
    + case_bool_decide as Hg.
      * rewrite (proj2 (lookup_qs_exclude _ _ k r)); [done |].
        split.
        -- apply lookup_qs_filter. split; [done |]. by apply bool_decide_eq_true_2.
        -- apply bool_decide_eq_false_2. congruence.
      * destruct (qs_exclude _ _ !! k) as [r' |] eqn:Hq; [| done].
        apply lookup_qs_exclude in Hq as [Hq _].
        apply lookup_qs_filter in Hq as [Hq Hg'].
        apply bool_decide_eq_true in Hg'. congruence.
    + destruct (qs_exclude _ _ !! k) as [r' |] eqn:Hq; [| done].
      apply lookup_qs_exclude in Hq as [Hq _].
      apply lookup_qs_filter in Hq as [Hq _]. congruence.
Qed.

(** A purge that returns has removed the row of the instance and the rows
    of its group from the table, whatever the handlers did to the
    referencing rows. *)
Lemma purge_table (v : Instance) (db db' : Database) (v' : Instance) (p : nat) :
  pk v = Some p → PointInTimeModel.purge v db = Ok (db', v') →
  v' = set_pk None v ∧
  ∀ k, table db' !! k =
    if bool_decide (k = p) then None
    else match table db !! k with
         | Some r => if bool_decide (row_id r = row_id (cols v)) then None else Some r
         | None => None
         end.
Proof.
  intros Hpk. unfold PointInTimeModel.purge, PointInTimeModel._delete.
  destruct (delete_each _ db) as [db1 |] eqn:Heach; cbn [mbind result_bind]; [| done].
  apply delete_each_table in Heach. intros Hdel.
  apply (delete_table _ _ _ _ p Hpk) in Hdel as [Htbl ->]. split; [done |].
  intros k. rewrite Htbl, Heach. by apply lookup_without_group.
Qed.

(** With no referencing row on the instance's key or on a row of its
    group, a purge returns and leaves the referencing models alone. *)
Lemma purge_lookup (v : Instance) (db : Database) (p : nat) :
  pk v = Some p →
  unreferenced p (referrers db) →
  (∀ k r, table db !! k = Some r → row_id r = row_id (cols v) →
          unreferenced k (referrers db)) →
  ∃ db' v', PointInTimeModel.purge v db = Ok (db', v') ∧
    referrers db' = referrers db ∧
    ∀ k, table db' !! k =
      if bool_decide (k = p) then None
      else match table db !! k with
           | Some r => if bool_decide (row_id r = row_id (cols v)) then None else Some r
           | None => None
           end.
Proof.
  intros Hpk Hp Hgroup.
  assert (Hpurge : PointInTimeModel.purge v db =
    Ok (mkDatabase
          (base.delete p
             (without_rows
                (qs_exclude (λ k _, bool_decide (Some k = pk v))
                   (qs_filter (λ _ r, bool_decide (row_id r = row_id (cols v))) (table db)))
                (table db)))
          (referrers db), set_pk None v)).
  { unfold PointInTimeModel.purge, PointInTimeModel._delete.
    rewrite delete_each_unreferenced.
    - cbn [mbind result_bind]. by rewrite (delete_unreferenced v _ p).
    - intros k [r Hr]. apply lookup_qs_exclude in Hr as [Hr _].
      apply lookup_qs_filter in Hr as [Hr Hg]. apply bool_decide_eq_true in Hg.
      by apply (Hgroup k r). }
  eexists _, _. split; [exact Hpurge |]. split; [done |].
  intros k. cbn [table]. by apply lookup_without_group.
Qed.




(** ** The core revert *)

Lemma lookup_without_rows_selected (P : Row → bool) (p : nat) (tbl : Table) (k : nat) :
  k ≠ p →
  without_rows
    (qs_exclude (λ k _, bool_decide (Some k = Some p)) (qs_filter (λ _ r, P r) tbl)) tbl !! k =
    match tbl !! k with
    | Some r => if P r then None else Some r
    | None => None
    end.
Proof.
  intros Hk. rewrite lookup_without_rows.
  destruct (tbl !! k) as [r |] eqn:Hr.
  - destruct (P r) eqn:HP.
    + rewrite (proj2 (lookup_qs_exclude _ _ k r)); [done |].
      split; [by apply lookup_qs_filter |]. apply bool_decide_eq_false_2. congruence.
    + destruct (qs_exclude _ _ !! k) as [r' |] eqn:Hq; [| done].
      apply lookup_qs_exclude in Hq as [Hq _].
      apply lookup_qs_filter in Hq as [Hq HP']. congruence.
  - destruct (qs_exclude _ _ !! k) as [r' |] eqn:Hq; [| done].
    apply lookup_qs_exclude in Hq as [Hq _].
    apply lookup_qs_filter in Hq as [Hq _]. congruence.
Qed.

Lemma row_id_revert_fields (m : Model) (fields exclude : option (list string))
    (previous self : Instance) :
  NoDup (name <$> get_fields m) →
  row_id (cols previous) = row_id (cols self) →
  row_id (cols (PointInTimeModel.revert_fields m fields
                  (default [] exclude ++ get_one_to_one_fields m) previous self))
    = row_id (cols self).
Proof.
  intros Hnd Hsame. apply of_key_inj.
  pose proof (getattr_revert_fields m fields exclude previous self
                (mkField "row_id" false false) Hnd) as H.
  unfold getattr in H. simpl in H. rewrite H.
  - rewrite Hsame. by case_match.
  - apply elem_of_pita_fields. apply elem_of_cons. right. apply elem_of_cons. by left.
Qed.

(** The rows the core revert deletes, for the instance [v'] it writes. *)
Lemma rollback_to_steps (m : Model) (fields exclude : option (list string))
    (v target : Instance) (db : Database) (p : nat) (c tc : Z) :
  NoDup (name <$> get_fields m) →
  pk v = Some p → pk target ≠ Some p →
  replaced_at (cols v) = None →
  created_at (cols v) = Some c → created_at (cols target) = Some tc → tc < c →
  PointInTimeModel._rollback_to m target fields exclude v db =
    (refs ← PointInTimeModel.move_frozen_relationships target
              (reverted_instance m fields exclude target v) (referrers db);
     db1 ← delete_each
             (qs_exclude (λ k _, bool_decide (Some k = Some p))
                (qs_filter
                   (λ _ r, col_gte (created_at r) tc
                           && bool_decide
                                (row_id r = row_id (cols (reverted_instance m fields exclude target v))))
                   (table db)))
             (mkDatabase (table db) refs);
     Ok (mkDatabase (<[p := cols (reverted_instance m fields exclude target v)]> (table db1))
           (referrers db1),
         reverted_instance m fields exclude target v)).
Proof.
  intros Hnd Hp Hq Hrep Hc Htc Hlt.
  assert (Hpk' : pk (reverted_instance m fields exclude target v) = Some p).
  { unfold reverted_instance. simpl. by rewrite pk_revert_fields. }
  unfold PointInTimeModel._rollback_to.
  rewrite Hp, Hrep, Hc, Htc.
  rewrite bool_decide_eq_false_2 by congruence. simpl.
  rewrite (bool_decide_eq_true_2 (tc < c)) by done.
  rewrite (bool_decide_eq_true_2 (Some tc = Some tc)) by done. simpl.
  rewrite <- Htc.
  change (on_cols (set_created_at (created_at (cols target)))
            (on_cols (set_replaced_at None)
               (PointInTimeModel.revert_fields m fields
                  (default [] exclude ++ get_one_to_one_fields m) target v)))
    with (reverted_instance m fields exclude target v).
  destruct (PointInTimeModel.move_frozen_relationships _ _ _) as [refs |];
    cbn [mbind result_bind]; [| done].
  rewrite pk_revert_fields, Hp by done.
  destruct (delete_each _ _) as [db1 |]; cbn [mbind result_bind]; [| done].
  unfold PointInTimeModel._save, Model_.save. by rewrite Hpk'.
Qed.

(** A core revert that returns has passed the guards. *)
Lemma rollback_to_guards (m : Model) (fields exclude : option (list string))
    (v target : Instance) (db db' : Database) (v' : Instance) :
  PointInTimeModel._rollback_to m target fields exclude v db = Ok (db', v') →
  pk v ≠ pk target ∧ replaced_at (cols v) = None ∧
  ∃ c tc, created_at (cols v) = Some c ∧ created_at (cols target) = Some tc ∧ tc < c.
Proof.
  unfold PointInTimeModel._rollback_to.
  case_bool_decide as Hpk; [done |].
  destruct (replaced_at (cols v)) as [x |]; [done |].
  destruct (created_at (cols v)) as [c |], (created_at (cols target)) as [tc |]; try done.
  cbn [negb col_isnull mbind result_bind assert].
  destruct (decide (tc < c)) as [Hlt | Hge].
  - intros _. split; [done |]. split; [done |]. by exists c, tc.
  - by rewrite (bool_decide_eq_false_2 (tc < c)).
Qed.

(** What a core revert that returns has written: the reverted instance
    under its own key, in the table without the rows it deletes. *)
Lemma rollback_to_returns (m : Model) (fields exclude : option (list string))
    (v target : Instance) (db db' : Database) (v' : Instance) (p : nat) (tc : Z) :
  NoDup (name <$> get_fields m) →
  pk v = Some p → created_at (cols target) = Some tc →
  PointInTimeModel._rollback_to m target fields exclude v db = Ok (db', v') →
  v' = reverted_instance m fields exclude target v ∧
  table db' =
    <[p := cols v']>
      (without_rows
         (qs_exclude (λ k _, bool_decide (Some k = Some p))
            (qs_filter (λ _ r, col_gte (created_at r) tc
                               && bool_decide (row_id r = row_id (cols v')))
               (table db)))
         (table db)).
Proof.
  intros Hnd Hp Htc Hrb.
  destruct (rollback_to_guards _ _ _ _ _ _ _ _ Hrb) as (Hpk & Hrep & c & tc' & Hc & Htc' & Hlt).
  rewrite Htc in Htc'. injection Htc' as <-.
  rewrite (rollback_to_steps m fields exclude v target db p c tc) in Hrb by congruence.
  destruct (PointInTimeModel.move_frozen_relationships _ _ _) as [refs |];
    cbn [mbind result_bind] in Hrb; [| done].
  destruct (delete_each _ _) as [db1 |] eqn:Heach; cbn [mbind result_bind] in Hrb; [| done].
  apply delete_each_table in Heach. injection Hrb as <- <-.
  split; [done |]. cbn [table]. by rewrite Heach.
Qed.

(** With every referencing row on a destroyed version moved first, no
    handler runs and the core revert returns. *)
Lemma rollback_to_succeeds (m : Model) (fields exclude : option (list string))
    (v target : Instance) (db : Database) (p q : nat) (c tc : Z) :
  NoDup (name <$> get_fields m) →
  pk v = Some p → pk target = Some q → p ≠ q →
  replaced_at (cols v) = None →
  created_at (cols v) = Some c → created_at (cols target) = Some tc → tc < c →
  row_id (cols target) = row_id (cols v) →
  edges_movable v q tc db →
  PointInTimeModel._rollback_to m target fields exclude v db =
    Ok (mkDatabase
          (<[p := cols (reverted_instance m fields exclude target v)]>
             (without_rows
                (qs_exclude (λ k _, bool_decide (Some k = Some p))
                   (qs_filter
                      (λ _ r, col_gte (created_at r) tc
                              && bool_decide
                                   (row_id r = row_id (cols (reverted_instance m fields exclude target v))))
                      (table db)))
                (table db)))
          (repoint q p <$> referrers db),
        reverted_instance m fields exclude target v).
Proof.
  intros Hnd Hp Hq Hne Hrep Hc Htc Hlt Hgroup Hmov.
  assert (Hpk' : pk (reverted_instance m fields exclude target v) = Some p).
  { unfold reverted_instance. simpl. by rewrite pk_revert_fields. }
  assert (Hrow : row_id (cols (reverted_instance m fields exclude target v)) = row_id (cols v)).
  { unfold reverted_instance. simpl. by apply row_id_revert_fields. }
  rewrite (rollback_to_steps m fields exclude v target db p c tc) by congruence.
  rewrite (move_frozen_relationships_saved _ _ _ q p) by done. cbn [mbind result_bind].
  rewrite delete_each_unreferenced; [done |].
  cbn [table referrers]. intros k [r Hr].
  apply lookup_qs_exclude in Hr as [Hr Hk]. apply bool_decide_eq_false in Hk.
  apply lookup_qs_filter in Hr as [Hr Hsel]. apply andb_true_iff in Hsel as [Hge Hg].
  apply col_gte_spec in Hge as (x & Hx & Hge). apply bool_decide_eq_true in Hg.
  apply unreferenced_repoint; [congruence |].
  intros i ref j Hi Hedge. apply (Hmov i ref j k Hi Hedge).
  split; [congruence |]. exists r, x. repeat split; try done. congruence.
Qed.

(** A core revert need not return.  The edge of the current referencing
    row is moved off the target; the edge of the replaced referencing row is
    not, and the raw delete of the target runs its [PROTECT] handler. *)
Lemma rollback_to_fails_on_a_protected_historical_edge :
  PointInTimeModel._rollback_to Sample.model (mkInstance (Some 2%nat) Sample.old_row)
    None None Sample.current_instance Sample.referenced_by_history = Err ProtectedError ∧
  PointInTimeModel.rollback_latest Sample.model None None
    Sample.current_instance Sample.referenced_by_history = Err ProtectedError.
Proof. split; vm_compute; reflexivity. Qed.

(** C2: take a core revert of the version [v], stored under [p], to a
    stored version [target] of its group, and let it return.  Then [v] was
    current and [target] earlier; afterwards [v] is current, sits at the
    target's [created_at] and keeps its key; the target and every other
    version of the group created at or after the target's [created_at] are
    gone; older versions of the group, and all other groups, are
    untouched. *)
Theorem rollback_to_reverts_and_destroys_later_versions
    (m : Model) (fields exclude : option (list string))
    (v target : Instance) (db db' : Database) (v' : Instance) (p q : nat) (tc : Z) :
  NoDup (name <$> get_fields m) →
  pk v = Some p → pk target = Some q →
  created_at (cols target) = Some tc →
  row_id (cols target) = row_id (cols v) →
  table db !! q = Some (cols target) →
  PointInTimeModel._rollback_to m target fields exclude v db = Ok (db', v') →
  p ≠ q ∧
  replaced_at (cols v) = None ∧
  (∃ c, created_at (cols v) = Some c ∧ tc < c) ∧
  pk v' = Some p ∧
  replaced_at (cols v') = None ∧
  created_at (cols v') = Some tc ∧
  row_id (cols v') = row_id (cols v) ∧
  table db' !! p = Some (cols v') ∧
  table db' !! q = None ∧
  (∀ k r x, table db' !! k = Some r → k ≠ p → row_id r = row_id (cols v) →
            created_at r = Some x → x < tc) ∧
  (∀ k r, table db !! k = Some r → k ≠ p → row_id r = row_id (cols v) →
          (∀ x, created_at r = Some x → x < tc) → table db' !! k = Some r) ∧
  (∀ k r, table db !! k = Some r → k ≠ p → row_id r ≠ row_id (cols v) →
          table db' !! k = Some r).
Proof.
  intros Hnd Hp Hq Htc Hgroup Hstored Hrb.
  destruct (rollback_to_guards _ _ _ _ _ _ _ _ Hrb) as (Hpk & Hrep & c & tc' & Hc & Htc' & Hlt).
  rewrite Htc in Htc'. injection Htc' as <-.
  assert (Hne : p ≠ q) by congruence.
  destruct (rollback_to_returns m fields exclude v target db db' v' p tc Hnd Hp Htc Hrb)
    as [Hv' Htbl].
  assert (Hrow : row_id (cols v') = row_id (cols v)).
  { rewrite Hv'. unfold reverted_instance. simpl. by apply row_id_revert_fields. }
  assert (Hlook : ∀ k, k ≠ p →
    table db' !! k =
    match table db !! k with
    | Some r => if col_gte (created_at r) tc && bool_decide (row_id r = row_id (cols v))
                then None else Some r
    | None => None
    end).
  { intros k Hk. rewrite Htbl. rewrite lookup_insert_ne by done.
    rewrite (lookup_without_rows_selected
               (λ r, col_gte (created_at r) tc && bool_decide (row_id r = row_id (cols v')))) by done.
    by rewrite Hrow. }
  split; [done |]. split; [done |]. split; [by exists c |].
  split; [| split; [| split; [| split; [| split; [| split; [| split; [| split]]]]]]].
  - rewrite Hv'. unfold reverted_instance. simpl. by rewrite pk_revert_fields.
  - by rewrite Hv'.
  - rewrite Hv'. unfold reverted_instance. simpl. done.
  - done.
  - rewrite Htbl. by rewrite lookup_insert_eq.
  - rewrite Hlook by done. rewrite Hstored, Htc. simpl.
    rewrite bool_decide_eq_true_2 by lia. by rewrite bool_decide_eq_true_2.
  - intros k r x Hk Hkp Hg Hx. rewrite Hlook in Hk by done.
    destruct (table db !! k) as [r' |]; [| done].
    destruct (col_gte (created_at r') tc && bool_decide (row_id r' = row_id (cols v))) eqn:Hsel;
      [done |].
    injection Hk as ->. rewrite Hx in Hsel. simpl in Hsel.
    rewrite (bool_decide_eq_true_2 (row_id r = row_id (cols v))) in Hsel by done.
    rewrite andb_true_r in Hsel. apply bool_decide_eq_false in Hsel. lia.
  - intros k r Hk Hkp Hg Hold. rewrite Hlook by done. rewrite Hk.
    destruct (created_at r) as [x |] eqn:Hx; simpl; [| done].
    rewrite bool_decide_eq_false_2; [done |]. specialize (Hold x eq_refl). lia.
  - intros k r Hk Hkp Hg. rewrite Hlook by done. rewrite Hk.
    rewrite (bool_decide_eq_false_2 (row_id r = row_id (cols v))) by done.
    by rewrite andb_false_r.
Qed.

Lemma rollback_to_reverts_and_destroys_later_versions_witness :
  ∃ db' v',
    PointInTimeModel._rollback_to Sample.model (mkInstance (Some 2%nat) Sample.old_row)
      None None Sample.current_instance Sample.referenced_before = Ok (db', v') ∧
    pk v' = Some 1%nat ∧ created_at (cols v') = Some 10 ∧ table db' !! 2%nat = None.
Proof.
  destruct (PointInTimeModel._rollback_to Sample.model (mkInstance (Some 2%nat) Sample.old_row)
              None None Sample.current_instance Sample.referenced_before)
    as [[db' v'] | e] eqn:Hrb; [| vm_compute in Hrb; discriminate Hrb].
  exists db', v'. split; [reflexivity |].
  destruct (rollback_to_reverts_and_destroys_later_versions Sample.model None None
              Sample.current_instance (mkInstance (Some 2%nat) Sample.old_row)
              Sample.referenced_before db' v' 1%nat 2%nat 10)
    as (_ & _ & _ & Hpk & _ & Hcreated & _ & _ & Hgone & _); try reflexivity; try done.
  apply (bool_decide_unpack _). vm_compute. exact I.
Defined.

Lemma getattr_reverted_instance_other (m : Model) (fields exclude : option (list string))
    (previous self : Instance) (n : string) :
  n ≠ "created_at" → n ≠ "replaced_at" →
  getattr n (reverted_instance m fields exclude previous self) =
    getattr n (PointInTimeModel.revert_fields m fields
                 (default [] exclude ++ get_one_to_one_fields m) previous self).
Proof.
  intros Hc Hr. unfold getattr, reverted_instance.
  destruct (slot_of n) eqn:Hs; simpl; try done;
    (assert (n = slot_name (slot_of n)) as Hsys by (apply slot_of_system; congruence));
    rewrite Hs in Hsys; simpl in Hsys; congruence.
Qed.

(** C3 (as stated, refuted): [created_at] is a concrete field, and it takes
    the target's value although [exclude] names it; [replaced_at] is
    selected by the rule, and it does not take the target's value. *)
Lemma revert_always_takes_the_created_at_of_the_target :
  ∃ db' v',
    PointInTimeModel._rollback_to Sample.model (mkInstance (Some 2%nat) Sample.old_row)
      None (Some ["created_at"]) Sample.current_instance Sample.two_versions = Ok (db', v') ∧
    mkField "created_at" false false ∈ concrete_fields Sample.model ∧
    reverted None (Some ["created_at"]) (mkField "created_at" false false) = false ∧
    getattr "created_at" Sample.current_instance = PyDatetime (day + 5) ∧
    getattr "created_at" (mkInstance (Some 2%nat) Sample.old_row) = PyDatetime 10 ∧
    getattr "created_at" v' = PyDatetime 10 ∧
    mkField "replaced_at" false false ∈ concrete_fields Sample.model ∧
    reverted None (Some ["created_at"]) (mkField "replaced_at" false false) = true ∧
    getattr "replaced_at" (mkInstance (Some 2%nat) Sample.old_row) = PyDatetime (day + 5) ∧
    getattr "replaced_at" v' = PyNone.
Proof.
  destruct (PointInTimeModel._rollback_to Sample.model (mkInstance (Some 2%nat) Sample.old_row)
              None (Some ["created_at"]) Sample.current_instance Sample.two_versions)
    as [[db' v'] | e] eqn:Hrb; vm_compute in Hrb; [| discriminate Hrb].
  injection Hrb as <- <-. eexists _, _. split; [reflexivity |].
  repeat split; try (vm_compute; reflexivity);
    apply (bool_decide_unpack _); vm_compute; exact I.
Qed.

(** C3 (amended): after a core revert that returns, a concrete field other
    than [created_at] and [replaced_at] holds the target's value exactly
    when it is not the primary key, not one-to-one, not named in [exclude],
    and named in [fields] if [fields] is given; otherwise it holds the value
    it had.  A field named in both lists is not reverted, and the primary
    key never is.  [created_at] always takes the target's value and
    [replaced_at] is always null, whatever the two lists say.  The instance
    is stored under its own key. *)
Theorem revert_copies_exactly_the_selected_fields
    (m : Model) (fields exclude : option (list string)) (previous self : Instance)
    (db db' : Database) (self' : Instance) (p : nat) (f : Field) :
  NoDup (name <$> get_fields m) →
  f ∈ concrete_fields m →
  pk self = Some p →
  PointInTimeModel._rollback_to m previous fields exclude self db = Ok (db', self') →
  (name f ≠ "created_at" → name f ≠ "replaced_at" →
     getattr (name f) self' =
       (if reverted fields exclude f then getattr (name f) previous
        else getattr (name f) self)) ∧
  getattr "created_at" self' = getattr "created_at" previous ∧
  getattr "replaced_at" self' = PyNone ∧
  (∀ fs ex, fields = Some fs → exclude = Some ex → name f ∈ fs → name f ∈ ex →
     name f ≠ "created_at" → getattr (name f) self' = getattr (name f) self) ∧
  (primary_key f = true → getattr (name f) self' = getattr (name f) self) ∧
  pk self' = pk self ∧
  table db' !! p = Some (cols self').
Proof.
  intros Hnd Hf Hp Hrb.
  assert (Hf' : f ∈ get_fields m) by (unfold get_fields; apply elem_of_app; by left).
  destruct (rollback_to_guards _ _ _ _ _ _ _ _ Hrb) as (_ & Hrep & c & tc & Hc & Htc & Hlt).
  destruct (rollback_to_returns m fields exclude self previous db db' self' p tc Hnd Hp Htc Hrb)
    as [Hself' Htbl].
  assert (Hmain : name f ≠ "created_at" → name f ≠ "replaced_at" →
    getattr (name f) self' =
      (if reverted fields exclude f then getattr (name f) previous
       else getattr (name f) self)).
  { intros Hnc Hnr. rewrite Hself', getattr_reverted_instance_other by done.
    by apply getattr_revert_fields. }
  assert (Hreplaced : getattr "replaced_at" self' = PyNone) by by rewrite Hself'.
  assert (Hsys : ∀ n, n = "created_at" ∨ n = "replaced_at" →
            name f = n → primary_key f = false).
  { intros n Hn Hname.
    assert (f = mkField n false false) as ->; [| done].
    apply (NoDup_fmap_eq name (get_fields m)); [done | done | | done].
    apply elem_of_pita_fields.
    destruct Hn as [-> | ->]; apply (bool_decide_unpack _); vm_compute; exact I. }
  split; [exact Hmain |]. split; [by rewrite Hself' |]. split; [exact Hreplaced |].
  split; [| split; [| split]].
  - intros fs ex -> -> Hfs Hex Hnc.
    destruct (decide (name f = "replaced_at")) as [Hnr | Hnr].
    + rewrite Hnr, Hreplaced. unfold getattr. simpl. by rewrite Hrep.
    + rewrite Hmain by done. unfold reverted. simpl.
      rewrite (bool_decide_eq_true_2 (name f ∈ ex)) by done. simpl.
      by rewrite !andb_false_r.
  - intros Hpk. rewrite Hmain.
    + unfold reverted. by rewrite Hpk.
    + intros Hn. rewrite (Hsys "created_at") in Hpk by auto. done.
    + intros Hn. rewrite (Hsys "replaced_at") in Hpk by auto. done.
  - rewrite Hself'. unfold reverted_instance. simpl. by rewrite pk_revert_fields.
  - rewrite Htbl. by rewrite lookup_insert_eq.
Qed.

Lemma revert_copies_exactly_the_selected_fields_witness :
  ∃ db' v',
    PointInTimeModel._rollback_to Sample.model (mkInstance (Some 2%nat) Sample.old_row)
      (Some ["c1"; "start_at"]) (Some ["c1"]) Sample.current_instance Sample.two_versions
      = Ok (db', v') ∧
    getattr "c1" v' = PyStr "second" ∧
    getattr "created_at" v' = PyDatetime 10.
Proof.
  destruct (PointInTimeModel._rollback_to Sample.model (mkInstance (Some 2%nat) Sample.old_row)
              (Some ["c1"; "start_at"]) (Some ["c1"]) Sample.current_instance Sample.two_versions)
    as [[db' v'] | e] eqn:Hrb; [| vm_compute in Hrb; discriminate Hrb].
  exists db', v'. split; [reflexivity |].
  destruct (revert_copies_exactly_the_selected_fields Sample.model
              (Some ["c1"; "start_at"]) (Some ["c1"])
              (mkInstance (Some 2%nat) Sample.old_row) Sample.current_instance
              Sample.two_versions db' v' 1%nat (mkField "c1" false false))
    as (Hmain & Hcreated & _); try reflexivity; try done.
  - apply (bool_decide_unpack _). vm_compute. exact I.
  - apply (bool_decide_unpack _). vm_compute. exact I.
  - split; [by apply Hmain | exact Hcreated].
Defined.

(** ** Transaction-time intervals across an update *)

Lemma one_version_per_group_alt (tbl : Table) :
  one_version_per_group tbl ↔
  ∀ t k1 k2 r1 r2, tbl !! k1 = Some r1 → tbl !! k2 = Some r2 →
    recorded_at t r1 → recorded_at t r2 → row_id r1 = row_id r2 → k1 = k2.
Proof.
  unfold one_version_per_group, PointInTimeQuerySet.version. simpl. split.
  - intros H t k1 k2 r1 r2 H1 H2 Hr1 Hr2 Hg.
    apply (H t _ k1 k2 r1 r2 eq_refl); [| | done];
      apply lookup_qs_filter; split; try done; by apply recorded_window_spec.
  - intros H t qs k1 k2 r1 r2 [= <-] H1 H2 Hg.
    apply lookup_qs_filter in H1 as [H1 Hr1]. apply lookup_qs_filter in H2 as [H2 Hr2].
    apply recorded_window_spec in Hr1, Hr2. by apply (H t k1 k2 r1 r2).
Qed.

Lemma created_at_clone_of (m : Model) (now : Z) (p : nat) (r0 : Row) (c : Z) :
  created_at (clone_of m now p r0) = Some c → created_at r0 = Some c.
Proof.
  intros Hc.
  pose proof (getattr_foldl_null_attr (get_one_to_one_fields m) (mkInstance None r0)
                "created_at") as H.
  fold (nulled (get_one_to_one_fields m) r0) in H.
  unfold getattr in H. simpl in H. unfold clone_of in Hc. simpl in Hc.
  rewrite Hc in H. simpl in H. case_bool_decide; [done |].
  destruct (created_at r0); simpl in H; congruence.
Qed.

Lemma recorded_at_created (t : Z) (r : Row) :
  recorded_at t r → ∃ c, created_at r = Some c ∧ c ≤ t.
Proof. by intros [H _]. Qed.

Lemma recorded_at_replaced (t x : Z) (r : Row) :
  recorded_at t r → replaced_at r = Some x → t < x.
Proof. intros [_ [H | (y & Hy & Hlt)]] Hx; [congruence |]. rewrite Hx in Hy. by injection Hy as ->. Qed.

Lemma recorded_at_current (t c : Z) (r : Row) :
  created_at r = Some c → c ≤ t → replaced_at r = None → recorded_at t r.
Proof. intros Hc Hle Hrep. split; [by exists c | by left]. Qed.

Lemma update_preserves_one_version_per_group
    (tbl : Table) (p k : nat) (r0 clone new : Row) (now c0 : Z) :
  tbl !! p = Some r0 → tbl !! k = None →
  row_id r0 = Some p → replaced_at r0 = None → created_at r0 = Some c0 → c0 ≤ now →
  row_id clone = Some p → replaced_at clone = Some now →
  (∀ c, created_at clone = Some c → created_at r0 = Some c) →
  row_id new = Some p → created_at new = Some now →
  one_version_per_group tbl →
  one_version_per_group (<[p := new]> (<[k := clone]> tbl)).
Proof.
  intros Hp Hk Hg0 Hrep0 Hc0 Hle Hgc Hrepc Hcc Hgn Hcn Hinv.
  rewrite one_version_per_group_alt in Hinv. apply one_version_per_group_alt.
  assert (Hkp : k ≠ p) by (intros ->; congruence).
  assert (Hcase : ∀ t j r, <[p := new]> (<[k := clone]> tbl) !! j = Some r → recorded_at t r →
            (j = p ∧ r = new ∧ now ≤ t) ∨ (j = k ∧ r = clone ∧ t < now ∧ recorded_at t r0)
            ∨ (j ≠ p ∧ j ≠ k ∧ tbl !! j = Some r)).
  { intros t j r Hj Hrec. destruct (decide (j = p)) as [-> | Hjp].
    - rewrite lookup_insert_eq in Hj. injection Hj as <-. left.
      apply recorded_at_created in Hrec as (c & Hc & Hct). rewrite Hcn in Hc.
      injection Hc as <-. done.
    - rewrite lookup_insert_ne in Hj by done. destruct (decide (j = k)) as [-> | Hjk].
      + rewrite lookup_insert_eq in Hj. injection Hj as <-. right. left.
        pose proof (recorded_at_replaced t now _ Hrec Hrepc) as Hlt.
        apply recorded_at_created in Hrec as (c & Hc & Hct).
        repeat split; try done; [by exists c; split; [apply Hcc |] | by left].
      + rewrite lookup_insert_ne in Hj by done. right. by right. }
  assert (Hr0 : ∀ t, now ≤ t → recorded_at t r0).
  { intros t Ht. apply (recorded_at_current t c0); [done | lia | done]. }
  intros t k1 k2 r1 r2 H1 H2 Hrec1 Hrec2 Hg.
  destruct (Hcase t k1 r1 H1 Hrec1) as [(-> & -> & Ht1) | [(-> & -> & Ht1 & Hr1) | (Hp1 & Hk1 & Ho1)]];
    destruct (Hcase t k2 r2 H2 Hrec2) as [(-> & -> & Ht2) | [(-> & -> & Ht2 & Hr2) | (Hp2 & Hk2 & Ho2)]];
    try done; try lia.
  - exfalso. apply Hp2. symmetry. apply (Hinv t p k2 r0 r2); auto. congruence.
  - exfalso. apply Hp2. symmetry. apply (Hinv t p k2 r0 r2); auto. congruence.
  - exfalso. apply Hp1. apply (Hinv t k1 p r1 r0); auto. congruence.
  - exfalso. apply Hp1. apply (Hinv t k1 p r1 r0); auto. congruence.
  - by apply (Hinv t k1 k2 r1 r2).
Qed.

Lemma one_version_per_group_singleton (k : nat) (r : Row) :
  one_version_per_group {[ k := r ]}.
Proof.
  apply one_version_per_group_alt. intros t k1 k2 r1 r2 H1 H2 _ _ _.
  apply lookup_singleton_Some in H1 as [<- _]. by apply lookup_singleton_Some in H2 as [<- _].
Qed.

Lemma one_version_per_group_two_versions :
  one_version_per_group (table Sample.two_versions).
Proof.
  apply one_version_per_group_alt. intros t k1 k2 r1 r2 H1 H2 Hr1 Hr2 _.
  unfold Sample.two_versions in H1, H2. simpl in H1, H2.
  apply lookup_insert_Some in H1 as [[<- <-] | [Hn1 H1]];
    apply lookup_insert_Some in H2 as [[<- <-] | [Hn2 H2]]; try done.
  - apply lookup_singleton_Some in H2 as [<- <-].
    pose proof (recorded_at_replaced t (day + 5) _ Hr2 eq_refl).
    apply recorded_at_created in Hr1 as (c & [= <-] & Hle). lia.
  - apply lookup_singleton_Some in H1 as [<- <-].
    pose proof (recorded_at_replaced t (day + 5) _ Hr1 eq_refl).
    apply recorded_at_created in Hr2 as (c & [= <-] & Hle). lia.
  - apply lookup_singleton_Some in H1 as [<- _]. by apply lookup_singleton_Some in H2 as [<- _].
Qed.

(** C9 (as stated, refuted): an update stamped with a time earlier than
    the [created_at] of the version it replaces.  The group had one
    version at every instant; after the update at 20 of the version written
    five microseconds into day 1, [version] at 30 returns the new state
    under key 1 and the version of day 0 under key 2. *)
Lemma save_update_behind_the_clock_overlaps_versions :
  one_version_per_group (table Sample.two_versions) ∧
  created_at Sample.new_row = Some (day + 5) ∧
  ∃ db' v' qs,
    PointInTimeModel.save Sample.model 20 None Sample.current_instance Sample.two_versions
      = Ok (db', v') ∧
    PointInTimeQuerySet.version (PyDatetime 30) (table db') = Ok qs ∧
    row_id <$> qs !! 1%nat = Some (Some 1%nat) ∧
    row_id <$> qs !! 2%nat = Some (Some 1%nat) ∧
    ¬ one_version_per_group (table db').
Proof.
  split; [apply one_version_per_group_two_versions |]. split; [done |].
  destruct (PointInTimeModel.save Sample.model 20 None Sample.current_instance
              Sample.two_versions) as [[db' v'] | e] eqn:Hsave;
    vm_compute in Hsave; [| discriminate Hsave].
  injection Hsave as <- <-.
  eexists _, _, _. split; [reflexivity |]. split; [reflexivity |].
  split; [vm_compute; reflexivity |]. split; [vm_compute; reflexivity |].
  intros Hinv.
  assert (1%nat = 2%nat) as Heq; [| discriminate Heq].
  eapply (Hinv 30 _ 1%nat 2%nat); [reflexivity | vm_compute; reflexivity
                                   | vm_compute; reflexivity | reflexivity].
Qed.

(** C9 (amended): an update stamps the clone's [replaced_at] and the new
    current version's [created_at] with the same captured time, so the
    clone's transaction-time interval ends where the new one starts and
    starts where the stored one started; no instant is covered by both.
    For a group linked to [p] ([row_id] is [p] in the stored row, and [p] or
    unset in memory) whose current version was not written after [now],
    [version(t)] still returns at most one version per row group. *)
Theorem save_update_abuts_transaction_time_intervals
    (m : Model) (now : Z) (user : option nat) (v : Instance) (db : Database)
    (p : nat) (r0 : Row) :
  pk v = Some p → replaced_at (cols v) = None →
  table db !! p = Some r0 → replaced_at r0 = None →
  ∃ db' v' k clone,
    PointInTimeModel.save m now user v db = Ok (db', v') ∧
    table db !! k = None ∧
    table db' !! k = Some clone ∧
    table db' !! p = Some (cols v') ∧
    replaced_at clone = Some now ∧
    created_at (cols v') = Some now ∧
    replaced_at clone = created_at (cols v') ∧
    ("created_at" ∉ get_one_to_one_fields m → created_at clone = created_at r0) ∧
    (∀ t, recorded_at t clone → recorded_at t (cols v') → False) ∧
    (∀ c0, row_id r0 = Some p →
           row_id (cols v) = Some p ∨ row_id (cols v) = None →
           created_at r0 = Some c0 → c0 ≤ now →
           one_version_per_group (table db) →
           one_version_per_group (table db')).
Proof.
  intros Hpk Hrep Hp Hcur.
  pose proof (new_pk_fresh (table db)) as Hfresh.
  set (k := Model_.new_pk (table db)) in *.
  assert (Hkp : k ≠ p) by (intros ->; congruence).
  exists (mkDatabase
            (<[p := cols (updated now user p v)]> (<[k := clone_of m now p r0]> (table db)))
            (repoint p k <$> referrers db)),
    (updated now user p v), k, (clone_of m now p r0).
  split; [by apply (save_update m now user v db p r0) |].
  cbn [table].
  split; [done |]. split; [by rewrite lookup_insert_ne, lookup_insert_eq |].
  split; [by rewrite lookup_insert_eq |].
  split; [done |]. split; [done |]. split; [done |]. split; [| split].
  - intros Hone.
    pose proof (getattr_foldl_null_attr (get_one_to_one_fields m) (mkInstance None r0)
                  "created_at") as H.
    fold (nulled (get_one_to_one_fields m) r0) in H.
    rewrite bool_decide_eq_false_2 in H by done.
    unfold getattr in H. simpl in H. unfold clone_of. simpl.
    destruct (created_at (cols (nulled (get_one_to_one_fields m) r0))), (created_at r0);
      simpl in H; congruence.
  - intros t Hclone Hnew.
    pose proof (recorded_at_replaced t now _ Hclone eq_refl) as Hlt.
    apply recorded_at_created in Hnew as (c & Hc & Hle). simpl in Hc. injection Hc as <-. lia.
  - intros c0 Hg0 Hgv Hc0 Hle Hinv.
    apply (update_preserves_one_version_per_group _ p k r0 _ _ now c0); try done.
    + apply created_at_clone_of.
    + simpl. destruct Hgv as [-> | ->]; done.
Qed.

Lemma save_update_abuts_transaction_time_intervals_witness :
  ∃ db' v',
    PointInTimeModel.save Sample.model 20 None
      (mkInstance (Some 1%nat) (set_payload {[ "c1" := PyStr "second" ]} Sample.first_row))
      Sample.one_version = Ok (db', v') ∧
    created_at (cols v') = Some 20 ∧
    one_version_per_group (table db').
Proof.
  destruct (save_update_abuts_transaction_time_intervals Sample.model 20 None
              (mkInstance (Some 1%nat) (set_payload {[ "c1" := PyStr "second" ]} Sample.first_row))
              Sample.one_version 1%nat Sample.first_row eq_refl eq_refl eq_refl eq_refl)
    as (db' & v' & k & clone & Hsave & _ & _ & _ & _ & Hcreated & _ & _ & _ & Hinv).
  exists db', v'. split; [done |]. split; [done |].
  apply (Hinv 10).
  - reflexivity.
  - by left.
  - reflexivity.
  - lia.
  - apply one_version_per_group_singleton.
Defined.

(** ** Frozen references *)


Lemma save_update_inv (m : Model) (now : Z) (user : option nat) (v : Instance)
    (db db' : Database) (v' : Instance) (p : nat) :
  pk v = Some p → PointInTimeModel.save m now user v db = Ok (db', v') →
  ∃ r0, replaced_at (cols v) = None ∧ table db !! p = Some r0 ∧ replaced_at r0 = None.
Proof.
  intros Hpk. unfold PointInTimeModel.save. rewrite Hpk.
  destruct (replaced_at (cols v)) eqn:Hrep; simpl; [done |].
  unfold PointInTimeModel.copy, PointInTimeDefaultManager.copy. rewrite Hpk. simpl.
  destruct (PointInTimeDefaultManager.current (table db) !! p) as [r0 |] eqn:Hcur; [| done].
  intros _. apply lookup_current in Hcur as [Hp Hnone]. by exists r0.
Qed.



Lemma getattr_reverted_instance (m : Model) (fields exclude : option (list string))
    (target v : Instance) (f : Field) :
  NoDup (name <$> get_fields m) → f ∈ get_fields m →
  reverted fields exclude f = true → name f ≠ "replaced_at" →
  getattr (name f) (reverted_instance m fields exclude target v) = getattr (name f) target.
Proof.
  intros Hnd Hf Hrev Hname.
  pose proof (getattr_revert_fields m fields exclude target v f Hnd Hf) as H.
  rewrite Hrev in H. unfold reverted_instance, getattr in *.
  destruct (slot_of (name f)) eqn:Hs; simpl; try done.
  exfalso. apply Hname. rewrite (slot_of_system (name f)) by congruence. by rewrite Hs.
Qed.







(** * Further properties of the code *)

(** ** Ordering of versions *)

Lemma version_lt_irrefl (a : nat * Row) : version_lt a a = false.
Proof.
  unfold version_lt. destruct (created_at a.2); simpl.
  - rewrite bool_decide_eq_false_2 by lia. simpl.
    rewrite andb_false_iff. right. apply bool_decide_eq_false_2. lia.
  - apply bool_decide_eq_false_2. lia.
Qed.

Lemma version_lt_trans (a b c : nat * Row) :
  version_lt a b = true → version_lt b c = true → version_lt a c = true.
Proof.
  unfold version_lt.
  destruct (created_at a.2) as [x |], (created_at b.2) as [y |], (created_at c.2) as [z |];
    simpl; try done.
  - rewrite !orb_true_iff, !andb_true_iff, !bool_decide_eq_true. lia.
  - rewrite !bool_decide_eq_true. lia.
Qed.

Lemma foldr_latest_max (l : list (nat * Row)) (b : nat * Row) :
  foldr (λ kr best,
           match best with
           | Some b => if version_lt b kr then Some kr else Some b
           | None => Some kr
           end) None l = Some b →
  b ∈ l ∧ ∀ x, x ∈ l → version_lt b x = false.
Proof.
  revert b. induction l as [| kr l IH]; intros b H; simpl in H; [done |].
  destruct (foldr _ None l) as [b' |] eqn:Hb'.
  - destruct (IH b' eq_refl) as [Hin Hmax].
    destruct (version_lt b' kr) eqn:Hlt; injection H as <-.
    + split; [apply elem_of_cons; by left |].
      intros x [-> | Hx]%elem_of_cons; [apply version_lt_irrefl |].
      destruct (version_lt kr x) eqn:Hkx; [| done].
      rewrite <- (Hmax x Hx). symmetry. by apply (version_lt_trans b' kr x).
    + split; [apply elem_of_cons; by right |].
      intros x [-> | Hx]%elem_of_cons; [done | by apply Hmax].
  - injection H as <-. destruct l as [| y l]; [| simpl in Hb'; by repeat case_match].
    split; [apply elem_of_cons; by left |].
    intros x [-> | Hx]%elem_of_cons; [apply version_lt_irrefl | by apply elem_of_nil in Hx].
Qed.

Lemma latest_first_max (qs : Table) (b : nat * Row) :
  latest_first qs = Some b →
  qs !! b.1 = Some b.2 ∧ ∀ k r, qs !! k = Some r → version_lt b (k, r) = false.
Proof.
  intros H. apply foldr_latest_max in H as [Hin Hmax]. split.
  - apply elem_of_map_to_list. by destruct b.
  - intros k r Hk. apply Hmax. by apply elem_of_map_to_list.
Qed.

Lemma latest_first_greatest (qs : Table) (k : nat) (r : Row) :
  qs !! k = Some r →
  (∀ k' r', qs !! k' = Some r' → k' ≠ k → version_lt (k', r') (k, r) = true) →
  latest_first qs = Some (k, r).
Proof.
  intros Hk Hgreatest.
  destruct (latest_first qs) as [[k0 r0] |] eqn:Hl.
  - apply latest_first_max in Hl as [Hk0 Hmax]. simpl in Hk0.
    destruct (decide (k0 = k)) as [-> | Hne]; [congruence |].
    specialize (Hmax k r Hk). by rewrite (Hgreatest k0 r0 Hk0 Hne) in Hmax.
  - apply latest_first_None in Hl. subst. by rewrite lookup_empty in Hk.
Qed.

Lemma map_size_1_unique (m : Table) (k1 k2 : nat) (r1 r2 : Row) :
  size m = 1%nat → m !! k1 = Some r1 → m !! k2 = Some r2 → k1 = k2.
Proof.
  intros Hsize H1 H2. destruct (decide (k1 = k2)) as [| Hne]; [done |].
  assert (size (base.delete k1 m) = 0%nat) as Hz.
  { rewrite map_size_delete_Some by eauto. by rewrite Hsize. }
  apply map_size_empty_iff in Hz.
  assert (base.delete k1 m !! k2 = Some r2) as Hk2 by by rewrite lookup_delete_ne.
  rewrite Hz in Hk2. by rewrite lookup_empty in Hk2.
Qed.

(** ** Choosing the rollback target *)

Lemma version_lt_false_created (a b : nat * Row) (x y : Z) :
  version_lt a b = false → created_at a.2 = Some x → created_at b.2 = Some y → y ≤ x.
Proof.
  unfold version_lt. intros H Ha Hb. rewrite Ha, Hb in H.
  apply orb_false_iff in H as [H _]. apply bool_decide_eq_false in H. lia.
Qed.

(** X1: [rollback_to_at] on the latest version of a group, when some version
    of the group was created at or before the time: the target is the
    stored version of the group with the greatest [created_at] not after
    the time; the call does nothing if that is the instance itself and is
    the core revert to it otherwise. *)
Theorem rollback_to_at_targets_latest_version_at_time
    (m : Model) (time : pyval) (fields exclude : option (list string))
    (v : Instance) (db : Database) (c t : Z) (k0 : nat) (r0 : Row) (x0 : Z) :
  created_at (cols v) = Some c →
  size (qs_filter (λ _ r, bool_decide (row_id r = row_id (cols v))
                          && col_gte (created_at r) c) (table db)) = 1%nat →
  get_prep_value time = Ok t →
  table db !! k0 = Some r0 → row_id r0 = row_id (cols v) →
  created_at r0 = Some x0 → x0 ≤ t →
  ∃ k r x,
    table db !! k = Some r ∧ row_id r = row_id (cols v) ∧
    created_at r = Some x ∧ x ≤ t ∧
    (∀ k' r' x', table db !! k' = Some r' → row_id r' = row_id (cols v) →
                 created_at r' = Some x' → x' ≤ t → x' ≤ x) ∧
    PointInTimeModel.rollback_to_at m time fields exclude v db =
      if bool_decide (Some k = pk v) then Ok (db, v)
      else PointInTimeModel._rollback_to m (mkInstance (Some k) r) fields exclude v db.
Proof.
  intros Hc Hsize Htime Hk0 Hg0 Hx0 Hle0.
  set (qs := qs_filter (λ _ r, bool_decide (row_id r = row_id (cols v))
                               && col_lte (created_at r) t) (table db)).
  assert (Hin : ∀ k r, qs !! k = Some r ↔
            table db !! k = Some r ∧ row_id r = row_id (cols v) ∧
            ∃ x, created_at r = Some x ∧ x ≤ t).
  { intros k r. unfold qs.
    rewrite lookup_qs_filter, andb_true_iff, bool_decide_eq_true, col_lte_spec. tauto. }
  destruct (latest_first qs) as [[k r] |] eqn:Hl.
  - pose proof (latest_first_max qs _ Hl) as [Hk Hmax]. simpl in Hk.
    apply Hin in Hk as (Hk & Hg & x & Hx & Hle).
    exists k, r, x. repeat split; try done.
    + intros k' r' x' Hk' Hg' Hx' Hle'.
      apply (version_lt_false_created (k, r) (k', r')); try done.
      apply Hmax, Hin. eauto.
    + unfold PointInTimeModel.rollback_to_at. rewrite Hc. simpl.
      rewrite Hsize. simpl. rewrite Htime. simpl. fold qs. by rewrite Hl.
  - apply latest_first_None in Hl.
    assert (qs !! k0 = Some r0) as Hq by (apply Hin; eauto).
    rewrite Hl in Hq. by rewrite lookup_empty in Hq.
Qed.

Lemma rollback_to_at_targets_latest_version_at_time_witness :
  ∃ r,
    PointInTimeModel.rollback_to_at Sample.model (PyDatetime 15) None None
      Sample.current_instance Sample.two_versions
    = PointInTimeModel._rollback_to Sample.model (mkInstance (Some 2%nat) r) None None
        Sample.current_instance Sample.two_versions.
Proof.
  destruct (rollback_to_at_targets_latest_version_at_time Sample.model (PyDatetime 15)
              None None Sample.current_instance Sample.two_versions (day + 5) 15
              2%nat Sample.old_row 10 eq_refl eq_refl eq_refl eq_refl eq_refl eq_refl)
    as (k & r & x & Hk & _ & Hx & Hle & _ & Hrb); [lia |].
  assert (k = 2%nat) as ->.
  { unfold Sample.two_versions in Hk. simpl in Hk.
    apply lookup_insert_Some in Hk as [[<- <-] | [_ Hk]].
    - injection Hx as <-. unfold day in Hle. lia.
    - by apply lookup_singleton_Some in Hk as [<- _]. }
  exists r. rewrite Hrb. reflexivity.
Defined.

(** X2: [rollback_to_at] with a time at or after the [created_at] of the latest
    version changes nothing. *)
Theorem rollback_to_at_after_last_edit_does_nothing
    (m : Model) (time : pyval) (fields exclude : option (list string))
    (v : Instance) (db : Database) (p : nat) (r : Row) (c t : Z) :
  pk v = Some p → created_at (cols v) = Some c →
  table db !! p = Some r → row_id r = row_id (cols v) → created_at r = Some c →
  size (qs_filter (λ _ r, bool_decide (row_id r = row_id (cols v))
                          && col_gte (created_at r) c) (table db)) = 1%nat →
  get_prep_value time = Ok t → c ≤ t →
  PointInTimeModel.rollback_to_at m time fields exclude v db = Ok (db, v).
Proof.
  intros Hpk Hc Hp Hg Hcr Hsize Htime Hle.
  unfold PointInTimeModel.rollback_to_at. rewrite Hc. simpl.
  rewrite Hsize. simpl. rewrite Htime. simpl.
  rewrite (latest_first_greatest _ p r).
  - by rewrite Hpk, bool_decide_eq_true_2.
  - apply lookup_qs_filter. split; [done |]. rewrite Hcr. simpl.
    rewrite !bool_decide_eq_true_2; done.
  - intros k' r' Hk' Hne.
    apply lookup_qs_filter in Hk' as [Hk' Hsel].
    apply andb_true_iff in Hsel as [Hg' Hle'].
    apply col_lte_spec in Hle' as (x' & Hx' & Hle').
    unfold version_lt. simpl. rewrite Hx', Hcr.
    apply orb_true_iff. left. apply bool_decide_eq_true.
    destruct (decide (x' < c)) as [| Hge]; [done |]. exfalso. apply Hne.
    apply (map_size_1_unique _ k' p r' r Hsize); apply lookup_qs_filter; split; try done.
    + rewrite Hg'. simpl. rewrite Hx'. simpl. apply bool_decide_eq_true_2. lia.
    + rewrite Hcr. simpl. rewrite !bool_decide_eq_true_2; done.
Qed.

Lemma rollback_to_at_after_last_edit_does_nothing_witness :
  PointInTimeModel.rollback_to_at Sample.model (PyDate 2) None None
    Sample.current_instance Sample.two_versions
  = Ok (Sample.two_versions, Sample.current_instance).
Proof.
  apply (rollback_to_at_after_last_edit_does_nothing Sample.model (PyDate 2) None None
           Sample.current_instance Sample.two_versions 1%nat Sample.new_row (day + 5) (2 * day));
    try reflexivity.
  unfold day. lia.
Defined.

Lemma lookup_other_versions (v : Instance) (tbl : Table) (k : nat) (r : Row) :
  qs_exclude (λ k _, bool_decide (Some k = pk v))
    (qs_filter (λ _ r, bool_decide (row_id r = row_id (cols v))) tbl) !! k = Some r ↔
  tbl !! k = Some r ∧ row_id r = row_id (cols v) ∧ Some k ≠ pk v.
Proof.
  rewrite lookup_qs_exclude, lookup_qs_filter, bool_decide_eq_true, bool_decide_eq_false.
  tauto.
Qed.

(** X3: [rollback_latest], when the group has a version other than the
    instance: the target is the other stored version of the group with the
    greatest [created_at], and the call is the core revert to it. *)
Theorem rollback_latest_targets_latest_other_version
    (m : Model) (fields exclude : option (list string))
    (v : Instance) (db : Database) (k0 : nat) (r0 : Row) :
  table db !! k0 = Some r0 → row_id r0 = row_id (cols v) → Some k0 ≠ pk v →
  ∃ k r,
    table db !! k = Some r ∧ row_id r = row_id (cols v) ∧ Some k ≠ pk v ∧
    (∀ k' r' x x', table db !! k' = Some r' → row_id r' = row_id (cols v) →
                   Some k' ≠ pk v → created_at r = Some x → created_at r' = Some x' →
                   x' ≤ x) ∧
    PointInTimeModel.rollback_latest m fields exclude v db =
      PointInTimeModel._rollback_to m (mkInstance (Some k) r) fields exclude v db.
Proof.
  intros Hk0 Hg0 Hne0.
  set (qs := qs_exclude (λ k _, bool_decide (Some k = pk v))
               (qs_filter (λ _ r, bool_decide (row_id r = row_id (cols v))) (table db))).
  destruct (latest_first qs) as [[k r] |] eqn:Hl.
  - pose proof (latest_first_max qs _ Hl) as [Hk Hmax]. simpl in Hk.
    apply lookup_other_versions in Hk as (Hk & Hg & Hne).
    exists k, r. repeat split; try done.
    + intros k' r' x x' Hk' Hg' Hne' Hx Hx'.
      apply (version_lt_false_created (k, r) (k', r')); try done.
      apply Hmax. by apply lookup_other_versions.
    + unfold PointInTimeModel.rollback_latest. fold qs. by rewrite Hl.
  - apply latest_first_None in Hl.
    assert (qs !! k0 = Some r0) as Hq by by apply lookup_other_versions.
    rewrite Hl in Hq. by rewrite lookup_empty in Hq.
Qed.

Lemma rollback_latest_targets_latest_other_version_witness :
  ∃ k r,
    Sample.two_versions.(table) !! k = Some r ∧
    PointInTimeModel.rollback_latest Sample.model None None
      Sample.current_instance Sample.two_versions
    = PointInTimeModel._rollback_to Sample.model (mkInstance (Some k) r) None None
        Sample.current_instance Sample.two_versions.
Proof.
  destruct (rollback_latest_targets_latest_other_version Sample.model None None
              Sample.current_instance Sample.two_versions 2%nat Sample.old_row
              eq_refl eq_refl) as (k & r & Hk & _ & _ & _ & Hrb); [done |].
  by exists k, r.
Defined.

(** X4: [rollback_latest] on a replaced version whose group holds another
    version raises, whatever [fields] and [exclude] are. *)
Theorem rollback_latest_of_replaced_version_raises
    (m : Model) (fields exclude : option (list string))
    (v : Instance) (db : Database) (t : Z) (k0 : nat) (r0 : Row) :
  replaced_at (cols v) = Some t →
  table db !! k0 = Some r0 → row_id r0 = row_id (cols v) → Some k0 ≠ pk v →
  ∃ msg, PointInTimeModel.rollback_latest m fields exclude v db = Err (Exception msg).
Proof.
  intros Hrep Hk0 Hg0 Hne0. unfold PointInTimeModel.rollback_latest.
  destruct (latest_first _) as [[k r] |] eqn:Hl.
  - by apply (rollback_to_of_replaced_instance_fails m _ fields exclude v db t).
  - apply latest_first_None in Hl.
    assert (qs_exclude (λ k _, bool_decide (Some k = pk v))
              (qs_filter (λ _ r, bool_decide (row_id r = row_id (cols v))) (table db))
            !! k0 = Some r0) as Hq by by apply lookup_other_versions.
    rewrite Hl in Hq. by rewrite lookup_empty in Hq.
Qed.

Lemma rollback_latest_of_replaced_version_raises_witness :
  ∃ msg,
    PointInTimeModel.rollback_latest Sample.model None None
      (mkInstance (Some 2%nat) Sample.old_row) Sample.two_versions = Err (Exception msg).
Proof.
  apply (rollback_latest_of_replaced_version_raises Sample.model None None
           (mkInstance (Some 2%nat) Sample.old_row) Sample.two_versions (day + 5)
           1%nat Sample.new_row eq_refl eq_refl eq_refl).
  done.
Defined.

(** ** Creating a row *)

(** X5: [save] of an instance without a key inserts one row under an unused
    key [k] and touches nothing else.  The row is its own group
    ([row_id = k]), is current, and carries [created_at = now] whatever
    [row_id], [created_at] and [replaced_at] the caller had set; [start_at]
    defaults to [now], [modified_by] to the given user; [end_at] and the
    payload are the caller's.  The instance returned is the stored row. *)
Theorem save_creates_a_new_row_group
    (m : Model) (now : Z) (user : option nat) (v : Instance) (db : Database) :
  pk v = None →
  ∃ db' v' k,
    PointInTimeModel.save m now user v db = Ok (db', v') ∧
    table db !! k = None ∧
    pk v' = Some k ∧
    table db' !! k = Some (cols v') ∧
    (∀ j, j ≠ k → table db' !! j = table db !! j) ∧
    dom (table db') = {[k]} ∪ dom (table db) ∧
    referrers db' = referrers db ∧
    row_id (cols v') = Some k ∧
    created_at (cols v') = Some now ∧
    replaced_at (cols v') = None ∧
    modified_by (cols v') = (match user with Some u => Some u | None => modified_by (cols v) end) ∧
    start_at (cols v') = Some (default now (start_at (cols v))) ∧
    end_at (cols v') = end_at (cols v) ∧
    payload (cols v') = payload (cols v).
Proof.
  intros Hpk.
  pose proof (new_pk_fresh (table db)) as Hfresh.
  destruct v as [pkv [rid cr rp mb st en pl]]. simpl in Hpk. subst pkv.
  unfold PointInTimeModel.save, PointInTimeModel._save, Model_.save.
  cbn -[Model_.new_pk].
  eexists _, _, (Model_.new_pk (table db)). split; [reflexivity |].
  cbn -[Model_.new_pk]. rewrite insert_insert_eq.
  split; [done |]. split; [done |]. split; [by rewrite lookup_insert_eq |].
  split; [by intros j Hj; rewrite lookup_insert_ne |].
  split; [apply dom_insert_L |].
  repeat split; try done. by destruct st.
Qed.

Lemma save_creates_a_new_row_group_witness :
  ∃ db' v',
    PointInTimeModel.save Sample.model 50 (Some 3%nat)
      (mkInstance None Sample.old_row) Sample.one_version = Ok (db', v') ∧
    pk v' = Some 2%nat ∧ row_id (cols v') = Some 2%nat ∧
    created_at (cols v') = Some 50 ∧ replaced_at (cols v') = None.
Proof.
  destruct (save_creates_a_new_row_group Sample.model 50 (Some 3%nat)
              (mkInstance None Sample.old_row) Sample.one_version eq_refl)
    as (db' & v' & k & Hsave & _ & Hpk & _ & _ & _ & _ & Hrow & Hcreated & Hrep & _).
  exists db', v'. vm_compute in Hsave. injection Hsave as <- <-.
  repeat split; vm_compute; reflexivity.
Defined.

(** ** What the managers see after an update *)

(** X6: after an update of the current version under [p], the default manager
    returns the rows it returned before, with the row of [p] replaced by the
    new state: the clone never shows up under [objects]. *)
Theorem objects_after_update_hide_the_clone
    (m : Model) (now : Z) (user : option nat) (v : Instance) (db : Database)
    (p : nat) (r0 : Row) :
  pk v = Some p → replaced_at (cols v) = None →
  table db !! p = Some r0 → replaced_at r0 = None →
  ∃ db' v',
    PointInTimeModel.save m now user v db = Ok (db', v') ∧
    PointInTimeDefaultManager.get_queryset (table db')
      = <[p := cols v']> (PointInTimeDefaultManager.get_queryset (table db)) ∧
    dom (PointInTimeDefaultManager.get_queryset (table db'))
      = dom (PointInTimeDefaultManager.get_queryset (table db)).
Proof.
  intros Hpk Hrep Hp Hcur.
  pose proof (new_pk_fresh (table db)) as Hfresh.
  set (k := Model_.new_pk (table db)) in *.
  assert (Hkp : k ≠ p) by (intros ->; congruence).
  eexists _, _. split; [by apply (save_update m now user v db p r0) |].
  fold k. cbn [table]. unfold PointInTimeDefaultManager.get_queryset.
  assert (Heq : PointInTimeQuerySet.current
                  (<[p := cols (updated now user p v)]> (<[k := clone_of m now p r0]> (table db)))
                = <[p := cols (updated now user p v)]> (PointInTimeQuerySet.current (table db))).
  { apply map_eq. intros j. apply option_eq. intros r. rewrite lookup_current.
    destruct (decide (j = p)) as [-> | Hjp].
    - rewrite !lookup_insert_eq. split; [by intros [? _] |].
      intros [= <-]. done.
    - rewrite (lookup_insert_ne (<[k := _]> _)) by done.
      rewrite (lookup_insert_ne (PointInTimeQuerySet.current _)) by done.
      rewrite lookup_current. destruct (decide (j = k)) as [-> | Hjk].
      + rewrite lookup_insert_eq, Hfresh. split; [| by intros [? _]].
        intros [[= <-] Hnone]. done.
      + by rewrite lookup_insert_ne by done. }
  split; [done |]. rewrite Heq. apply dom_insert_lookup_L.
  exists r0. by apply lookup_current.
Qed.

Lemma objects_after_update_hide_the_clone_witness :
  ∃ db' v',
    PointInTimeModel.save Sample.model (2 * day) None Sample.edited_instance Sample.two_versions
      = Ok (db', v') ∧
    dom (PointInTimeDefaultManager.get_queryset (table db')) = {[ 1%nat ]}.
Proof.
  destruct (objects_after_update_hide_the_clone Sample.model (2 * day) None
              Sample.edited_instance Sample.two_versions 1%nat Sample.new_row
              eq_refl eq_refl eq_refl eq_refl) as (db' & v' & Hsave & _ & Hdom).
  exists db', v'. split; [done |]. rewrite Hdom. vm_compute. reflexivity.
Defined.



(** ** Soft delete and purge *)

(** X8: [delete] removes nothing: it rewrites the row under the instance's key
    with [replaced_at = now] and the instance's other attributes, [end_at]
    included.  The row leaves the default manager, and the version query
    keeps returning it for the instants from its [created_at] up to [now],
    and for no instant from [now] on. *)
Theorem delete_marks_the_row_replaced
    (now : Z) (v : Instance) (db : Database) (p : nat) :
  pk v = Some p → is_Some (table db !! p) →
  ∃ db' v',
    PointInTimeModel.delete now v db = (db', v') ∧
    pk v' = Some p ∧
    table db' !! p = Some (cols v') ∧
    cols v' = set_replaced_at (Some now) (cols v) ∧
    dom (table db') = dom (table db) ∧
    (∀ j, j ≠ p → table db' !! j = table db !! j) ∧
    referrers db' = referrers db ∧
    PointInTimeDefaultManager.get_queryset (table db')
      = base.delete p (PointInTimeDefaultManager.get_queryset (table db)) ∧
    ∀ t qs, PointInTimeBaseManager.version (PyDatetime t) (table db') = Ok qs →
      (is_Some (qs !! p) ↔ (∃ c, created_at (cols v) = Some c ∧ c ≤ t) ∧ t < now).
Proof.
  intros Hpk Hstored.
  unfold PointInTimeModel.delete, PointInTimeModel._save, Model_.save.
  cbn [on_cols pk cols]. rewrite Hpk. cbn [on_cols pk cols].
  eexists _, _. split; [reflexivity |]. cbn [table referrers pk cols].
  split; [done |]. split; [by rewrite lookup_insert_eq |]. split; [done |].
  split; [by apply dom_insert_lookup_L |].
  split; [by intros j Hj; rewrite lookup_insert_ne |].
  split; [done |]. split.
  - unfold PointInTimeDefaultManager.get_queryset.
    apply map_eq. intros j. apply option_eq. intros r. rewrite lookup_current.
    destruct (decide (j = p)) as [-> | Hjp].
    + rewrite lookup_insert_eq, lookup_delete_eq. split; [| done].
      by intros [[= <-] H].
    + rewrite lookup_insert_ne, lookup_delete_ne by done. by rewrite lookup_current.
  - intros t qs [= <-]. unfold PointInTimeBaseManager.get_queryset.
    split.
    + intros [r Hr]. apply lookup_qs_filter in Hr as [Hr Hsel].
      rewrite lookup_insert_eq in Hr. injection Hr as <-.
      apply recorded_window_spec in Hsel as [Hcreated Hrep]. simpl in *.
      split; [done |]. destruct Hrep as [? | (x & [= <-] & Hlt)]; done.
    + intros [Hcreated Hlt]. eexists. apply lookup_qs_filter.
      split; [by rewrite lookup_insert_eq |].
      apply recorded_window_spec. split; [done |]. right. by exists now.
Qed.

Lemma delete_marks_the_row_replaced_witness :
  ∃ db' v',
    PointInTimeModel.delete 50 Sample.first_instance Sample.one_version = (db', v') ∧
    replaced_at (cols v') = Some 50 ∧
    PointInTimeDefaultManager.get_queryset (table db') = ∅.
Proof.
  destruct (delete_marks_the_row_replaced 50 Sample.first_instance Sample.one_version 1%nat
              eq_refl) as (db' & v' & Hdel & _ & _ & Hcols & _ & _ & _ & Hobjects & _).
  - by eexists.
  - exists db', v'. split; [done |]. rewrite Hcols, Hobjects. split; [done |].
    vm_compute. reflexivity.
Defined.

(** X9: after a soft delete no instance carrying the key of the deleted row can
    be saved: [save] raises [AssertionError], whatever the instance holds in
    memory. *)
Theorem soft_deleted_row_cannot_be_updated
    (m : Model) (now now' : Z) (user : option nat) (v v2 : Instance) (db : Database) :
  pk v2 = pk (PointInTimeModel.delete now v db).2 →
  PointInTimeModel.save m now' user v2 (PointInTimeModel.delete now v db).1
    = Err AssertionError.
Proof.
  unfold PointInTimeModel.delete, PointInTimeModel._save, Model_.save.
  cbn [on_cols pk cols].
  destruct (pk v) as [p |] eqn:Hpk; cbn [fst snd table pk set_pk]; intros Hpk2.
  - apply (save_of_replaced_row_fails m now' user v2 _ p
             (set_replaced_at (Some now) (cols v)) now).
    + by rewrite Hpk2.
    + cbn [table]. by rewrite lookup_insert_eq.
    + done.
  - apply (save_of_replaced_row_fails m now' user v2 _ (Model_.new_pk (table db))
             (set_replaced_at (Some now) (cols v)) now).
    + by rewrite Hpk2.
    + cbn [table]. by rewrite lookup_insert_eq.
    + done.
Qed.

Lemma soft_deleted_row_cannot_be_updated_witness :
  PointInTimeModel.save Sample.model 60 None Sample.first_instance
    (PointInTimeModel.delete 50 Sample.first_instance Sample.one_version).1
  = Err AssertionError.
Proof.
  apply (soft_deleted_row_cannot_be_updated Sample.model 50 60 None
           Sample.first_instance Sample.first_instance Sample.one_version).
  reflexivity.
Defined.

(** X10: a [purge] of a saved instance that returns has deleted the row of
    the instance and every row that carries its [row_id], and nothing
    else.  It does return, and leaves the referencing models as they
    were, when no referencing row holds the key of the instance or of a row
    of its group.  On an instance without a key it raises. *)
Theorem purge_erases_exactly_the_group (v : Instance) (db : Database) :
  (∀ p db' v', pk v = Some p → PointInTimeModel.purge v db = Ok (db', v') →
     pk v' = None ∧
     table db' !! p = None ∧
     (∀ k r, table db' !! k = Some r → row_id r ≠ row_id (cols v)) ∧
     (∀ k r, table db !! k = Some r → k ≠ p → row_id r ≠ row_id (cols v) →
             table db' !! k = Some r) ∧
     (∀ k r, table db' !! k = Some r → table db !! k = Some r)) ∧
  (∀ p, pk v = Some p →
     unreferenced p (referrers db) →
     (∀ k r, table db !! k = Some r → row_id r = row_id (cols v) →
             unreferenced k (referrers db)) →
     ∃ db' v', PointInTimeModel.purge v db = Ok (db', v') ∧
               referrers db' = referrers db) ∧
  (pk v = None → ∃ e, PointInTimeModel.purge v db = Err e).
Proof.
  split; [| split].
  - intros p db' v' Hpk Hpurge.
    destruct (purge_table v db db' v' p Hpk Hpurge) as [-> Hlook].
    split; [done |]. split; [by rewrite Hlook, bool_decide_eq_true_2 |].
    split; [| split].
    + intros k r Hk. rewrite Hlook in Hk. case_bool_decide; [done |].
      destruct (table db !! k) as [r' |]; [| done].
      case_bool_decide; [done |]. congruence.
    + intros k r Hk Hkp Hg. rewrite Hlook, bool_decide_eq_false_2 by done.
      rewrite Hk. by rewrite bool_decide_eq_false_2.
    + intros k r Hk. rewrite Hlook in Hk. case_bool_decide; [done |].
      destruct (table db !! k) as [r' |]; [| done].
      by case_bool_decide.
  - intros p Hpk Hunp Hung.
    destruct (purge_lookup v db p Hpk Hunp Hung) as (db' & v' & Hpurge & Hrefs & _).
    by exists db', v'.
  - intros Hpk. unfold PointInTimeModel.purge, PointInTimeModel._delete.
    destruct (delete_each _ db) as [db1 | e]; cbn [mbind result_bind]; [| by eexists].
    unfold Model_.delete. rewrite Hpk. by eexists.
Qed.

Lemma purge_erases_exactly_the_group_witness :
  (∃ db' v', PointInTimeModel.purge Sample.current_instance Sample.two_versions = Ok (db', v') ∧
             table db' !! 1%nat = None ∧ referrers db' = []) ∧
  (∃ e, PointInTimeModel.purge (mkInstance None Sample.new_row) Sample.two_versions = Err e).
Proof.
  destruct (purge_erases_exactly_the_group Sample.current_instance Sample.two_versions)
    as (Hreturns & Hsaved & _).
  destruct (purge_erases_exactly_the_group (mkInstance None Sample.new_row) Sample.two_versions)
    as (_ & _ & Hunsaved).
  assert (Hun : ∀ k, unreferenced k (referrers Sample.two_versions)).
  { intros k i ref j Hi. simpl in Hi. by rewrite lookup_nil in Hi. }
  split.
  - destruct (Hsaved 1%nat eq_refl (Hun 1%nat) (λ k _ _ _, Hun k)) as (db' & v' & Hpurge & Hrefs).
    destruct (Hreturns 1%nat db' v' eq_refl Hpurge) as (_ & Hgone & _).
    by exists db', v'.
  - by apply Hunsaved.
Defined.

(** ** Update followed by rollback *)

Lemma pita_field_by_name (m : Model) (f g : Field) :
  NoDup (name <$> get_fields m) → f ∈ get_fields m → g ∈ pita_fields →
  name f = name g → f = g.
Proof.
  intros Hnd Hf Hg Hname.
  apply (NoDup_fmap_eq name (get_fields m)); try done. by apply elem_of_pita_fields.
Qed.

Lemma system_names_not_one_to_one (m : Model) (g : Field) :
  NoDup (name <$> get_fields m) → g ∈ pita_fields → name g ∉ get_one_to_one_fields m.
Proof.
  intros Hnd Hg Hin.
  apply (elem_of_get_one_to_one_fields m g Hnd) in Hin; [| by apply elem_of_pita_fields].
  unfold pita_fields in Hg. repeat (apply elem_of_cons in Hg as [-> | Hg]; [done |]).
  by apply elem_of_nil in Hg.
Qed.

Lemma getattr_reverted_instance_kept (m : Model) (fields exclude : option (list string))
    (target v : Instance) (f : Field) :
  NoDup (name <$> get_fields m) → f ∈ get_fields m →
  reverted fields exclude f = false →
  name f ≠ "created_at" → name f ≠ "replaced_at" →
  getattr (name f) (reverted_instance m fields exclude target v) = getattr (name f) v.
Proof.
  intros Hnd Hf Hrev Hc Hr.
  pose proof (getattr_revert_fields m fields exclude target v f Hnd Hf) as H.
  rewrite Hrev in H. unfold reverted_instance, getattr in *.
  destruct (slot_of (name f)) eqn:Hs; simpl; try done.
  - exfalso. apply Hc. rewrite (slot_of_system (name f)) by congruence. by rewrite Hs.
  - exfalso. apply Hr. rewrite (slot_of_system (name f)) by congruence. by rewrite Hs.
Qed.

Lemma edge_target_repoint_moved (s t : nat) (ref : Referrer) (j : nat) :
  edge_target (repoint s t ref) j = Some t → edge_target ref j ≠ Some t → edge_live ref j.
Proof.
  destruct ref as [fk h rows | fk h rows]; simpl; rewrite lookup_fmap.
  - destruct (rows !! j) as [r |]; simpl; [| done].
    destruct (related_pita fk s r) eqn:Hrel; [| done].
    intros _ _. apply andb_true_iff in Hrel as [Hcur _]. apply col_isnull_spec in Hcur.
    by exists r.
  - destruct (rows !! j) as [pl |]; simpl; [| done]. by eexists.
Qed.

(** X11: take the current and latest version of a group, stored under [p]
    with [row_id] equal to [p], in a database where every referencing row
    holds a stored key.  An update of it at a time after its [created_at],
    followed by a full [rollback_latest] of the result, puts the table
    back: the clone is gone, every other row is as it was, and the row
    under [p] holds again the stored value of every field that is neither
    the key nor one-to-one, while a one-to-one field keeps the value of the
    update.  A frozen edge that pointed at [p] points at [p] again. *)
Theorem update_then_rollback_latest_restores_the_row
    (m : Model) (now : Z) (user : option nat) (v : Instance) (db : Database)
    (p : nat) (r0 : Row) (c0 : Z) :
  NoDup (name <$> get_fields m) →
  pk v = Some p → replaced_at (cols v) = None →
  table db !! p = Some r0 → replaced_at r0 = None →
  row_id r0 = Some p → row_id (cols v) = Some p ∨ row_id (cols v) = None →
  created_at r0 = Some c0 → c0 < now →
  (∀ j r x, table db !! j = Some r → j ≠ p → row_id r = Some p →
            created_at r = Some x → x < c0) →
  (∀ i ref j k, referrers db !! i = Some ref → edge_target ref j = Some k →
                is_Some (table db !! k)) →
  ∃ db1 v1 db2 v2,
    PointInTimeModel.save m now user v db = Ok (db1, v1) ∧
    PointInTimeModel.rollback_latest m None None v1 db1 = Ok (db2, v2) ∧
    pk v2 = Some p ∧
    table db2 = <[p := cols v2]> (table db) ∧
    (∀ f, f ∈ get_fields m → primary_key f = false → one_to_one f = false →
          getattr (name f) v2 = getattr (name f) (mkInstance (Some p) r0)) ∧
    (∀ f, f ∈ get_fields m → one_to_one f = true →
          getattr (name f) v2 = getattr (name f) v1) ∧
    (∀ i ref j, referrers db !! i = Some ref → edge_live ref j →
                edge_target ref j = Some p →
                ∃ ref2, referrers db2 !! i = Some ref2 ∧ edge_target ref2 j = Some p ∧
                        ref_keys ref2 = ref_keys ref).
Proof.
  intros Hnd Hpk Hrep Hp Hcur Hg0 Hgv Hc0 Hlt Hold Hstored.
  pose proof (new_pk_fresh (table db)) as Hfresh.
  pose proof (save_update m now user v db p r0 Hpk Hrep Hp Hcur) as Hsave.
  set (k := Model_.new_pk (table db)) in *.
  assert (Hkp : k ≠ p) by (intros ->; congruence).
  assert (Hsys : ∀ n, n ∈ name <$> pita_fields → n ∉ get_one_to_one_fields m).
  { intros n (g & -> & Hg)%list_elem_of_fmap. by apply system_names_not_one_to_one. }
  assert (Hattr : ∀ n, n ∉ ["id"; "row_id"; "replaced_at"] →
            getattr n (mkInstance (Some k) (clone_of m now p r0)) =
              if bool_decide (n ∈ get_one_to_one_fields m) then PyNone
              else getattr n (mkInstance (Some p) r0))
    by apply getattr_clone_of.
  assert (Hcc : created_at (clone_of m now p r0) = Some c0).
  { assert (Hn : "created_at" ∉ ["id"; "row_id"; "replaced_at"]).
    { rewrite !not_elem_of_cons. repeat split; try done. apply not_elem_of_nil. }
    pose proof (Hattr "created_at" Hn) as H.
    rewrite bool_decide_eq_false_2 in H.
    - unfold getattr in H. simpl in H. rewrite Hc0 in H. unfold clone_of. simpl.
      destruct (created_at (cols (nulled (get_one_to_one_fields m) r0)));
        simpl in H; [| discriminate H].
      by injection H as ->.
    - apply Hsys. apply (bool_decide_unpack _). vm_compute. exact I. }
  assert (Hcg : row_id (clone_of m now p r0) = Some p) by done.
  assert (Hv1pk : pk (updated now user p v) = Some p) by done.
  assert (Hv1c : created_at (cols (updated now user p v)) = Some now) by done.
  assert (Hv1r : replaced_at (cols (updated now user p v)) = None) by done.
  assert (Hv1g : row_id (cols (updated now user p v)) = Some p)
    by (simpl; destruct Hgv as [-> | ->]; done).
  set (cl := clone_of m now p r0) in *. set (v1 := updated now user p v) in *.
  clearbody cl v1.
  set (db1 := mkDatabase (<[p := cols v1]> (<[k := cl]> (table db)))
                (repoint p k <$> referrers db)) in *.
  assert (Hdb1 : ∀ j, table db1 !! j =
            if decide (j = p) then Some (cols v1)
            else if decide (j = k) then Some cl else table db !! j).
  { intros j. unfold db1. cbn [table]. repeat case_decide; subst.
    - by rewrite lookup_insert_eq.
    - by rewrite lookup_insert_ne, lookup_insert_eq.
    - by rewrite !lookup_insert_ne. }
  (* the preceding version is the clone *)
  assert (Hprev : latest_first
            (qs_exclude (λ k _, bool_decide (Some k = pk v1))
               (qs_filter (λ _ r, bool_decide (row_id r = row_id (cols v1))) (table db1)))
          = Some (k, cl)).
  { apply latest_first_greatest.
    - apply lookup_other_versions. rewrite Hdb1, Hv1g, Hv1pk.
      rewrite decide_False, decide_True by done. repeat split; congruence.
    - intros k' r' Hk' Hne. apply lookup_other_versions in Hk' as (Hk' & Hg' & Hp').
      rewrite Hv1pk in Hp'. rewrite Hv1g in Hg'. rewrite Hdb1 in Hk'.
      rewrite decide_False, decide_False in Hk' by congruence.
      unfold version_lt. simpl. rewrite Hcc.
      destruct (created_at r') as [x |] eqn:Hx; [| done].
      apply orb_true_iff. left. apply bool_decide_eq_true.
      apply (Hold k' r' x); try done. congruence. }
  assert (Hmov : edges_movable v1 k c0 db1).
  { intros i ref' j k' Hi Hedge [Hk' (r & x & Hr & Hg & Hx & Hle)].
    rewrite Hv1pk in Hk'. rewrite Hv1g in Hg. rewrite Hdb1 in Hr.
    rewrite decide_False in Hr by congruence.
    destruct (decide (k' = k)) as [-> | Hne].
    - split; [done |]. unfold db1 in Hi. cbn [referrers] in Hi.
      rewrite list_lookup_fmap in Hi.
      destruct (referrers db !! i) as [ref |] eqn:Href; [| done]. injection Hi as <-.
      apply edge_live_repoint. apply (edge_target_repoint_moved p k); [done |].
      intros Hdangling. destruct (Hstored i ref j k Href Hdangling) as [r' Hr'].
      rewrite Hfresh in Hr'. discriminate Hr'.
    - assert (x < c0) by (apply (Hold k' r x); congruence). lia. }
  pose proof (rollback_to_succeeds m None None v1 (mkInstance (Some k) cl) db1 p k now c0
                Hnd Hv1pk eq_refl (not_eq_sym Hkp) Hv1r Hv1c Hcc Hlt
                (eq_trans Hcg (eq_sym Hv1g)) Hmov) as Hrb.
  set (v2 := reverted_instance m None None (mkInstance (Some k) cl) v1) in *.
  assert (Hv2pk : pk v2 = Some p).
  { rewrite <- Hv1pk.
    apply (pk_revert_fields m None None (mkInstance (Some k) cl) v1 Hnd). }
  assert (Hv2g : row_id (cols v2) = Some p).
  { rewrite <- Hv1g.
    apply (row_id_revert_fields m None None (mkInstance (Some k) cl) v1 Hnd).
    simpl. congruence. }
  eexists db1, v1, _, v2. split; [done |]. split.
  { unfold PointInTimeModel.rollback_latest. rewrite Hprev. exact Hrb. }
  split; [done |]. cbn [table referrers].
  split; [| split; [| split]].
  - apply map_eq. intros j. destruct (decide (j = p)) as [-> | Hjp].
    + by rewrite !lookup_insert_eq.
    + rewrite !lookup_insert_ne by done.
      rewrite (lookup_without_rows_selected
                 (λ r, col_gte (created_at r) c0 && bool_decide (row_id r = row_id (cols v2))))
        by done.
      rewrite Hdb1, decide_False by done. rewrite Hv2g.
      destruct (decide (j = k)) as [-> | Hjk].
      * rewrite Hcc, Hcg, Hfresh. simpl.
        rewrite bool_decide_eq_true_2 by lia. by rewrite bool_decide_eq_true_2.
      * destruct (table db !! j) as [r |] eqn:Hj; [| done].
        destruct (decide (row_id r = Some p)) as [Hg | Hg].
        -- destruct (created_at r) as [x |] eqn:Hx; simpl; [| done].
           rewrite bool_decide_eq_false_2; [done |].
           specialize (Hold j r x Hj Hjp Hg Hx). lia.
        -- rewrite (bool_decide_eq_false_2 (row_id r = Some p)) by done.
           by rewrite andb_false_r.
  - intros f Hf Hfpk Hfone.
    assert (Hrev : reverted None None f = true).
    { unfold reverted. by rewrite Hfpk, Hfone. }
    assert (Hnone : name f ∉ get_one_to_one_fields m).
    { intros Hin. apply (elem_of_get_one_to_one_fields m f Hnd Hf) in Hin. congruence. }
    destruct (decide (name f = "replaced_at")) as [Hn | Hn].
    { rewrite Hn. unfold v2, reverted_instance, getattr. simpl. by rewrite Hcur. }
    unfold v2. rewrite getattr_reverted_instance by done.
    destruct (decide (name f = "row_id")) as [Hn' | Hn'].
    { rewrite Hn'. unfold getattr. simpl. by rewrite Hcg, Hg0. }
    destruct (decide (name f = "id")) as [Hn'' | Hn''].
    { exfalso.
      assert (f = mkField "id" true false) as ->; [| done].
      apply (pita_field_by_name m); try done. apply elem_of_cons. by left. }
    rewrite Hattr.
    + by rewrite bool_decide_eq_false_2.
    + rewrite !not_elem_of_cons. repeat split; try done. apply not_elem_of_nil.
  - intros f Hf Hfone.
    assert (Hrev : reverted None None f = false).
    { unfold reverted. rewrite Hfone. simpl. by rewrite andb_false_r. }
    assert (Hin : name f ∈ get_one_to_one_fields m)
      by by apply (elem_of_get_one_to_one_fields m f Hnd Hf).
    unfold v2. apply getattr_reverted_instance_kept; try done.
    + intros Hn. rewrite Hn in Hin. revert Hin. apply Hsys.
      apply (bool_decide_unpack _). vm_compute. exact I.
    + intros Hn. rewrite Hn in Hin. revert Hin. apply Hsys.
      apply (bool_decide_unpack _). vm_compute. exact I.
  - intros i ref j Hi Hlive Hedge.
    exists (repoint k p (repoint p k ref)). split; [| split].
    + unfold db1. cbn [referrers]. by rewrite !list_lookup_fmap, Hi.
    + apply edge_target_repoint_live; [by apply edge_live_repoint |].
      by apply edge_target_repoint_live.
    + by rewrite !ref_keys_repoint.
Qed.

Lemma update_then_rollback_latest_restores_the_row_witness :
  ∃ db1 v1 db2 v2,
    PointInTimeModel.save Sample.model 20 None
      (mkInstance (Some 1%nat) (set_payload {[ "c1" := PyStr "second" ]} Sample.first_row))
      Sample.one_version = Ok (db1, v1) ∧
    PointInTimeModel.rollback_latest Sample.model None None v1 db1 = Ok (db2, v2) ∧
    getattr "c1" v2 = PyStr "first" ∧
    dom (table db2) = {[ 1%nat ]}.
Proof.
  destruct (update_then_rollback_latest_restores_the_row Sample.model 20 None
              (mkInstance (Some 1%nat) (set_payload {[ "c1" := PyStr "second" ]} Sample.first_row))
              Sample.one_version 1%nat Sample.first_row 10)
    as (db1 & v1 & db2 & v2 & Hsave & Hrb & _ & Htbl & Hattr & _); try reflexivity.
  - apply (bool_decide_unpack _). vm_compute. exact I.
  - by left.
  - intros j r x Hj Hne. unfold Sample.one_version in Hj. simpl in Hj.
    by apply lookup_singleton_Some in Hj as [<- _].
  - intros i ref j k Hi. simpl in Hi. by rewrite lookup_nil in Hi.
  - exists db1, v1, db2, v2. split; [done |]. split; [done |]. split.
    + apply (Hattr (mkField "c1" false false)); [| done | done].
      apply (bool_decide_unpack _). vm_compute. exact I.
    + rewrite Htbl. unfold Sample.one_version. simpl.
      rewrite dom_insert_L, dom_singleton_L. apply (bool_decide_unpack _). vm_compute. exact I.
Defined.

(** ** Validation *)

(** X12: for an instance with a [start_at], [clean] raises [ValidationError]
    exactly when the validity window is empty, that is when no instant
    makes the row valid; such a row is returned by [active] at no time. *)
Theorem clean_rejects_exactly_the_rows_never_valid (v : Instance) (s : Z) :
  start_at (cols v) = Some s →
  (PointInTimeModel.clean v = Valid ↔ ∃ t, valid_at t (cols v)) ∧
  ((∃ msg, PointInTimeModel.clean v = ValidationError msg) ↔ ∀ t, ¬ valid_at t (cols v)) ∧
  (∀ msg t now tbl qs k,
     PointInTimeModel.clean v = ValidationError msg →
     PointInTimeQuerySet.active (PyDatetime t) now tbl = Ok qs →
     qs !! k ≠ Some (cols v)).
Proof.
  intros Hs.
  assert (Hvalid : ∀ t, valid_at t (cols v) ↔
            s ≤ t ∧ (end_at (cols v) = None ∨ ∃ e, end_at (cols v) = Some e ∧ t < e)).
  { intros t. unfold valid_at. rewrite Hs. split.
    - intros [(s' & [= <-] & Hle) Hend]. done.
    - intros [Hle Hend]. split; [by exists s | done]. }
  assert (Hcases : (PointInTimeModel.clean v = Valid ∧ valid_at s (cols v)) ∨
                   ((∃ msg, PointInTimeModel.clean v = ValidationError msg) ∧
                    ∀ t, ¬ valid_at t (cols v))).
  { unfold PointInTimeModel.clean. rewrite Hs.
    destruct (end_at (cols v)) as [e |] eqn:He.
    - case_bool_decide as Hle.
      + right. split; [by eexists |]. intros t [Hst Hend]%Hvalid.
        destruct Hend as [? | (e' & [= <-] & Hlt)]; [done | lia].
      + left. split; [done |]. apply Hvalid. split; [lia |]. right. exists e. split; [done | lia].
    - left. split; [done |]. apply Hvalid. split; [lia | by left]. }
  split; [| split].
  - split.
    + intros Hc. destruct Hcases as [[_ H] | [(msg & Hm) _]]; [by exists s | congruence].
    + intros [t Ht]. destruct Hcases as [[H _] | [_ Hnever]]; [done |]. by destruct (Hnever t).
  - split.
    + intros [msg Hm]. destruct Hcases as [[H _] | [_ Hnever]]; [congruence | done].
    + intros Hnever. destruct Hcases as [[_ H] | [Hm _]]; [by destruct (Hnever s) | done].
  - intros msg t now tbl qs k Hm [= <-] Hin.
    apply lookup_qs_filter in Hin as [_ Hsel]. apply valid_window_spec in Hsel.
    destruct Hcases as [[H _] | [_ Hnever]]; [congruence | by destruct (Hnever t)].
Qed.

Lemma clean_rejects_exactly_the_rows_never_valid_witness :
  ∃ msg,
    PointInTimeModel.clean (mkInstance None (set_end_at (Some 10) Sample.first_row))
      = ValidationError msg.
Proof.
  destruct (clean_rejects_exactly_the_rows_never_valid
              (mkInstance None (set_end_at (Some 10) Sample.first_row)) 10 eq_refl)
    as (_ & [_ Hrej] & _).
  apply Hrej. intros t [(s & Hs & Hle) [Hnone | (e & He & Hlt)]]; simpl in *.
  - done.
  - injection Hs as <-. injection He as <-. lia.
Defined.

(** ** The request boundary, continued *)

Lemma web_text_gives_a_time (parse : string → option (Z * option Z)) (s : string)
    (t : Z * option Z) :
  parse s = Some t →
  ∃ y, datetime_from_web parse (PyStr s) ≫= date_or_datetime = Ok y ∧ y ≠ PyNone.
Proof.
  intros Hs. rewrite datetime_from_web_text, Hs.
  destruct t as [x [o |]]; cbn [mbind result_bind]; unfold date_or_datetime;
    case_bool_decide; eexists; split; done.
Qed.

(** X13: a value that is not an aware datetime object never makes the
    request boundary raise: the result is [None], a pure date, or a
    datetime whose wall clock is not at midnight, and [date_or_datetime]
    leaves that result unchanged.  A pure date survives the round trip, and
    text that does not parse gives [None].  An aware datetime object makes
    [datetime_from_web] raise. *)
Theorem web_time_is_none_date_or_datetime_off_midnight
    (parse : string → option (Z * option Z)) (x : pyval) :
  (is_aware x = false →
   ∃ y, datetime_from_web parse x ≫= date_or_datetime = Ok y ∧
        date_or_datetime y = Ok y ∧
        (y = PyNone ∨ (∃ d, y = PyDate d)
         ∨ (∃ t, y = PyDatetime t ∧ time_of t ≠ time_min)
         ∨ (∃ t o, y = PyDatetimeTz t o ∧ time_of (t + o) ≠ time_min))) ∧
  (∀ d, datetime_from_web parse (PyDate d) ≫= date_or_datetime = Ok (PyDate d)) ∧
  (∀ s, parse s = None →
        datetime_from_web parse (PyStr s) ≫= date_or_datetime = Ok PyNone) ∧
  (is_aware x = true → datetime_from_web parse x = Err ValueError).
Proof.
  split; [| split; [| split]].
  - assert (Hdt : ∀ v, is_aware v = true →
              ∃ y, date_or_datetime v = Ok y ∧ date_or_datetime y = Ok y ∧
                   (y = PyNone ∨ (∃ d, y = PyDate d)
                    ∨ (∃ t, y = PyDatetime t ∧ time_of t ≠ time_min)
                    ∨ (∃ t o, y = PyDatetimeTz t o ∧ time_of (t + o) ≠ time_min))).
    { intros [| n | s | t | d | t o | w]; try done; intros _;
        unfold date_or_datetime at 1; case_bool_decide as Hmid.
      - exists (PyDate (date_of t)). split; [done |]. split; [done |]. right. left. by eexists.
      - exists (PyDatetime t). split; [done |]. split.
        + simpl. by rewrite bool_decide_eq_false_2.
        + right. right. left. by exists t.
      - exists (PyDate (date_of (t + o))). split; [done |]. split; [done |].
        right. left. by eexists.
      - exists (PyDatetimeTz t o). split; [done |]. split.
        + simpl. by rewrite bool_decide_eq_false_2.
        + right. right. right. by exists t, o. }
    intros Hx. destruct x as [| n | s | t | d | t o | w]; try done.
    + exists PyNone. split; [done |]. split; [done |]. by left.
    + exists PyNone. split; [done |]. split; [done |]. by left.
    + rewrite datetime_from_web_text.
      destruct (parse s) as [[x [o |]] |]; cbn [mbind result_bind].
      * by apply (Hdt (PyDatetimeTz x o)).
      * by apply (Hdt (PyDatetime x)).
      * exists PyNone. split; [done |]. split; [done |]. by left.
    + by apply (Hdt (PyDatetime (combine d time_min))).
    + by apply (Hdt (PyDatetime w)).
  - intros d. simpl. destruct (midnight_parts d) as [Htime Hdate].
    rewrite bool_decide_eq_true_2 by done. by rewrite Hdate.
  - intros s Hs. simpl. by rewrite Hs.
  - by destruct x.
Qed.

Lemma web_time_is_none_date_or_datetime_off_midnight_witness :
  (∃ y, datetime_from_web Sample.no_parse (PyStr "yesterday") ≫= date_or_datetime = Ok y ∧
        date_or_datetime y = Ok y) ∧
  datetime_from_web Sample.no_parse (PyDatetime 10) = Err ValueError.
Proof.
  split.
  - destruct (web_time_is_none_date_or_datetime_off_midnight Sample.no_parse (PyStr "yesterday"))
      as (Htext & _ & _).
    destruct Htext as (y & Hy & Hidem & _); [done |]. by exists y.
  - destruct (web_time_is_none_date_or_datetime_off_midnight Sample.no_parse (PyDatetime 10))
      as (_ & _ & _ & Haware).
    by apply Haware.
Defined.

(** X14: the rollback action.  A request without a time, or with one that
    does not parse, rolls back to the latest previous version.  A text
    without UTC offset rolls back to the instant it reads in the server's
    zone.  A text with a UTC offset rolls back to the instant it denotes,
    unless its own wall clock reads midnight: it then rolls back to
    midnight of that wall-clock day in the server's zone, the instant moved
    by the offset. *)
Theorem rollback_action_dispatch
    (parse : string → option (Z * option Z)) (m : Model)
    (fields exclude : option (list string)) (instance : Instance) (db : Database) :
  (∀ x, datetime_from_web parse x = Ok PyNone →
   PointInTimeModelViewSet.rollback parse m x fields exclude instance db
     = PointInTimeModel.rollback_latest m fields exclude instance db) ∧
  (∀ s w, parse s = Some (w, None) →
   PointInTimeModelViewSet.rollback parse m (PyStr s) fields exclude instance db
     = PointInTimeModel.rollback_to_at m (PyDatetime w) fields exclude instance db) ∧
  (∀ s t o, parse s = Some (t, Some o) → time_of (t + o) ≠ time_min →
   PointInTimeModelViewSet.rollback parse m (PyStr s) fields exclude instance db
     = PointInTimeModel.rollback_to_at m (PyDatetime t) fields exclude instance db) ∧
  (∀ s t o, parse s = Some (t, Some o) → time_of (t + o) = time_min →
   PointInTimeModelViewSet.rollback parse m (PyStr s) fields exclude instance db
     = PointInTimeModel.rollback_to_at m (PyDatetime (t + o)) fields exclude instance db).
Proof.
  unfold PointInTimeModelViewSet.rollback. split; [| split; [| split]].
  - by intros x ->.
  - intros s w Hs. rewrite datetime_from_web_text, Hs. cbn [mbind result_bind].
    unfold date_or_datetime. case_bool_decide as Hmid; cbn [mbind result_bind]; [| done].
    apply rollback_to_at_prep. simpl. f_equal.
    rewrite <- (combine_date_time w) at 2. by rewrite Hmid.
  - intros s t o Hs Hmid. rewrite datetime_from_web_text, Hs. cbn [mbind result_bind].
    unfold date_or_datetime. rewrite bool_decide_eq_false_2 by done.
    cbn [mbind result_bind]. by apply rollback_to_at_prep.
  - intros s t o Hs Hmid. rewrite datetime_from_web_text, Hs. cbn [mbind result_bind].
    unfold date_or_datetime. rewrite bool_decide_eq_true_2 by done.
    cbn [mbind result_bind]. apply rollback_to_at_prep. simpl. f_equal.
    rewrite <- (combine_date_time (t + o)) at 2. by rewrite Hmid.
Qed.

Lemma rollback_action_dispatch_witness :
  PointInTimeModelViewSet.rollback Sample.no_parse Sample.model (PyStr "soon") None None
      Sample.current_instance Sample.two_versions
    = PointInTimeModel.rollback_latest Sample.model None None
        Sample.current_instance Sample.two_versions ∧
  PointInTimeModelViewSet.rollback Sample.fromisoformat Sample.model
      (PyStr "1970-01-02T00:00:00-05:00") None None Sample.current_instance Sample.two_versions
    = PointInTimeModel.rollback_to_at Sample.model (PyDatetime (combine 1 time_min)) None None
        Sample.current_instance Sample.two_versions.
Proof.
  split.
  - destruct (rollback_action_dispatch Sample.no_parse Sample.model None None
                Sample.current_instance Sample.two_versions) as [Hnone _].
    by apply Hnone.
  - destruct (rollback_action_dispatch Sample.fromisoformat Sample.model None None
                Sample.current_instance Sample.two_versions) as (_ & _ & _ & Hmidnight).
    apply (Hmidnight "1970-01-02T00:00:00-05:00" (combine 1 time_min + 5 * Sample.hour)
             (- (5 * Sample.hour))); reflexivity.
Defined.

(** X15: [get_queryset] answers with the scoped current rows when the request is
    not a GET, whatever its parameters, and when neither [active_at] nor
    [version_at] gives a time; a GET one of whose parameters is text
    that parses raises. *)
Theorem get_queryset_scopes_the_current_rows
    (parse : string → option (Z * option Z)) (scope : Table → Table) (method : string)
    (a b : pyval) (tbl : Table) :
  (method ≠ "GET" →
   PointInTimeModelViewSet.get_queryset parse scope method a b tbl
     = Ok (scope (PointInTimeQuerySet.current tbl))) ∧
  (datetime_from_web parse a = Ok PyNone → datetime_from_web parse b = Ok PyNone →
   PointInTimeModelViewSet.get_queryset parse scope "GET" a b tbl
     = Ok (scope (PointInTimeQuerySet.current tbl))) ∧
  (∀ s t, parse s = Some t → a = PyStr s ∨ b = PyStr s →
   ∃ e, PointInTimeModelViewSet.get_queryset parse scope "GET" a b tbl = Err e).
Proof.
  unfold PointInTimeModelViewSet.get_queryset, PointInTimeDefaultManager.get_queryset.
  split; [| split].
  - intros Hm. destruct (String.eqb_spec method "GET") as [-> | _]; done.
  - intros -> ->. done.
  - intros s t Hs Hab. cbn [String.eqb Ascii.eqb Bool.eqb].
    destruct (web_text_gives_a_time parse s t Hs) as (y & Hy & Hne).
    destruct Hab as [-> | ->].
    + rewrite Hy. cbn [mbind result_bind].
      destruct (datetime_from_web parse b ≫= date_or_datetime) as [y' | e];
        cbn [mbind result_bind]; [| by eexists].
      destruct y; [by destruct Hne | ..];
        destruct y'; cbn [mbind result_bind]; by eexists.
    + destruct (datetime_from_web parse a ≫= date_or_datetime) as [y' | e];
        cbn [mbind result_bind]; [| by eexists].
      rewrite Hy. cbn [mbind result_bind].
      destruct y; [by destruct Hne | ..]; by eexists.
Qed.

Lemma get_queryset_scopes_the_current_rows_witness :
  PointInTimeModelViewSet.get_queryset Sample.no_parse id "POST" (PyStr "2024-01-01") PyNone
    (table Sample.two_versions)
  = Ok (PointInTimeQuerySet.current (table Sample.two_versions)).
Proof.
  destruct (get_queryset_scopes_the_current_rows Sample.no_parse id "POST"
              (PyStr "2024-01-01") PyNone (table Sample.two_versions)) as [Hpost _].
  by apply Hpost.
Defined.

(** ** The managers *)

(** X16: [objects.active] and [records.active] are the same operation: they
    return the same rows for every argument and raise on the same ones. *)
Theorem objects_active_is_records_active (a : pyval) (now : Z) (tbl : Table) :
  PointInTimeDefaultManager.active a now tbl = PointInTimeBaseManager.active a now tbl.
Proof.
  unfold PointInTimeDefaultManager.active, PointInTimeBaseManager.active,
    PointInTimeQuerySet.active, PointInTimeDefaultManager.get_queryset,
    PointInTimeBaseManager.get_queryset.
  destruct a; simpl; try done; f_equal; apply map_eq; intros k; apply option_eq; intros r;
    rewrite lookup_current, !lookup_qs_filter, lookup_current; tauto.
Qed.

(** X17: on a table none of whose timestamps lies after [t], the version query
    at [t] returns exactly the current rows. *)
Theorem version_at_present_is_current (tbl : Table) (t : Z) :
  (∀ k r, tbl !! k = Some r →
     (∃ c, created_at r = Some c ∧ c ≤ t) ∧ (∀ x, replaced_at r = Some x → x ≤ t)) →
  PointInTimeBaseManager.version (PyDatetime t) tbl = Ok (PointInTimeBaseManager.current tbl).
Proof.
  intros Hpast. unfold PointInTimeBaseManager.version, PointInTimeBaseManager.current,
    PointInTimeQuerySet.version, PointInTimeBaseManager.get_queryset.
  simpl. f_equal. apply map_eq. intros k. apply option_eq. intros r.
  rewrite lookup_current, lookup_qs_filter, recorded_window_spec. unfold recorded_at.
  split.
  - intros (Hk & _ & [Hnone | (x & Hx & Hlt)]); [done |].
    destruct (Hpast k r Hk) as [_ Hrep]. specialize (Hrep x Hx). lia.
  - intros [Hk Hnone]. destruct (Hpast k r Hk) as [Hcreated _]. split; [done |].
    split; [done | by left].
Qed.

Lemma version_at_present_is_current_witness :
  PointInTimeBaseManager.version (PyDatetime (2 * day)) (table Sample.two_versions)
  = Ok (PointInTimeBaseManager.current (table Sample.two_versions)).
Proof.
  apply version_at_present_is_current. intros k r Hk.
  unfold Sample.two_versions in Hk. simpl in Hk.
  apply lookup_insert_Some in Hk as [[_ <-] | [_ Hk]].
  - split; [exists (day + 5); split; [done | unfold day; lia] | done].
  - apply lookup_singleton_Some in Hk as [_ <-]. split.
    + exists 10. split; [done |]. unfold day. lia.
    + intros x [= <-]. unfold day. lia.
Defined.

(** ** At most one version per group, operation by operation *)

Lemma save_create (m : Model) (now : Z) (user : option nat) (v : Instance) (db : Database) :
  pk v = None →
  PointInTimeModel.save m now user v db =
    Ok (mkDatabase (<[Model_.new_pk (table db) := cols (created now user (Model_.new_pk (table db)) v)]>
                      (table db)) (referrers db),
        created now user (Model_.new_pk (table db)) v).
Proof.
  intros Hpk. destruct v as [pkv [rid cr rp mb st en pl]]. simpl in Hpk. subst pkv.
  unfold PointInTimeModel.save, PointInTimeModel._save, Model_.save, created.
  cbn -[Model_.new_pk]. by rewrite insert_insert_eq.
Qed.

Lemma one_version_per_group_shrink (tbl tbl' : Table) :
  (∀ k r', tbl' !! k = Some r' →
     ∃ r, tbl !! k = Some r ∧ row_id r = row_id r' ∧ ∀ t, recorded_at t r' → recorded_at t r) →
  one_version_per_group tbl → one_version_per_group tbl'.
Proof.
  intros Hshrink Hinv. rewrite one_version_per_group_alt in Hinv.
  apply one_version_per_group_alt. intros t k1 k2 r1 r2 H1 H2 Hr1 Hr2 Hg.
  destruct (Hshrink k1 r1 H1) as (s1 & Hs1 & Hg1 & Hrec1).
  destruct (Hshrink k2 r2 H2) as (s2 & Hs2 & Hg2 & Hrec2).
  apply (Hinv t k1 k2 s1 s2); auto. congruence.
Qed.

(** X18: creating a row keeps the version query single-valued per group, and
    keeps every [row_id] pointing at a stored row. *)
Theorem create_keeps_one_version_per_group
    (m : Model) (now : Z) (user : option nat) (v : Instance) (db : Database) :
  pk v = None →
  row_ids_stored (table db) →
  one_version_per_group (table db) →
  ∃ db' v',
    PointInTimeModel.save m now user v db = Ok (db', v') ∧
    row_ids_stored (table db') ∧
    one_version_per_group (table db').
Proof.
  intros Hpk Hstored Hinv.
  pose proof (new_pk_fresh (table db)) as Hfresh.
  pose proof (save_create m now user v db Hpk) as Hsave.
  set (k := Model_.new_pk (table db)) in *.
  assert (Hg : row_id (cols (created now user k v)) = Some k) by done.
  set (nv := created now user k v) in *. clearbody nv.
  eexists _, _. split; [exact Hsave |]. cbn [table]. split.
  - intros j r g Hj Hrg. destruct (decide (g = k)) as [-> | Hgk].
    + rewrite lookup_insert_eq. by eexists.
    + rewrite lookup_insert_ne by done. destruct (decide (j = k)) as [-> | Hjk].
      * rewrite lookup_insert_eq in Hj. injection Hj as <-. congruence.
      * rewrite lookup_insert_ne in Hj by done. by apply (Hstored j r g).
  - rewrite one_version_per_group_alt in Hinv. apply one_version_per_group_alt.
    assert (Hother : ∀ j r, table db !! j = Some r → row_id r ≠ Some k).
    { intros j r Hj Hrk. destruct (Hstored j r k Hj Hrk) as [? Hk]. congruence. }
    intros t k1 k2 r1 r2 H1 H2 Hr1 Hr2 Hsame.
    destruct (decide (k1 = k)) as [-> | Hk1]; destruct (decide (k2 = k)) as [-> | Hk2];
      try done.
    + rewrite lookup_insert_eq in H1. injection H1 as <-.
      rewrite lookup_insert_ne in H2 by done. exfalso. apply (Hother k2 r2 H2). congruence.
    + rewrite lookup_insert_eq in H2. injection H2 as <-.
      rewrite lookup_insert_ne in H1 by done. exfalso. apply (Hother k1 r1 H1). congruence.
    + rewrite lookup_insert_ne in H1, H2 by done. by apply (Hinv t k1 k2 r1 r2).
Qed.

Lemma row_ids_stored_one_version : row_ids_stored (table Sample.one_version).
Proof.
  intros j r g Hj Hg. unfold Sample.one_version in *. simpl in *.
  apply lookup_singleton_Some in Hj as [<- <-]. injection Hg as <-.
  rewrite lookup_singleton_eq. by eexists.
Qed.

Lemma create_keeps_one_version_per_group_witness :
  ∃ db' v',
    PointInTimeModel.save Sample.model 50 None (mkInstance None Sample.old_row)
      Sample.one_version = Ok (db', v') ∧
    one_version_per_group (table db').
Proof.
  destruct (create_keeps_one_version_per_group Sample.model 50 None
              (mkInstance None Sample.old_row) Sample.one_version eq_refl
              row_ids_stored_one_version (one_version_per_group_singleton _ _))
    as (db' & v' & Hsave & _ & Hinv).
  by exists db', v'.
Defined.

(** X19: soft-deleting the current version, held in memory with its stored
    [row_id] and [created_at], keeps the version query single-valued per
    group. *)
Theorem delete_keeps_one_version_per_group
    (now : Z) (v : Instance) (db : Database) (p : nat) (r : Row) :
  pk v = Some p → table db !! p = Some r → replaced_at r = None →
  row_id (cols v) = row_id r → created_at (cols v) = created_at r →
  one_version_per_group (table db) →
  one_version_per_group (table (PointInTimeModel.delete now v db).1).
Proof.
  intros Hpk Hp Hcur Hg Hc. apply one_version_per_group_shrink.
  unfold PointInTimeModel.delete, PointInTimeModel._save, Model_.save.
  cbn [on_cols pk cols]. rewrite Hpk. cbn [fst table].
  intros k r' Hk. destruct (decide (k = p)) as [-> | Hkp].
  - rewrite lookup_insert_eq in Hk. injection Hk as <-.
    exists r. split; [done |]. split; [done |].
    intros t [Hcreated _]. simpl in Hcreated. rewrite Hc in Hcreated.
    split; [done | by left].
  - rewrite lookup_insert_ne in Hk by done. by exists r'.
Qed.

Lemma delete_keeps_one_version_per_group_witness :
  one_version_per_group
    (table (PointInTimeModel.delete 50 Sample.first_instance Sample.one_version).1).
Proof.
  apply (delete_keeps_one_version_per_group 50 Sample.first_instance Sample.one_version
           1%nat Sample.first_row eq_refl eq_refl eq_refl eq_refl eq_refl).
  apply one_version_per_group_singleton.
Defined.

(** X20: a core revert of a saved version to a stored version of its group
    whose transaction-time window is not empty, if it returns, keeps the
    version query single-valued per group. *)
Theorem rollback_to_keeps_one_version_per_group
    (m : Model) (fields exclude : option (list string))
    (v target : Instance) (db db' : Database) (v' : Instance) (p q : nat) (tc : Z) :
  NoDup (name <$> get_fields m) →
  pk v = Some p → pk target = Some q →
  created_at (cols target) = Some tc →
  row_id (cols target) = row_id (cols v) →
  table db !! q = Some (cols target) →
  (∀ x, replaced_at (cols target) = Some x → tc < x) →
  one_version_per_group (table db) →
  PointInTimeModel._rollback_to m target fields exclude v db = Ok (db', v') →
  one_version_per_group (table db').
Proof.
  intros Hnd Hp Hq Htc Hgroup Hstored Hwindow Hinv Hrb.
  destruct (rollback_to_guards _ _ _ _ _ _ _ _ Hrb) as (Hpk & Hrep & c & tc' & Hc & Htc' & Hlt).
  rewrite Htc in Htc'. injection Htc' as <-.
  assert (Hne : p ≠ q) by congruence.
  destruct (rollback_to_returns m fields exclude v target db db' v' p tc Hnd Hp Htc Hrb)
    as [Hv' Htbl].
  assert (Hrow : row_id (cols v') = row_id (cols v)).
  { rewrite Hv'. unfold reverted_instance. simpl. by apply row_id_revert_fields. }
  assert (Hc' : created_at (cols v') = Some tc) by (by rewrite Hv').
  clear Hv' Hrb. rewrite Htbl. clear Htbl.
  rewrite one_version_per_group_alt in Hinv. apply one_version_per_group_alt.
  set (tbl' := <[p := cols v']> _).
  assert (Hlook : ∀ k r, k ≠ p → tbl' !! k = Some r →
    table db !! k = Some r ∧
    (row_id r = row_id (cols v) → ∀ x, created_at r = Some x → x < tc)).
  { intros k r Hk. unfold tbl'. rewrite lookup_insert_ne by done.
    rewrite (lookup_without_rows_selected
               (λ r, col_gte (created_at r) tc && bool_decide (row_id r = row_id (cols v'))))
      by done.
    rewrite Hrow. destruct (table db !! k) as [r' |]; [| done].
    destruct (col_gte (created_at r') tc && bool_decide (row_id r' = row_id (cols v))) eqn:Hsel;
      [done |].
    intros [= <-]. split; [done |]. intros Hg x Hx. rewrite Hx in Hsel. simpl in Hsel.
    rewrite (bool_decide_eq_true_2 (row_id r' = row_id (cols v))) in Hsel by done.
    rewrite andb_true_r in Hsel. apply bool_decide_eq_false in Hsel. lia. }
  assert (Htarget : recorded_at tc (cols target)).
  { split; [exists tc; split; [done | lia] |].
    destruct (replaced_at (cols target)) as [x |] eqn:Hx; [| by left].
    right. exists x. split; [done |]. by apply Hwindow. }
  (* a remaining version of the group recorded together with the reverted
     row was already recorded together with the target *)
  assert (Hclash : ∀ t k r, k ≠ p → tbl' !! k = Some r →
    recorded_at t r → recorded_at t (cols v') → row_id r = row_id (cols v') → False).
  { intros t k r Hk Hin Hrec Hrec' Hg. rewrite Hrow in Hg.
    destruct (Hlook k r Hk Hin) as [Hdb Hbefore].
    destruct Hrec as [(x & Hx & Hxt) Hrepl].
    destruct Hrec' as [(y & Hy & Hyt) _]. rewrite Hc' in Hy. injection Hy as <-.
    specialize (Hbefore Hg x Hx).
    assert (recorded_at tc r) as Hrtc.
    { split; [exists x; split; [done | lia] |].
      destruct Hrepl as [? | (z & Hz & Hzt)]; [by left |].
      right. exists z. split; [done | lia]. }
    assert (k = q) as -> by (apply (Hinv tc k q r (cols target)); auto; congruence).
    rewrite Hstored in Hdb. injection Hdb as <-. rewrite Htc in Hx. injection Hx as <-. lia. }
  intros t k1 k2 r1 r2 H1 H2 Hr1 Hr2 Hsame.
  destruct (decide (k1 = p)) as [-> | Hk1]; destruct (decide (k2 = p)) as [-> | Hk2];
    try done.
  - unfold tbl' in H1. rewrite lookup_insert_eq in H1. injection H1 as <-.
    exfalso. by apply (Hclash t k2 r2).
  - unfold tbl' in H2. rewrite lookup_insert_eq in H2. injection H2 as <-.
    exfalso. by apply (Hclash t k1 r1).
  - destruct (Hlook k1 r1 Hk1 H1) as [Hd1 _]. destruct (Hlook k2 r2 Hk2 H2) as [Hd2 _].
    by apply (Hinv t k1 k2 r1 r2).
Qed.

Lemma rollback_to_keeps_one_version_per_group_witness :
  ∃ db' v',
    PointInTimeModel._rollback_to Sample.model (mkInstance (Some 2%nat) Sample.old_row)
      None None Sample.current_instance Sample.two_versions = Ok (db', v') ∧
    one_version_per_group (table db').
Proof.
  destruct (PointInTimeModel._rollback_to Sample.model (mkInstance (Some 2%nat) Sample.old_row)
              None None Sample.current_instance Sample.two_versions)
    as [[db' v'] | e] eqn:Hrb; [| vm_compute in Hrb; discriminate Hrb].
  exists db', v'. split; [reflexivity |].
  apply (rollback_to_keeps_one_version_per_group Sample.model None None
           Sample.current_instance (mkInstance (Some 2%nat) Sample.old_row)
           Sample.two_versions db' v' 1%nat 2%nat 10); try reflexivity; try done.
  - apply (bool_decide_unpack _). vm_compute. exact I.
  - intros x [= <-]. unfold day. lia.
  - apply one_version_per_group_two_versions.
Defined.

(** ** Copying a row *)

Lemma getattr_other_key (n : string) (a b : option nat) (r : Row) :
  n ≠ "id" → getattr n (mkInstance a r) = getattr n (mkInstance b r).
Proof.
  intros Hn. unfold getattr. destruct (slot_of n) eqn:Hs; simpl; try done.
  exfalso. apply Hn. rewrite (slot_of_system n) by congruence. by rewrite Hs.
Qed.

(** X21: [objects.copy(pk)] returns [None], and writes nothing, exactly when no
    current row is stored under [pk].  Otherwise it inserts one row under
    an unused key and leaves every stored row, the copied one included, as
    it was; the new row has the excluded attributes null and all others
    equal to the copied row's. *)
Theorem copy_duplicates_a_current_row
    (pk_ : option nat) (exclude : list string) (tbl : Table) :
  (PointInTimeDefaultManager.copy pk_ exclude tbl = None ↔
     ∀ k r, pk_ = Some k → tbl !! k = Some r → replaced_at r ≠ None) ∧
  (∀ k r, pk_ = Some k → tbl !! k = Some r → replaced_at r = None →
     ∃ tbl' new k',
       PointInTimeDefaultManager.copy pk_ exclude tbl = Some (tbl', new) ∧
       pk new = Some k' ∧
       tbl !! k' = None ∧
       tbl' !! k' = Some (cols new) ∧
       (∀ j, j ≠ k' → tbl' !! j = tbl !! j) ∧
       (∀ n, n ≠ "id" → n ≠ "pk" →
          getattr n new = if bool_decide (n ∈ exclude) then PyNone
                          else getattr n (mkInstance (Some k) r))).
Proof.
  assert (Hsome : ∀ k r, pk_ = Some k → tbl !! k = Some r → replaced_at r = None →
            PointInTimeDefaultManager.copy pk_ exclude tbl =
              Some (<[Model_.new_pk tbl := cols (nulled exclude r)]> tbl,
                    mkInstance (Some (Model_.new_pk tbl)) (cols (nulled exclude r)))).
  { intros k r -> Hk Hcur.
    apply (copy_current exclude (mkInstance (Some k) r) tbl k r); done. }
  split.
  - split.
    + intros Hnone k r Hpk Hk Hcur. by rewrite (Hsome k r) in Hnone.
    + intros Hno. unfold PointInTimeDefaultManager.copy.
      destruct pk_ as [k |]; simpl; [| done].
      destruct (PointInTimeDefaultManager.current tbl !! k) as [r |] eqn:Hcur; [| done].
      apply lookup_current in Hcur as [Hk Hnull]. by destruct (Hno k r eq_refl Hk).
  - intros k r Hpk Hk Hcur. eexists _, _, (Model_.new_pk tbl).
    split; [by apply (Hsome k r) |]. simpl.
    split; [done |]. split; [apply new_pk_fresh |].
    split; [by rewrite lookup_insert_eq |].
    split; [by intros j Hj; rewrite lookup_insert_ne |].
    intros n Hn _.
    rewrite (getattr_other_key n _ None) by done.
    transitivity (getattr n (nulled exclude r)).
    { f_equal. destruct (nulled exclude r) eqn:Hnul. simpl. f_equal.
      pose proof (pk_nulled exclude r) as Hp. rewrite Hnul in Hp. by simpl in Hp. }
    unfold nulled. rewrite getattr_foldl_null_attr.
    case_bool_decide; [done |]. by apply getattr_other_key.
Qed.

Lemma copy_duplicates_a_current_row_witness :
  (∃ tbl' new,
     PointInTimeDefaultManager.copy (Some 1%nat) ["partner"] (table Sample.two_versions)
       = Some (tbl', new) ∧
     getattr "partner" new = PyNone ∧ getattr "c1" new = PyStr "second") ∧
  PointInTimeDefaultManager.copy (Some 2%nat) ["partner"] (table Sample.two_versions) = None.
Proof.
  destruct (copy_duplicates_a_current_row (Some 1%nat) ["partner"] (table Sample.two_versions))
    as [_ Hsome].
  destruct (copy_duplicates_a_current_row (Some 2%nat) ["partner"] (table Sample.two_versions))
    as [[_ Hnone] _].
  split.
  - destruct (Hsome 1%nat Sample.new_row eq_refl eq_refl eq_refl)
      as (tbl' & new & k' & Hcopy & _ & _ & _ & _ & Hattr).
    exists tbl', new. split; [done |]. by rewrite !Hattr.
  - apply Hnone. intros k r [= <-] Hk. unfold Sample.two_versions in Hk. simpl in Hk.
    rewrite lookup_insert_ne in Hk by done.
    by apply lookup_singleton_Some in Hk as [_ <-].
Defined.

(** ** Moving frozen references *)

(** X22: [move_frozen_relationships] from a saved [self] to a saved [target]
    keeps every referencing model and its set of rows.  It moves to
    [target] exactly the edges on [self] held by rows the reverse manager
    returns; an edge held by a replaced row of a versioned referrer, and any
    edge on another key, stays where it is. *)
Theorem move_frozen_relationships_moves_live_edges_only
    (self target : Instance) (refs : list Referrer) (s t : nat) :
  pk self = Some s → pk target = Some t →
  ∃ refs',
    PointInTimeModel.move_frozen_relationships self target refs = Ok refs' ∧
    length refs' = length refs ∧
    ∀ i ref, refs !! i = Some ref →
      ∃ ref', refs' !! i = Some ref' ∧ ref_keys ref' = ref_keys ref ∧
        ∀ j, (edge_live ref j → edge_target ref j = Some s → edge_target ref' j = Some t) ∧
             (¬ edge_live ref j → edge_target ref' j = edge_target ref j) ∧
             (edge_target ref j ≠ Some s → edge_target ref' j = edge_target ref j).
Proof.
  intros Hs Ht. exists (repoint s t <$> refs).
  split; [by apply move_frozen_relationships_saved |].
  split; [apply length_fmap |].
  intros i ref Hi. exists (repoint s t ref).
  split; [by rewrite list_lookup_fmap, Hi |].
  split; [apply ref_keys_repoint |].
  intros j. split; [| split].
  - by apply edge_target_repoint_live.
  - by apply edge_target_repoint_not_live.
  - by apply edge_target_repoint_ne.
Qed.

Lemma move_frozen_relationships_moves_live_edges_only_witness :
  ∃ refs',
    PointInTimeModel.move_frozen_relationships Sample.current_instance
      (mkInstance (Some 2%nat) Sample.old_row) (referrers Sample.referenced) = Ok refs' ∧
    length refs' = 2%nat.
Proof.
  destruct (move_frozen_relationships_moves_live_edges_only Sample.current_instance
              (mkInstance (Some 2%nat) Sample.old_row) (referrers Sample.referenced)
              1%nat 2%nat eq_refl eq_refl)
    as (refs' & Hmove & Hlen & _).
  exists refs'. by rewrite Hlen.
Defined.

(** ** The guard of rollback_to_at *)

(** X23: [rollback_to_at] raises [AssertionError] on an instance that is not the
    one latest version of its group: when two distinct stored versions of
    the group were created at or after the instance's [created_at], and
    when none was. *)
Theorem rollback_to_at_refuses_a_version_that_is_not_the_latest
    (m : Model) (time : pyval) (fields exclude : option (list string))
    (v : Instance) (db : Database) (c : Z) :
  created_at (cols v) = Some c →
  (∀ k1 k2 r1 r2 x1 x2,
     k1 ≠ k2 →
     table db !! k1 = Some r1 → row_id r1 = row_id (cols v) → created_at r1 = Some x1 → c ≤ x1 →
     table db !! k2 = Some r2 → row_id r2 = row_id (cols v) → created_at r2 = Some x2 → c ≤ x2 →
     PointInTimeModel.rollback_to_at m time fields exclude v db = Err AssertionError) ∧
  ((∀ k r x, table db !! k = Some r → row_id r = row_id (cols v) → created_at r = Some x →
             x < c) →
   PointInTimeModel.rollback_to_at m time fields exclude v db = Err AssertionError).
Proof.
  intros Hc.
  set (qs := qs_filter (λ _ r, bool_decide (row_id r = row_id (cols v))
                               && col_gte (created_at r) c) (table db)).
  assert (Hin : ∀ k r, qs !! k = Some r ↔
            table db !! k = Some r ∧ row_id r = row_id (cols v) ∧
            ∃ x, created_at r = Some x ∧ c ≤ x).
  { intros k r. unfold qs.
    rewrite lookup_qs_filter, andb_true_iff, bool_decide_eq_true, col_gte_spec. tauto. }
  assert (Hfail : size qs ≠ 1%nat →
            PointInTimeModel.rollback_to_at m time fields exclude v db = Err AssertionError).
  { intros Hsize. unfold PointInTimeModel.rollback_to_at. rewrite Hc. simpl. fold qs.
    by rewrite bool_decide_eq_false_2. }
  split.
  - intros k1 k2 r1 r2 x1 x2 Hne H1 Hg1 Hx1 Hle1 H2 Hg2 Hx2 Hle2. apply Hfail.
    intros Hsize. apply Hne. apply (map_size_1_unique qs k1 k2 r1 r2 Hsize); apply Hin; eauto.
  - intros Hnone. apply Hfail.
    assert (qs = ∅) as ->; [| by rewrite map_size_empty].
    apply map_empty. intros k. apply eq_None_not_Some. intros [r Hr].
    apply Hin in Hr as (Hk & Hg & x & Hx & Hle). specialize (Hnone k r x Hk Hg Hx). lia.
Qed.

Lemma rollback_to_at_refuses_a_version_that_is_not_the_latest_witness :
  PointInTimeModel.rollback_to_at Sample.model (PyDatetime 5) None None
    (mkInstance (Some 2%nat) Sample.old_row) Sample.two_versions = Err AssertionError.
Proof.
  destruct (rollback_to_at_refuses_a_version_that_is_not_the_latest Sample.model (PyDatetime 5)
              None None (mkInstance (Some 2%nat) Sample.old_row) Sample.two_versions 10 eq_refl)
    as [Hstale _].
  apply (Hstale 1%nat 2%nat Sample.new_row Sample.old_row (day + 5) 10);
    try reflexivity; try done; unfold day; lia.
Defined.
